(** * health-tracker: the record store and the analytics engine

    A shallow embedding of [src/db/database.js] and [src/utils/analytics.js].

    Conventions of the embedding.
    - A JavaScript number is an IEEE double: [NaN], the two infinities, or a
      finite value, which is held as the rational it denotes.  A sum, a
      difference, a product and a quotient of finite values are the double
      nearest to the exact result ([Num.double]: 53 bits of significand, a
      tie going to the even significand, gradual underflow, overflow to an
      infinity); comparisons and [Math.round] are exact.  The negative zero
      is identified with zero: the two are [===] in JavaScript and print
      alike in JSON, so that no stored document holds it; only a division
      by it tells them apart.
    - A JavaScript string is a [string] that holds the text in UTF-8, one
      byte for each ASCII character; [<=] and [>=] on strings compare
      lexicographically, a prefix being smaller ([String.leb]): on UTF-8
      this is the order of the code points, which is the order of the
      UTF-16 code units for all texts of the Basic Multilingual Plane.
    - The own properties of an object are an association list in the order in
      which JavaScript enumerates them.
    - The storage medium is a working key-value store.  A stored text is
      represented by the document it denotes, so that [JSON.parse] reads the
      document back and [JSON.stringify] followed by [setItem] stores the JSON
      image of a value.
    - [Date.now()] and [new Date().toISOString()] are inputs of the operations
      that read the clock.
    - An [async] function is run to completion; a rejected promise is
      [Throw], whose argument is the [message] of the JavaScript [Error]. *)

From Stdlib Require Import List String Ascii Bool ZArith NArith QArith Qround.
From Stdlib Require Import Qminmax Qabs Qpower Lia Lqa Sorted Permutation.
From Stdlib Require Import DecimalString DecimalPos.
From Stdlib Require OrdersEx.
Import ListNotations.

Local Open Scope string_scope.
Local Open Scope Q_scope.

Set Warnings "-register-all".

(** ** Numbers *)

Module Num.

Inductive number : Type :=
| NaN
| NegInf
| Fin (q : Q)
| PosInf.

Definition is_finite (n : number) : bool :=
  match n with Fin _ => true | _ => false end.

(** [a < b] *)
Definition lt (a b : number) : bool :=
  match a, b with
  | NaN, _ | _, NaN => false
  | NegInf, NegInf => false
  | NegInf, _ => true
  | _, NegInf => false
  | PosInf, _ => false
  | Fin _, PosInf => true
  | Fin x, Fin y => negb (Qle_bool y x)
  end.

(** [a > b] *)
Definition gt (a b : number) : bool := lt b a.

(** [a === b] on numbers *)
Definition eq (a b : number) : bool :=
  match a, b with
  | NegInf, NegInf | PosInf, PosInf => true
  | Fin x, Fin y => Qeq_bool x y
  | _, _ => false
  end.

(** ToBoolean on a number: every number is truthy but zero and NaN. *)
Definition truthy (n : number) : bool :=
  match n with
  | NaN => false
  | Fin q => negb (Qeq_bool q 0)
  | _ => true
  end.

Definition opp (a : number) : number :=
  match a with
  | NaN => NaN
  | NegInf => PosInf
  | Fin q => Fin (- q)
  | PosInf => NegInf
  end.

(** The integer nearest to [q], a tie going to the even one. *)
Definition nearest_even (q : Q) : Z :=
  let f := Qfloor q in
  match Qcompare (q - inject_Z f) (1 # 2) with
  | Lt => f
  | Gt => (f + 1)%Z
  | Eq => if Z.even f then f else (f + 1)%Z
  end.

(** The exponent [e] with [2^e <= |q| < 2^(e+1)], for [q] other than zero:
    the difference of the binary lengths of the numerator and of the
    denominator, or one less. *)
Definition binade (q : Q) : Z :=
  let e := (Z.log2 (Z.abs (Qnum q)) - Z.log2 (Zpos (Qden q)))%Z in
  if Qle_bool (2 ^ e) (Qabs q) then e else (e - 1)%Z.

(** The exponent of the last place of the doubles around [q]: 52 places
    below the binade, and never below the smallest subnormal, [2^-1074]. *)
Definition ulp_exponent (q : Q) : Z := Z.max (binade q - 52) (-1074).

(** The double nearest to a real, as IEEE 754 rounds the exact result of an
    operation: the nearest multiple of the last place, a tie going to the
    even multiple, and an infinity when that multiple reaches [2^1024].
    The result is kept as a reduced fraction. *)
Definition double (q : Q) : number :=
  if Qeq_bool q 0 then Fin 0
  else
    let e := ulp_exponent q in
    let r := Qred (inject_Z (nearest_even (q / 2 ^ e)) * 2 ^ e) in
    if Qle_bool (2 ^ 1024) (Qabs r)
    then if Qle_bool 0 q then PosInf else NegInf
    else Fin r.

(** [a + b] *)
Definition add (a b : number) : number :=
  match a, b with
  | NaN, _ | _, NaN => NaN
  | PosInf, NegInf | NegInf, PosInf => NaN
  | PosInf, _ | _, PosInf => PosInf
  | NegInf, _ | _, NegInf => NegInf
  | Fin x, Fin y => double (x + y)
  end.

(** [a - b] *)
Definition sub (a b : number) : number := add a (opp b).

(** The sign of a finite value decides the product with an infinity. *)
Definition scale_inf (inf : number) (q : Q) : number :=
  if Qeq_bool q 0 then NaN
  else if Qle_bool 0 q then inf else opp inf.

(** [a * b] *)
Definition mul (a b : number) : number :=
  match a, b with
  | NaN, _ | _, NaN => NaN
  | Fin x, Fin y => double (x * y)
  | Fin x, inf => scale_inf inf x
  | inf, Fin y => scale_inf inf y
  | PosInf, PosInf | NegInf, NegInf => PosInf
  | _, _ => NegInf
  end.

(** [a / b]: a finite value over zero is an infinity of the sign of the
    numerator, zero over zero is NaN. *)
Definition div (a b : number) : number :=
  match a, b with
  | NaN, _ | _, NaN => NaN
  | Fin x, Fin y =>
      if Qeq_bool y 0 then scale_inf PosInf x else double (x / y)
  | Fin _, _ => Fin 0
  | inf, Fin y => if Qle_bool 0 y then inf else opp inf
  | _, _ => NaN
  end.

(** [Math.round]: the nearest integer, a half rounding up. *)
Definition round (a : number) : number :=
  match a with
  | Fin q => Fin (inject_Z (Qfloor (q + (1 # 2))))
  | other => other
  end.

(** [Math.min] on two arguments. *)
Definition min (a b : number) : number :=
  match a, b with
  | NaN, _ | _, NaN => NaN
  | _, _ => if lt a b then a else b
  end.

Definition of_Z (z : Z) : number := Fin (inject_Z z).

End Num.

Import Num.

(** ** Values, objects and JSON *)

Module JS.

(** Plain data: what the callers pass and what JSON can carry. *)
Inductive value : Type :=
| VUndefined
| VNull
| VBool (b : bool)
| VNum (n : number)
| VStr (s : string)
| VArr (items : list value)
| VObj (props : list (string * value)).

(** [typeof v] *)
Definition typeof (v : value) : string :=
  match v with
  | VUndefined => "undefined"
  | VNull => "object"
  | VBool _ => "boolean"
  | VNum _ => "number"
  | VStr _ => "string"
  | VArr _ => "object"
  | VObj _ => "object"
  end.

(** ToBoolean: the falsy values are [undefined], [null], [false], [0], [NaN]
    and the empty string. *)
Definition ToBoolean (v : value) : bool :=
  match v with
  | VUndefined | VNull => false
  | VBool b => b
  | VNum n => Num.truthy n
  | VStr s => negb (s =? "")
  | VArr _ | VObj _ => true
  end.

(** [a || b] *)
Definition or (a b : value) : value := if ToBoolean a then a else b.

(** *** Own properties *)

Section Props.
Context {A : Type}.

Definition props := list (string * A).

Fixpoint own (k : string) (o : props) : option A :=
  match o with
  | [] => None
  | (k', a) :: rest => if k' =? k then Some a else own k rest
  end.

Definition has_own (k : string) (o : props) : bool :=
  match own k o with Some _ => true | None => false end.

Fixpoint update_own (k : string) (a : A) (o : props) : props :=
  match o with
  | [] => []
  | (k', a') :: rest =>
      if k' =? k then (k', a) :: rest else (k', a') :: update_own k a rest
  end.

(** An array index is the canonical decimal text of an integer below
    [2^32 - 1]; such keys are enumerated first, in ascending order, the other
    keys after them in the order of their creation. *)
Definition digit (c : ascii) : option N :=
  let n := N_of_ascii c in
  if ((48 <=? n) && (n <=? 57))%N then Some (n - 48)%N else None.

Fixpoint digits (acc : N) (s : string) : option N :=
  match s with
  | EmptyString => Some acc
  | String c rest =>
      match digit c with
      | Some d => digits (10 * acc + d)%N rest
      | None => None
      end
  end.

Definition array_index (s : string) : option N :=
  match s with
  | EmptyString => None
  | String "0"%char EmptyString => Some 0%N
  | String "0"%char _ => None
  | _ =>
      match digits 0 s with
      | Some n => if (n <? 4294967295)%N then Some n else None
      | None => None
      end
  end.

Fixpoint insert_index (i : N) (k : string) (a : A) (o : props) : props :=
  match o with
  | [] => [(k, a)]
  | (k', a') :: rest =>
      match array_index k' with
      | Some j =>
          if (j <? i)%N then (k', a') :: insert_index i k a rest
          else (k, a) :: o
      | None => (k, a) :: o
      end
  end.

(** CreateDataProperty: the value of an existing key is replaced in place, a
    new key takes its place in the enumeration order. *)
Definition define (k : string) (a : A) (o : props) : props :=
  if has_own k o then update_own k a o
  else
    match array_index k with
    | Some i => insert_index i k a o
    | None => (o ++ [(k, a)])%list
    end.

(** [delete o[k]] *)
Definition delete (k : string) (o : props) : props :=
  filter (fun kv => negb (fst kv =? k)) o.

(** [Object.values(o)] *)
Definition Object_values (o : props) : list A := map snd o.

(** The properties that an object created by [JSON.parse] or by an object
    literal inherits from [Object.prototype]. *)
Definition Object_prototype : list string :=
  [ "constructor"; "__defineGetter__"; "__defineSetter__"; "hasOwnProperty";
    "__lookupGetter__"; "__lookupSetter__"; "isPrototypeOf";
    "propertyIsEnumerable"; "toString"; "valueOf"; "toLocaleString";
    "__proto__" ].

Definition inherited (k : string) : bool :=
  existsb (fun name => name =? k) Object_prototype.

(** The outcome of the read [o[k]]: an own property, a member of
    [Object.prototype] (a function, or the prototype itself for
    ["__proto__"]; all of them truthy objects), or [undefined]. *)
Inductive lookup : Type :=
| Own (a : A)
| Inherited (name : string)
| Missing.

Definition get (k : string) (o : props) : lookup :=
  match own k o with
  | Some a => Own a
  | None => if inherited k then Inherited k else Missing
  end.

(** [o[k] = a] where [a] is an object: an own key is written as by [define];
    the key ["__proto__"], when it is not an own key, reaches the setter of
    [Object.prototype], which replaces the prototype of [o] and creates no
    property. *)
Definition assign (k : string) (a : A) (o : props) : props :=
  if (k =? "__proto__") && negb (has_own k o) then o else define k a o.

End Props.

Arguments props : clear implicits.
Arguments lookup : clear implicits.

(** The read [o.k] where [k] is none of the inherited names. *)
Definition field (k : string) (o : props value) : value :=
  match own k o with Some v => v | None => VUndefined end.

(** [{...o, ...p}]: the own properties of [p] are copied in order. *)
Definition spread (p o : props value) : props value :=
  fold_left (fun acc kv => define (fst kv) (snd kv) acc) p o.

(** *** JSON *)

(** [JSON.parse(JSON.stringify(v))]: a number that is not finite becomes
    [null], an [undefined] property is dropped, an [undefined] array element
    becomes [null]. *)
Fixpoint JSON_image (v : value) : value :=
  match v with
  | VNum n => if Num.is_finite n then v else VNull
  | VArr items =>
      VArr (map (fun x => match x with
                          | VUndefined => VNull
                          | _ => JSON_image x
                          end) items)
  | VObj o =>
      VObj (flat_map (fun kv => match kv with
                                | (_, VUndefined) => []
                                | (k, x) => [(k, JSON_image x)]
                                end) o)
  | _ => v
  end.

Definition JSON_props (o : props value) : props value :=
  flat_map (fun kv => match kv with
                      | (_, VUndefined) => []
                      | (k, x) => [(k, JSON_image x)]
                      end) o.

Definition JSON_items (items : list value) : list value :=
  map (fun x => match x with VUndefined => VNull | _ => JSON_image x end) items.

(** Induction on a value and on the values inside it. *)
Section ValueInduction.
Variable P : value -> Prop.
Hypothesis case_undefined : P VUndefined.
Hypothesis case_null : P VNull.
Hypothesis case_bool : forall b, P (VBool b).
Hypothesis case_num : forall n, P (VNum n).
Hypothesis case_str : forall s, P (VStr s).
Hypothesis case_arr : forall items, Forall P items -> P (VArr items).
Hypothesis case_obj :
  forall o, Forall (fun kv => P (snd kv)) o -> P (VObj o).

Fixpoint value_induction (v : value) : P v :=
  match v with
  | VUndefined => case_undefined
  | VNull => case_null
  | VBool b => case_bool b
  | VNum n => case_num n
  | VStr s => case_str s
  | VArr items =>
      case_arr items
        ((fix each (l : list value) : Forall P l :=
            match l with
            | [] => Forall_nil P
            | x :: rest => Forall_cons x (value_induction x) (each rest)
            end) items)
  | VObj o =>
      case_obj o
        ((fix each (l : list (string * value))
            : Forall (fun kv => P (snd kv)) l :=
            match l with
            | [] => Forall_nil _
            | kv :: rest =>
                Forall_cons kv (value_induction (snd kv)) (each rest)
            end) o)
  end.

End ValueInduction.

(** A stored document: a value that JSON carries unchanged. *)
Definition is_JSON (v : value) : Prop := v <> VUndefined /\ JSON_image v = v.

(** ToString of an integer number: its decimal text (every integer below
    [10^21] in absolute value prints so). *)
Definition Number_toString (z : Z) : string :=
  NilZero.string_of_int (Z.to_int z).

End JS.

Import JS.

(** ** The record store: [src/db/database.js] *)

Module Database.

(** The settlement of the promise an exported function returns. *)
Inductive result (A : Type) : Type :=
| Ok (a : A)
| Throw (message : string).

Arguments Ok {A} a.
Arguments Throw {A} message.

(** [try { ... } catch (error) { throw new Error(prefix + error.message) }] *)
Definition rethrow {A : Type} (prefix : string) (r : result A) : result A :=
  match r with
  | Ok a => Ok a
  | Throw message => Throw (prefix ++ message)
  end.

(** What [saveDailyEntry] writes under a date.  The three measures are
    numbers when they are written; JSON keeps a finite number and turns any
    other into [null], here [None]. *)
Record DailyEntry : Type := {
  id : Z;
  date : string;
  water_ml : option Q;
  calories : option Q;
  steps : option Q;
  created_at : string
}.

(** The four documents of [STORAGE_KEYS]; [None] is a key that has no item.
    The entries and the medicines are objects used as maps, a medicine and
    the profile are objects, the dose history is an array. *)
Record Storage : Type := {
  DAILY_ENTRIES : option (props DailyEntry);
  USER_PROFILE : option (props value);
  MEDICINES : option (props (props value));
  MEDICINE_DOSE_HISTORY : option (list value)
}.

Definition empty_storage : Storage :=
  {| DAILY_ENTRIES := None; USER_PROFILE := None;
     MEDICINES := None; MEDICINE_DOSE_HISTORY := None |}.

Definition with_DAILY_ENTRIES (d : option (props DailyEntry)) (st : Storage) :=
  {| DAILY_ENTRIES := d; USER_PROFILE := USER_PROFILE st;
     MEDICINES := MEDICINES st;
     MEDICINE_DOSE_HISTORY := MEDICINE_DOSE_HISTORY st |}.

Definition with_USER_PROFILE (d : option (props value)) (st : Storage) :=
  {| DAILY_ENTRIES := DAILY_ENTRIES st; USER_PROFILE := d;
     MEDICINES := MEDICINES st;
     MEDICINE_DOSE_HISTORY := MEDICINE_DOSE_HISTORY st |}.

Definition with_MEDICINES (d : option (props (props value))) (st : Storage) :=
  {| DAILY_ENTRIES := DAILY_ENTRIES st; USER_PROFILE := USER_PROFILE st;
     MEDICINES := d;
     MEDICINE_DOSE_HISTORY := MEDICINE_DOSE_HISTORY st |}.

Definition with_MEDICINE_DOSE_HISTORY (d : option (list value))
  (st : Storage) :=
  {| DAILY_ENTRIES := DAILY_ENTRIES st; USER_PROFILE := USER_PROFILE st;
     MEDICINES := MEDICINES st;
     MEDICINE_DOSE_HISTORY := d |}.

(** [{ changes: 1, lastInsertRowid: ... }] *)
Record RunResult : Type := { changes : Z; lastInsertRowid : Z }.

(** The JSON image of a number. *)
Definition JSON_number (n : number) : option Q :=
  match n with Fin q => Some q | _ => None end.

(** The number that a value of type ["number"] is. *)
Definition number_of (v : value) : number :=
  match v with VNum n => n | _ => NaN end.

(** The string that a value of type ["string"] is. *)
Definition string_of (v : value) : string :=
  match v with VStr s => s | _ => "" end.

(** [v < c] and [v > c], which the validators evaluate behind a test of
    [typeof v] only. *)
Definition below (v : value) (c : Q) : bool := Num.lt (number_of v) (Fin c).
Definition above (v : value) (c : Q) : bool := Num.gt (number_of v) (Fin c).

(** [errors.push(message)] when [test] holds. *)
Definition push_if (test : bool) (message : string) (errors : list string)
  : list string :=
  if test then (errors ++ [message])%list else errors.

Definition validateDailyEntry (water_ml calories steps : value) : list string :=
  let errors := [] in
  let errors :=
    push_if (negb (typeof water_ml =? "number")
             || below water_ml 0 || above water_ml 10000)
      "Water intake must be between 0 and 10,000 ml" errors in
  let errors :=
    push_if (negb (typeof calories =? "number")
             || below calories 0 || above calories 10000)
      "Calories must be between 0 and 10,000" errors in
  let errors :=
    push_if (negb (typeof steps =? "number")
             || below steps 0 || above steps 100000)
      "Steps must be between 0 and 100,000" errors in
  errors.

Definition validateUserProfile (profile : props value) : list string :=
  let errors := [] in
  let name := field "name" profile in
  let errors :=
    push_if (ToBoolean name && negb (typeof name =? "string"))
      "Name must be a string" errors in
  let weight_kg := field "weight_kg" profile in
  let errors :=
    push_if (ToBoolean weight_kg
             && (negb (typeof weight_kg =? "number")
                 || below weight_kg 20 || above weight_kg 500))
      "Weight must be between 20 and 500 kg" errors in
  let height_cm := field "height_cm" profile in
  let errors :=
    push_if (ToBoolean height_cm
             && (negb (typeof height_cm =? "number")
                 || below height_cm 50 || above height_cm 300))
      "Height must be between 50 and 300 cm" errors in
  let daily_water_goal_ml := field "daily_water_goal_ml" profile in
  let errors :=
    push_if (ToBoolean daily_water_goal_ml
             && (negb (typeof daily_water_goal_ml =? "number")
                 || below daily_water_goal_ml 500
                 || above daily_water_goal_ml 5000))
      "Water goal must be between 500 and 5,000 ml" errors in
  let daily_calorie_goal := field "daily_calorie_goal" profile in
  let errors :=
    push_if (ToBoolean daily_calorie_goal
             && (negb (typeof daily_calorie_goal =? "number")
                 || below daily_calorie_goal 1200
                 || above daily_calorie_goal 4000))
      "Calorie goal must be between 1,200 and 4,000 calories" errors in
  let daily_step_goal := field "daily_step_goal" profile in
  let errors :=
    push_if (ToBoolean daily_step_goal
             && (negb (typeof daily_step_goal =? "number")
                 || below daily_step_goal 1000
                 || above daily_step_goal 50000))
      "Step goal must be between 1,000 and 50,000 steps" errors in
  errors.

(** [Array.prototype.sort(comparefn)].  The sort is stable, and for a
    consistent comparison function the result is the one arrangement that is
    sorted and stable; it is computed here by insertion. *)
Fixpoint insert_sorted {A : Type} (comparefn : A -> A -> Z) (x : A)
  (sorted : list A) : list A :=
  match sorted with
  | [] => [x]
  | y :: rest =>
      if (comparefn x y <=? 0)%Z then x :: sorted
      else y :: insert_sorted comparefn x rest
  end.

Definition Array_sort {A : Type} (comparefn : A -> A -> Z) (l : list A)
  : list A :=
  fold_right (insert_sorted comparefn) [] l.

Definition defaultProfile : props value :=
  [ ("id", VNum (Fin 1)); ("name", VStr ""); ("birthdate", VNull);
    ("weight_kg", VNull); ("height_cm", VNull);
    ("daily_water_goal_ml", VNum (Fin 2000));
    ("daily_calorie_goal", VNum (Fin 2000));
    ("daily_step_goal", VNum (Fin 10000)) ].

(** [(x || 0) + 1] for the stored [doses_taken].  On a string [+]
    concatenates; on an array or an object it converts the operand to a
    primitive first, which is not modelled ([None]). *)
Definition plus_one (v : value) : option value :=
  match v with
  | VUndefined => Some (VNum NaN)
  | VNull => Some (VNum (Fin 1))
  | VBool b => Some (VNum (if b then Fin 2 else Fin 1))
  | VNum n => Some (VNum (Num.add n (Fin 1)))
  | VStr s => Some (VStr (s ++ "1"))
  | VArr _ | VObj _ => None
  end.

(** What [getTodayEntry] resolves to: [entries[date] || null]. *)
Inductive Fetched : Type :=
| Entry (e : DailyEntry)
| Builtin (name : string)
| Null.

Section Platform.

(** [Platform.OS === "web"] *)
Variable isWeb : bool.

(** [String.prototype.localeCompare], which depends on the host and its
    locale: negative, zero or positive. *)
Variable localeCompare : string -> string -> Z.

(** [webStorage] works on the web only; [mobileStorage] works where
    [getAsyncStorage] resolves to the module, that is off the web. *)
Definition webStorage_getItem {D : Type} (item : option D) : option D :=
  if isWeb then item else None.

Definition webStorage_setItem {D : Type} (doc : D) (item : option D)
  : option D :=
  if isWeb then Some doc else item.

Definition mobileStorage_getItem {D : Type} (item : option D) : option D :=
  if isWeb then None else item.

Definition mobileStorage_setItem {D : Type} (doc : D) (item : option D)
  : option D :=
  if isWeb then item else Some doc.

(** [JSON.parse(item || text)], [doc] being the document of [text]. *)
Definition parse_or {D : Type} (doc : D) (item : option D) : D :=
  match item with Some d => d | None => doc end.

Definition initDatabase (st : Storage) : result Storage :=
  rethrow "Database initialization failed: "
    (if isWeb then
       let existingEntries := webStorage_getItem (DAILY_ENTRIES st) in
       let st :=
         match existingEntries with
         | None =>
             with_DAILY_ENTRIES (webStorage_setItem [] (DAILY_ENTRIES st)) st
         | Some _ => st
         end in
       let existingProfile := webStorage_getItem (USER_PROFILE st) in
       let st :=
         match existingProfile with
         | None =>
             with_USER_PROFILE
               (webStorage_setItem (JSON_props defaultProfile)
                  (USER_PROFILE st)) st
         | Some _ => st
         end in
       Ok st
     else
       let existingEntries := mobileStorage_getItem (DAILY_ENTRIES st) in
       let st :=
         match existingEntries with
         | None =>
             with_DAILY_ENTRIES
               (mobileStorage_setItem [] (DAILY_ENTRIES st)) st
         | Some _ => st
         end in
       let existingProfile := mobileStorage_getItem (USER_PROFILE st) in
       let st :=
         match existingProfile with
         | None =>
             with_USER_PROFILE
               (mobileStorage_setItem (JSON_props defaultProfile)
                  (USER_PROFILE st)) st
         | Some _ => st
         end in
       Ok st).

Definition or_null (l : lookup DailyEntry) : Fetched :=
  match l with
  | Own e => Entry e
  | Inherited name => Builtin name
  | Missing => Null
  end.

Definition getTodayEntry (st : Storage) (date : string) : Fetched :=
  if isWeb then
    let entries := parse_or [] (webStorage_getItem (DAILY_ENTRIES st)) in
    or_null (get date entries)
  else
    let entries := parse_or [] (mobileStorage_getItem (DAILY_ENTRIES st)) in
    or_null (get date entries).

(** The value of [entries[date].id] in the [return] of [saveDailyEntry] is the
    [id] of the entry just assigned: it is read from the own property, or,
    under the key ["__proto__"], from the prototype that the assignment has
    installed. *)
Definition saveDailyEntry (st : Storage) (Date_now : Z) (toISOString : string)
  (date water_ml calories steps : value) : result (Storage * RunResult) :=
  rethrow "Failed to save daily entry: "
    (let validationErrors := validateDailyEntry water_ml calories steps in
     if (0 <? List.length validationErrors)%nat then
       Throw ("Invalid data: " ++ String.concat ", " validationErrors)
     else if negb (ToBoolean date) || negb (typeof date =? "string") then
       Throw "Invalid date format"
     else
       let entry :=
         {| id := Date_now;
            date := string_of date;
            water_ml := JSON_number (number_of water_ml);
            calories := JSON_number (number_of calories);
            steps := JSON_number (number_of steps);
            created_at := toISOString |} in
       if isWeb then
         let entries := parse_or [] (webStorage_getItem (DAILY_ENTRIES st)) in
         let entries := assign (string_of date) entry entries in
         let st :=
           with_DAILY_ENTRIES
             (webStorage_setItem entries (DAILY_ENTRIES st)) st in
         Ok (st, {| changes := 1; lastInsertRowid := id entry |})
       else
         let entries :=
           parse_or [] (mobileStorage_getItem (DAILY_ENTRIES st)) in
         let entries := assign (string_of date) entry entries in
         let st :=
           with_DAILY_ENTRIES
             (mobileStorage_setItem entries (DAILY_ENTRIES st)) st in
         Ok (st, {| changes := 1; lastInsertRowid := id entry |})).

(** [entry.date >= startDate && entry.date <= endDate] *)
Definition in_range (startDate endDate : string) (entry : DailyEntry) : bool :=
  String.leb startDate (date entry) && String.leb (date entry) endDate.

(** [(a, b) => a.date.localeCompare(b.date)] *)
Definition by_date (a b : DailyEntry) : Z := localeCompare (date a) (date b).

Definition getEntriesForDateRange (st : Storage) (startDate endDate : string)
  : list DailyEntry :=
  if isWeb then
    let entries := parse_or [] (webStorage_getItem (DAILY_ENTRIES st)) in
    let result := filter (in_range startDate endDate) (Object_values entries) in
    Array_sort by_date result
  else
    let entries := parse_or [] (mobileStorage_getItem (DAILY_ENTRIES st)) in
    let result := filter (in_range startDate endDate) (Object_values entries) in
    Array_sort by_date result.

Definition saveUserProfile (st : Storage) (toISOString : string)
  (profile : props value) : result (Storage * RunResult) :=
  rethrow "Failed to save user profile: "
    (let validationErrors := validateUserProfile profile in
     if (0 <? List.length validationErrors)%nat then
       Throw ("Invalid profile data: " ++ String.concat ", " validationErrors)
     else if isWeb then
       let updatedProfile :=
         define "updated_at" (VStr toISOString)
           (spread profile (define "id" (VNum (Fin 1)) [])) in
       let st :=
         with_USER_PROFILE
           (webStorage_setItem (JSON_props updatedProfile) (USER_PROFILE st))
           st in
       Ok (st, {| changes := 1; lastInsertRowid := 1 |})
     else
       let updatedProfile :=
         define "updated_at" (VStr toISOString)
           (spread profile (define "id" (VNum (Fin 1)) [])) in
       let st :=
         with_USER_PROFILE
           (mobileStorage_setItem (JSON_props updatedProfile)
              (USER_PROFILE st)) st in
       Ok (st, {| changes := 1; lastInsertRowid := 1 |})).

Definition getUserProfile (st : Storage) : option (props value) :=
  if isWeb then webStorage_getItem (USER_PROFILE st)
  else mobileStorage_getItem (USER_PROFILE st).

(** The JSON image of the medicines map. *)
Definition JSON_medicines (medicines : props (props value))
  : props (props value) :=
  map (fun km => (fst km, JSON_props (snd km))) medicines.

Definition initMedicines (st : Storage) : Storage :=
  if isWeb then
    let existingMedicines := webStorage_getItem (MEDICINES st) in
    let st :=
      match existingMedicines with
      | None => with_MEDICINES (webStorage_setItem [] (MEDICINES st)) st
      | Some _ => st
      end in
    let existingHistory := webStorage_getItem (MEDICINE_DOSE_HISTORY st) in
    match existingHistory with
    | None =>
        with_MEDICINE_DOSE_HISTORY
          (webStorage_setItem [] (MEDICINE_DOSE_HISTORY st)) st
    | Some _ => st
    end
  else
    let existingMedicines := mobileStorage_getItem (MEDICINES st) in
    let st :=
      match existingMedicines with
      | None => with_MEDICINES (mobileStorage_setItem [] (MEDICINES st)) st
      | Some _ => st
      end in
    let existingHistory := mobileStorage_getItem (MEDICINE_DOSE_HISTORY st) in
    match existingHistory with
    | None =>
        with_MEDICINE_DOSE_HISTORY
          (mobileStorage_setItem [] (MEDICINE_DOSE_HISTORY st)) st
    | Some _ => st
    end.

(** A medicine is kept under the decimal text of its numeric [id]. *)
Definition deleteMedicine (st : Storage) (id : Z) : result Storage :=
  if isWeb then
    let medicines := parse_or [] (webStorage_getItem (MEDICINES st)) in
    let medicines := delete (Number_toString id) medicines in
    Ok (with_MEDICINES
          (webStorage_setItem (JSON_medicines medicines) (MEDICINES st)) st)
  else
    let medicines := parse_or [] (mobileStorage_getItem (MEDICINES st)) in
    let medicines := delete (Number_toString id) medicines in
    Ok (with_MEDICINES
          (mobileStorage_setItem (JSON_medicines medicines) (MEDICINES st)) st).

(** [{ id: Date.now(), medicine_id, dose_time, taken_at }] *)
Definition doseHistoryEntry (Date_now : Z) (medicineId : Z) (doseTime : value)
  (now : string) : value :=
  VObj [ ("id", VNum (Num.of_Z Date_now));
         ("medicine_id", VNum (Num.of_Z medicineId));
         ("dose_time", doseTime);
         ("taken_at", VStr now) ].

(** [medicines[medicineId]] reads an own property: the decimal text of a
    number is none of the inherited names.  The outer [None] is the case
    that [plus_one] leaves out. *)
Definition recordDoseTaken (st : Storage) (Date_now : Z) (toISOString : string)
  (medicineId : Z) (doseTime : value) : option (result Storage) :=
  let now := toISOString in
  if isWeb then
    let medicines := parse_or [] (webStorage_getItem (MEDICINES st)) in
    let counted :=
      match own (Number_toString medicineId) medicines with
      | Some medicine =>
          match plus_one (or (field "doses_taken" medicine) (VNum (Fin 0))) with
          | Some doses_taken =>
              let medicine := define "doses_taken" doses_taken medicine in
              let medicines :=
                update_own (Number_toString medicineId) medicine medicines in
              Some (with_MEDICINES
                      (webStorage_setItem (JSON_medicines medicines)
                         (MEDICINES st)) st)
          | None => None
          end
      | None => Some st
      end in
    match counted with
    | Some st =>
        let history :=
          parse_or [] (webStorage_getItem (MEDICINE_DOSE_HISTORY st)) in
        let history :=
          (history
             ++ [doseHistoryEntry Date_now medicineId doseTime now])%list in
        Some (Ok (with_MEDICINE_DOSE_HISTORY
                    (webStorage_setItem (JSON_items history)
                       (MEDICINE_DOSE_HISTORY st)) st))
    | None => None
    end
  else
    let medicines := parse_or [] (mobileStorage_getItem (MEDICINES st)) in
    let counted :=
      match own (Number_toString medicineId) medicines with
      | Some medicine =>
          match plus_one (or (field "doses_taken" medicine) (VNum (Fin 0))) with
          | Some doses_taken =>
              let medicine := define "doses_taken" doses_taken medicine in
              let medicines :=
                update_own (Number_toString medicineId) medicine medicines in
              Some (with_MEDICINES
                      (mobileStorage_setItem (JSON_medicines medicines)
                         (MEDICINES st)) st)
          | None => None
          end
      | None => Some st
      end in
    match counted with
    | Some st =>
        let history :=
          parse_or [] (mobileStorage_getItem (MEDICINE_DOSE_HISTORY st)) in
        let history :=
          (history
             ++ [doseHistoryEntry Date_now medicineId doseTime now])%list in
        Some (Ok (with_MEDICINE_DOSE_HISTORY
                    (mobileStorage_setItem (JSON_items history)
                       (MEDICINE_DOSE_HISTORY st)) st))
    | None => None
    end.

End Platform.

End Database.

(** ** The analytics engine: [src/utils/analytics.js] *)

Module Analytics.

(** [{ water, calories, steps, daysTracked }]: what [getWeeklyAverages]
    returns and what [analyzeTrend] compares. *)
Record Averages : Type := {
  water : number;
  calories : number;
  steps : number;
  daysTracked : number
}.

(** The accumulator of the [reduce] in [getWeeklyAverages]:
    [{ water, calories, steps, count }]. *)
Record Totals : Type := {
  acc_water : number;
  acc_calories : number;
  acc_steps : number;
  count : number
}.

Definition no_averages : Averages :=
  {| water := Fin 0; calories := Fin 0; steps := Fin 0;
     daysTracked := Fin 0 |}.

(** [measure || 0] on a stored measure, [None] being [null]. *)
Definition or_zero (measure : option Q) : number :=
  match measure with
  | Some q => if Num.truthy (Fin q) then Fin q else Fin 0
  | None => Fin 0
  end.

Definition add_entry (acc : Totals) (entry : Database.DailyEntry) : Totals :=
  {| acc_water := Num.add (acc_water acc) (or_zero (Database.water_ml entry));
     acc_calories :=
       Num.add (acc_calories acc) (or_zero (Database.calories entry));
     acc_steps := Num.add (acc_steps acc) (or_zero (Database.steps entry));
     count := Num.add (count acc) (Fin 1) |}.

Section Platform.

Variable isWeb : bool.
Variable localeCompare : string -> string -> Z.

(** [getEntriesForDateRange] does not throw on a store of this shape, so the
    [catch] of the source, which returns [no_averages], is not entered. *)
Definition getWeeklyAverages (st : Database.Storage)
  (startDate endDate : string) : Averages :=
  let entries :=
    Database.getEntriesForDateRange isWeb localeCompare st startDate endDate in
  if (List.length entries =? 0)%nat then no_averages
  else
    let totals :=
      fold_left add_entry entries
        {| acc_water := Fin 0; acc_calories := Fin 0; acc_steps := Fin 0;
           count := Fin 0 |} in
    {| water := Num.round (Num.div (acc_water totals) (count totals));
       calories := Num.round (Num.div (acc_calories totals) (count totals));
       steps := Num.round (Num.div (acc_steps totals) (count totals));
       daysTracked := count totals |}.

End Platform.

Definition calculateProgress (current goal : number) : number :=
  if Num.eq goal (Fin 0) then Fin 0
  else Num.min (Num.round (Num.mul (Num.div current goal) (Fin 100))) (Fin 100).

Definition analyzeTrend (currentWeek previousWeek : Averages) : string :=
  if negb (Num.truthy (water previousWeek))
     && negb (Num.truthy (calories previousWeek))
     && negb (Num.truthy (steps previousWeek))
  then "new"
  else
    let waterChange :=
      Num.mul
        (Num.div (Num.sub (water currentWeek) (water previousWeek))
           (water previousWeek)) (Fin 100) in
    let calorieChange :=
      Num.mul
        (Num.div (Num.sub (calories currentWeek) (calories previousWeek))
           (calories previousWeek)) (Fin 100) in
    let stepChange :=
      Num.mul
        (Num.div (Num.sub (steps currentWeek) (steps previousWeek))
           (steps previousWeek)) (Fin 100) in
    let avgChange :=
      Num.div (Num.add (Num.add waterChange calorieChange) stepChange)
        (Fin 3) in
    if Num.gt avgChange (Fin 10) then "improving"
    else if Num.lt avgChange (Fin (-10)) then "declining"
    else "stable".

End Analytics.

(** ** Vocabulary of the statements *)

Module Spec.

Import Database Analytics.

(** The entries, the medicines and the dose history that a store holds. *)
Definition stored_entries (st : Storage) : props DailyEntry :=
  parse_or [] (DAILY_ENTRIES st).

Definition stored_medicines (st : Storage) : props (props value) :=
  parse_or [] (MEDICINES st).

Definition stored_history (st : Storage) : list value :=
  parse_or [] (MEDICINE_DOSE_HISTORY st).

(** The keys of an object are distinct. *)
Definition distinct_keys {A : Type} (o : props A) : Prop :=
  NoDup (map fst o).

(** A consistent comparison function, as ECMA-262 asks of the argument of
    [Array.prototype.sort] and grants of [localeCompare]. *)
Record consistent (cmp : string -> string -> Z) : Prop := {
  cmp_refl : forall a, cmp a a = 0%Z;
  cmp_sym : forall a b, cmp a b = 0%Z -> cmp b a = 0%Z;
  cmp_trans_eq : forall a b c, cmp a b = 0%Z -> cmp b c = 0%Z -> cmp a c = 0%Z;
  cmp_trans_lt :
    forall a b c, (cmp a b < 0)%Z -> (cmp b c < 0)%Z -> (cmp a c < 0)%Z;
  cmp_trans_gt :
    forall a b c, (cmp a b > 0)%Z -> (cmp b c > 0)%Z -> (cmp a c > 0)%Z
}.

(** The comparison of code units, which is what [localeCompare] gives on
    dates written [YYYY-MM-DD]. *)
Definition codeunit_compare (a b : string) : Z :=
  match String.compare a b with
  | Lt => (-1)%Z
  | Eq => 0%Z
  | Gt => 1%Z
  end.

(** The states of the store that the exported operations reach from a store
    without items.  The two writers of a medicine, [saveMedicine] and
    [updateMedicine], write the document of the medicines and no other:
    [reach_medicines] stands for them, whatever they write. *)
Inductive reachable (isWeb : bool) : Storage -> Prop :=
| reach_start : reachable isWeb empty_storage
| reach_initDatabase st st' :
    reachable isWeb st ->
    initDatabase isWeb st = Ok st' ->
    reachable isWeb st'
| reach_saveDailyEntry st Date_now toISOString d w c s st' r :
    reachable isWeb st ->
    saveDailyEntry isWeb st Date_now toISOString d w c s = Ok (st', r) ->
    reachable isWeb st'
| reach_saveUserProfile st toISOString profile st' r :
    reachable isWeb st ->
    saveUserProfile isWeb st toISOString profile = Ok (st', r) ->
    reachable isWeb st'
| reach_medicines st medicines :
    reachable isWeb st ->
    reachable isWeb (with_MEDICINES medicines st)
| reach_initMedicines st :
    reachable isWeb st ->
    reachable isWeb (initMedicines isWeb st)
| reach_deleteMedicine st id st' :
    reachable isWeb st ->
    deleteMedicine isWeb st id = Ok st' ->
    reachable isWeb st'
| reach_recordDoseTaken st Date_now toISOString medicineId doseTime st' :
    reachable isWeb st ->
    recordDoseTaken isWeb st Date_now toISOString medicineId doseTime
      = Some (Ok st') ->
    reachable isWeb st'.

(** The words of the specification for [progressPercentage]:
    [min(current/goal * 100, 100)], and [0] if [goal == 0]. *)
Definition progressPercentage_spec (current goal : Q) : Q :=
  if Qeq_bool goal 0 then 0 else Qmin (current / goal * 100) 100.

(** The arithmetic mean of the words of the specification. *)
Definition sum (l : list Q) : Q := fold_right Qplus 0 l.

Definition arithmetic_mean (l : list Q) : Q :=
  sum l / inject_Z (Z.of_nat (List.length l)).

(** A stored measure as a rational, [null] counting for zero. *)
Definition measure (m : option Q) : Q :=
  match m with Some q => q | None => 0 end.

(** The percent change of a measure between two windows and the
    classification of the average change. *)
Definition percent_change (current previous : number) : number :=
  Num.mul (Num.div (Num.sub current previous) previous) (Fin 100).

Definition classify (avgChange : number) : string :=
  if Num.gt avgChange (Fin 10) then "improving"
  else if Num.lt avgChange (Fin (-10)) then "declining"
  else "stable".

(** The values that the validation of a profile field of the range
    [lo..hi] refuses: the numbers other than zero outside the range, and the
    truthy values that are not numbers. *)
Inductive refused (lo hi : Q) : value -> Prop :=
| refused_low q : ~ q == 0 -> q < lo -> refused lo hi (VNum (Fin q))
| refused_high q : ~ q == 0 -> hi < q -> refused lo hi (VNum (Fin q))
| refused_PosInf : refused lo hi (VNum PosInf)
| refused_NegInf : refused lo hi (VNum NegInf)
| refused_string s : s <> "" -> refused lo hi (VStr s)
| refused_true : refused lo hi (VBool true)
| refused_array items : refused lo hi (VArr items)
| refused_object o : refused lo hi (VObj o).

(** The values that it lets pass: an absent or [null] field, and a number
    of the range. *)
Inductive admitted (lo hi : Q) : value -> Prop :=
| admitted_undefined : admitted lo hi VUndefined
| admitted_null : admitted lo hi VNull
| admitted_number q : lo <= q -> q <= hi -> admitted lo hi (VNum (Fin q)).

(** The five numeric fields of a profile with their ranges. *)
Definition ranges : list (string * (Q * Q)) :=
  [ ("weight_kg", (20, 500)); ("height_cm", (50, 300));
    ("daily_water_goal_ml", (500, 5000));
    ("daily_calorie_goal", (1200, 4000));
    ("daily_step_goal", (1000, 50000)) ].

(** The measures that [validateDailyEntry] lets pass: the numbers of the
    range, and NaN, which is a number and which neither [<] nor [>] tells
    from them. *)
Inductive passes (hi : Q) : value -> Prop :=
| passes_range q : 0 <= q -> q <= hi -> passes hi (VNum (Fin q))
| passes_NaN : passes hi (VNum NaN).

(** The scenario of the specification: a store initialised on the web, then
    the entry of one day, then the entry of the next. *)
Definition store_0 : Storage :=
  Eval vm_compute in
    match initDatabase true empty_storage with
    | Ok st => st
    | Throw _ => empty_storage
    end.

Definition store_1 : Storage :=
  Eval vm_compute in
    match saveDailyEntry true store_0 1735689600000 "2025-01-01T00:00:00.000Z"
            (VStr "2025-01-01") (VNum (Fin 1)) (VNum (Fin 500))
            (VNum (Fin 2000)) with
    | Ok (st, _) => st
    | Throw _ => store_0
    end.

Definition store_2 : Storage :=
  Eval vm_compute in
    match saveDailyEntry true store_1 1735776000000 "2025-01-02T00:00:00.000Z"
            (VStr "2025-01-02") (VNum (Fin 2)) (VNum (Fin 700))
            (VNum (Fin 4000)) with
    | Ok (st, _) => st
    | Throw _ => store_1
    end.

Definition entry_2 : DailyEntry :=
  {| id := 1735776000000; date := "2025-01-02"; water_ml := Some 2;
     Database.calories := Some 700; Database.steps := Some 4000;
     created_at := "2025-01-02T00:00:00.000Z" |}.

(** [x] may stand before [y] in an array sorted by [comparefn]. *)
Definition before {A : Type} (comparefn : A -> A -> Z) (x y : A) : Prop :=
  (comparefn x y <= 0)%Z.

(** The values that the validation lets pass as a name. *)
Inductive admitted_name : value -> Prop :=
| name_undefined : admitted_name VUndefined
| name_null : admitted_name VNull
| name_string s : admitted_name (VStr s).

(** The test that [validateUserProfile] applies to a numeric field. *)
Definition range_test (lo hi : Q) (v : value) : bool :=
  ToBoolean v && (negb (typeof v =? "number") || below v lo || above v hi).

(** The text of a number begins with a digit or with the sign. *)
Definition numeric_head (s : string) : bool :=
  match s with
  | String c _ =>
      (c =? "-")%char || match digit c with Some _ => true | None => false end
  | EmptyString => false
  end.

(** The store of the scenario with two medicines and one dose taken. *)
Definition store_3 : Storage :=
  with_MEDICINE_DOSE_HISTORY
    (Some [doseHistoryEntry 1735722000000 1735700000001
             (VNum (Fin 8)) "2025-01-01T09:00:00.000Z"])
    (with_MEDICINES
       (Some [ ("1735700000001",
                [ ("name", VStr "Aspirin"); ("dosage", VStr "100mg");
                  ("frequency", VStr "daily");
                  ("times", VArr [VNum (Fin 8); VNum (Fin 20)]);
                  ("id", VNum (Fin 1735700000001));
                  ("created_at", VStr "2025-01-01T03:00:00.000Z");
                  ("doses_taken", VNum (Fin 1)) ]);
               ("1735700000002",
                [ ("name", VStr "Vitamin D"); ("dosage", VStr "1 tablet");
                  ("frequency", VStr "daily");
                  ("times", VArr [VNum (Fin 9)]);
                  ("id", VNum (Fin 1735700000002));
                  ("created_at", VStr "2025-01-01T03:00:01.000Z");
                  ("doses_taken", VNum (Fin 0)) ]) ])
       store_2).

Definition store_4 : Storage :=
  Eval vm_compute in
    match deleteMedicine true store_3 1735700000001 with
    | Ok st => st
    | Throw _ => store_3
    end.

(** What JSON keeps of a property. *)
Definition JSON_property (p : option value) : option value :=
  match p with
  | Some VUndefined | None => None
  | Some v => Some (JSON_image v)
  end.

(** The percentage that the program computes from a finite [current] and a
    [goal] other than zero: the double nearest to the quotient, times 100
    in double arithmetic. *)
Definition percentage (current goal : Q) : number :=
  Num.mul (Num.double (current / goal)) (Fin 100).

(** The sum of a list of measures as the program accumulates it: from
    zero, one double addition for each measure, in the order of the list;
    and the mean that it returns, the double quotient of the sum by the
    number of measures, rounded by [Math.round]. *)
Definition double_sum (l : list Q) : number :=
  fold_left (fun acc q => Num.add acc (Fin q)) l (Fin 0).

Definition rounded_mean (l : list Q) : number :=
  Num.round (Num.div (double_sum l) (Num.of_Z (Z.of_nat (List.length l)))).


(** A comparison that, like [localeCompare], puts the letters in the order
    of the alphabet whatever their case: it compares the texts in lower
    case. *)
Definition lower (c : ascii) : ascii :=
  let n := N_of_ascii c in
  if ((65 <=? n) && (n <=? 90))%N then ascii_of_N (n + 32) else c.

Fixpoint lowercase (s : string) : string :=
  match s with
  | EmptyString => EmptyString
  | String c rest => String (lower c) (lowercase rest)
  end.

Definition caseless_compare (a b : string) : Z :=
  codeunit_compare (lowercase a) (lowercase b).


(** A store with two entries whose water is the double of 0.7 and the
    double of 0.3. *)
Definition store_tenths : Storage :=
  Eval vm_compute in
    match saveDailyEntry true store_0 1735689600000 "2025-01-01T00:00:00.000Z"
            (VStr "2025-01-01")
            (VNum (Fin (3152519739159347 # 4503599627370496)))
            (VNum (Fin 500)) (VNum (Fin 2000)) with
    | Ok (st, _) =>
        match saveDailyEntry true st 1735776000000
                "2025-01-02T00:00:00.000Z" (VStr "2025-01-02")
                (VNum (Fin (5404319552844595 # 18014398509481984)))
                (VNum (Fin 700)) (VNum (Fin 4000)) with
        | Ok (st', _) => st'
        | Throw _ => st
        end
    | Throw _ => store_0
    end.

End Spec.

Import Database Analytics Spec.

(** ** The medicines: the rest of [src/db/database.js] *)

Module Medicines.

(** The characters of a text.  A text holds its characters in UTF-8: a
    byte [10xxxxxx] continues the character of the byte before it. *)
Definition continues (c : ascii) : bool :=
  let n := N_of_ascii c in ((128 <=? n) && (n <? 192))%N.

Fixpoint chars (s : string) : list string :=
  match s with
  | EmptyString => []
  | String c rest =>
      match chars rest with
      | String c' ch :: others =>
          if continues c' then String c (String c' ch) :: others
          else String c EmptyString :: String c' ch :: others
      | others => String c EmptyString :: others
      end
  end.

(** The code point that a character of one, two or three bytes encodes;
    no character of four bytes is white space. *)
Definition code_point (ch : string) : option N :=
  match map N_of_ascii (list_ascii_of_string ch) with
  | [a] => if (a <? 128)%N then Some a else None
  | [a; b] =>
      let n := ((a - 192) * 64 + (b - 128))%N in
      if ((192 <=? a) && (a <? 224) && (128 <=? n))%N then Some n else None
  | [a; b; c] =>
      let n := ((a - 224) * 4096 + (b - 128) * 64 + (c - 128))%N in
      if ((224 <=? a) && (a <? 240) && (2048 <=? n))%N then Some n else None
  | _ => None
  end.

(** The white space and the line terminators of ECMAScript: what
    [String.prototype.trim] removes at both ends.  They are U+0009 to
    U+000D, U+0020, U+00A0, U+1680, U+2000 to U+200A, U+2028, U+2029,
    U+202F, U+205F, U+3000 and U+FEFF. *)
Definition white_space (n : N) : bool :=
  ((9 <=? n) && (n <=? 13) || (n =? 32) || (n =? 160) || (n =? 5760)
   || (8192 <=? n) && (n <=? 8202) || (n =? 8232) || (n =? 8233)
   || (n =? 8239) || (n =? 8287) || (n =? 12288) || (n =? 65279))%N.

Definition is_space (ch : string) : bool :=
  match code_point ch with
  | Some n => white_space n
  | None => false
  end.

Fixpoint trimStart (text : list string) : list string :=
  match text with
  | [] => []
  | ch :: rest => if is_space ch then trimStart rest else text
  end.

Fixpoint trimEnd (text : list string) : list string :=
  match text with
  | [] => []
  | ch :: rest =>
      match trimEnd rest with
      | [] => if is_space ch then [] else [ch]
      | kept => ch :: kept
      end
  end.

Definition trim (s : string) : string :=
  String.concat EmptyString (trimEnd (trimStart (chars s))).

(** [v !== undefined] *)
Definition defined (v : value) : bool :=
  match v with VUndefined => false | _ => true end.

(** The [forEach] over [medicine.times], [index] counting from 0. *)
Fixpoint check_times (index : nat) (times : list value) (errors : list string)
  : list string :=
  match times with
  | [] => errors
  | hour :: rest =>
      check_times (S index) rest
        (push_if (negb (typeof hour =? "number")
                  || below hour 0 || above hour 23)
           ("Invalid time for dose "
            ++ Number_toString (Z.of_nat index + 1)) errors)
  end.

Definition validateMedicine (medicine : props value) : list string :=
  let errors := [] in
  let name := field "name" medicine in
  let errors :=
    push_if (negb (ToBoolean name)
             || negb (typeof name =? "string")
             || (String.length (trim (string_of name)) <? 1)%nat)
      "Medicine name is required" errors in
  let dosage := field "dosage" medicine in
  let errors :=
    push_if (negb (ToBoolean dosage)
             || negb (typeof dosage =? "string")
             || (String.length (trim (string_of dosage)) <? 1)%nat)
      "Dosage is required" errors in
  let frequency := field "frequency" medicine in
  let errors :=
    push_if (negb (ToBoolean frequency)
             || negb (typeof frequency =? "string"))
      "Frequency is required" errors in
  let errors :=
    match field "times" medicine with
    | VArr [] => (errors ++ ["At least one dose time is required"])%list
    | VArr times => check_times 0 times errors
    | _ => (errors ++ ["At least one dose time is required"])%list
    end in
  let total_doses := field "total_doses" medicine in
  let errors :=
    push_if (defined total_doses
             && (negb (typeof total_doses =? "number")
                 || below total_doses 1))
      "Total doses must be a positive number" errors in
  let doses_taken := field "doses_taken" medicine in
  let errors :=
    push_if (defined doses_taken
             && (negb (typeof doses_taken =? "number")
                 || below doses_taken 0))
      "Doses taken must be non-negative" errors in
  errors.

(** [a.name] and [b.taken_at] where they are strings. *)
Definition name_of (medicine : props value) : option string :=
  match field "name" medicine with VStr s => Some s | _ => None end.

Definition taken_at_of (entry : value) : option string :=
  match entry with
  | VObj o => match field "taken_at" o with VStr s => Some s | _ => None end
  | _ => None
  end.

Definition text (s : option string) : string :=
  match s with Some s => s | None => "" end.

Definition is_some {A : Type} (x : option A) : bool :=
  match x with Some _ => true | None => false end.

(** [array.slice(0, end)] for an integer [end]: a negative [end] counts
    from the end of the array. *)
Definition slice_to {A : Type} (limit : Z) (l : list A) : list A :=
  let len := Z.of_nat (List.length l) in
  let final :=
    if (limit <? 0)%Z then Z.max (len + limit) 0 else Z.min limit len in
  firstn (Z.to_nat final) l.

Section Platform.

Variable isWeb : bool.
Variable localeCompare : string -> string -> Z.

(** [(a, b) => a.name.localeCompare(b.name)] *)
Definition by_name (a b : props value) : Z :=
  localeCompare (text (name_of a)) (text (name_of b)).

(** [(a, b) => b.taken_at.localeCompare(a.taken_at)] *)
Definition by_taken_at_desc (a b : value) : Z :=
  localeCompare (text (taken_at_of b)) (text (taken_at_of a)).

(** The sort of an array of at most one element calls no comparison.  With
    two elements or more, a [name] that is no string makes the comparison
    throw or convert, according to the side on which the engine passes the
    element: that case is left out ([None]). *)
Definition getAllMedicines (st : Storage) : option (list (props value)) :=
  if isWeb then
    let medicines := parse_or [] (webStorage_getItem isWeb (MEDICINES st)) in
    let values := Object_values medicines in
    if (List.length values <=? 1)%nat then Some values
    else if forallb (fun m => is_some (name_of m)) values
    then Some (Array_sort by_name values)
    else None
  else
    let medicines :=
      parse_or [] (mobileStorage_getItem isWeb (MEDICINES st)) in
    let values := Object_values medicines in
    if (List.length values <=? 1)%nat then Some values
    else if forallb (fun m => is_some (name_of m)) values
    then Some (Array_sort by_name values)
    else None.

(** [{ ...medicine, id, created_at, doses_taken: medicine.doses_taken || 0 }] *)
Definition medicineWithId (medicine : props value) (id : Z)
  (toISOString : string) : props value :=
  define "doses_taken" (or (field "doses_taken" medicine) (VNum (Fin 0)))
    (define "created_at" (VStr toISOString)
       (define "id" (VNum (Num.of_Z id)) (spread medicine []))).

(** The [catch] of [saveMedicine] and of [updateMedicine] throws the error
    again as it is. *)
Definition saveMedicine (st : Storage) (Date_now : Z) (toISOString : string)
  (medicine : props value) : result (Storage * Z) :=
  let validationErrors := validateMedicine medicine in
  if (0 <? List.length validationErrors)%nat then
    Throw ("Invalid medicine data: " ++ String.concat ", " validationErrors)
  else
    let id := Date_now in
    let medicineWithId := medicineWithId medicine id toISOString in
    if isWeb then
      let medicines :=
        parse_or [] (webStorage_getItem isWeb (MEDICINES st)) in
      let medicines := assign (Number_toString id) medicineWithId medicines in
      Ok (with_MEDICINES
            (webStorage_setItem isWeb (JSON_medicines medicines)
               (MEDICINES st)) st, id)
    else
      let medicines :=
        parse_or [] (mobileStorage_getItem isWeb (MEDICINES st)) in
      let medicines := assign (Number_toString id) medicineWithId medicines in
      Ok (with_MEDICINES
            (mobileStorage_setItem isWeb (JSON_medicines medicines)
               (MEDICINES st)) st, id).

(** [{ ...medicines[id], ...medicine, updated_at }] *)
Definition merged (old medicine : props value) (toISOString : string)
  : props value :=
  define "updated_at" (VStr toISOString) (spread medicine (spread old [])).

Definition updateMedicine (st : Storage) (toISOString : string) (id : Z)
  (medicine : props value) : result Storage :=
  let validationErrors := validateMedicine medicine in
  if (0 <? List.length validationErrors)%nat then
    Throw ("Invalid medicine data: " ++ String.concat ", " validationErrors)
  else if isWeb then
    let medicines := parse_or [] (webStorage_getItem isWeb (MEDICINES st)) in
    match own (Number_toString id) medicines with
    | None => Throw "Medicine not found"
    | Some old =>
        let medicines :=
          assign (Number_toString id) (merged old medicine toISOString)
            medicines in
        Ok (with_MEDICINES
              (webStorage_setItem isWeb (JSON_medicines medicines)
                 (MEDICINES st)) st)
    end
  else
    let medicines :=
      parse_or [] (mobileStorage_getItem isWeb (MEDICINES st)) in
    match own (Number_toString id) medicines with
    | None => Throw "Medicine not found"
    | Some old =>
        let medicines :=
          assign (Number_toString id) (merged old medicine toISOString)
            medicines in
        Ok (with_MEDICINES
              (mobileStorage_setItem isWeb (JSON_medicines medicines)
                 (MEDICINES st)) st)
    end.

(** [limit = 50] when the argument is left out.  As in [getAllMedicines],
    the sort of two entries or more is left out when a [taken_at] is no
    string. *)
Definition getDoseHistory (st : Storage) (limit : option Z)
  : option (list value) :=
  let limit := match limit with Some l => l | None => 50%Z end in
  if isWeb then
    let history :=
      parse_or [] (webStorage_getItem isWeb (MEDICINE_DOSE_HISTORY st)) in
    if (List.length history <=? 1)%nat then Some (slice_to limit history)
    else if forallb (fun e => is_some (taken_at_of e)) history
    then Some (slice_to limit (Array_sort by_taken_at_desc history))
    else None
  else
    let history :=
      parse_or [] (mobileStorage_getItem isWeb (MEDICINE_DOSE_HISTORY st)) in
    if (List.length history <=? 1)%nat then Some (slice_to limit history)
    else if forallb (fun e => is_some (taken_at_of e)) history
    then Some (slice_to limit (Array_sort by_taken_at_desc history))
    else None.

End Platform.

End Medicines.

(** ** Achievements, insights, chart and summary: the rest of
    [src/utils/analytics.js] *)

Module Insights.

(** [a >= b] and [a <= b] on numbers: false when either is NaN. *)
Definition ge (a b : number) : bool :=
  match a, b with
  | NaN, _ | _, NaN => false
  | _, _ => negb (Num.lt a b)
  end.

Definition le (a b : number) : bool := ge b a.

(** [{ water, calories, steps }]: the daily goals. *)
Module Goals.
Record t : Type := { water : number; calories : number; steps : number }.
End Goals.

(** [{ type, title, description, icon }].  The text of a title and of a
    message is kept as the source file spells it. *)
Module Achievement.
Record t : Type := {
  type : string;
  title : string;
  description : string;
  icon : string
}.
End Achievement.

(** [{ type, message, category }] *)
Module Insight.
Record t : Type := { type : string; message : string; category : string }.
End Insight.

(** [{ date, water, calories, steps, label }] *)
Module ChartPoint.
Record t : Type := {
  date : string;
  water : number;
  calories : number;
  steps : number;
  label : string
}.
End ChartPoint.

(** [{ today, thisWeek, lastWeek, trend }] *)
Module Summary.
Record t : Type := {
  today : Averages;
  thisWeek : Averages;
  lastWeek : Averages;
  trend : string
}.
End Summary.

(** [items.push(item)] when [test] holds. *)
Definition push_when {A : Type} (test : bool) (item : A) (items : list A)
  : list A :=
  if test then (items ++ [item])%list else items.

Definition getAchievements (currentData : Averages) (goals : Goals.t)
  : list Achievement.t :=
  let achievements := [] in
  let achievements :=
    push_when (ge (Analytics.water currentData) (Goals.water goals))
      {| Achievement.type := "water_goal";
         Achievement.title := "💧 Hydration Master";
         Achievement.description := "Reached daily water goal!";
         Achievement.icon := "water" |} achievements in
  let achievements :=
    push_when (ge (Analytics.calories currentData) (Goals.calories goals))
      {| Achievement.type := "calorie_goal";
         Achievement.title := "🔥 Energy Champion";
         Achievement.description := "Reached daily calorie goal!";
         Achievement.icon := "restaurant" |} achievements in
  let achievements :=
    push_when (ge (Analytics.steps currentData) (Goals.steps goals))
      {| Achievement.type := "step_goal";
         Achievement.title := "🚶 Step Warrior";
         Achievement.description := "Reached daily step goal!";
         Achievement.icon := "walk" |} achievements in
  let achievements :=
    push_when (ge (daysTracked currentData) (Fin 7))
      {| Achievement.type := "week_streak";
         Achievement.title := "📅 Week Warrior";
         Achievement.description := "Tracked for 7 consecutive days!";
         Achievement.icon := "calendar" |} achievements in
  let achievements :=
    push_when (ge (daysTracked currentData) (Fin 30))
      {| Achievement.type := "month_streak";
         Achievement.title := "🏆 Health Hero";
         Achievement.description := "Tracked for 30 consecutive days!";
         Achievement.icon := "trophy" |} achievements in
  achievements.

(** [if (p < 50) push(low) else if (p >= 100) push(high)] *)
Definition push_band (progress : number) (low high : Insight.t)
  (insights : list Insight.t) : list Insight.t :=
  if Num.lt progress (Fin 50) then (insights ++ [low])%list
  else if ge progress (Fin 100) then (insights ++ [high])%list
  else insights.

Definition getInsights (currentData : Averages) (goals : Goals.t)
  (trend : string) : list Insight.t :=
  let insights := [] in
  let waterProgress :=
    calculateProgress (Analytics.water currentData) (Goals.water goals) in
  let insights :=
    push_band waterProgress
      {| Insight.type := "water_low";
         Insight.message :=
           "💡 Try setting reminders to drink water regularly throughout the day.";
         Insight.category := "hydration" |}
      {| Insight.type := "water_excellent";
         Insight.message :=
           "🎉 Excellent hydration! You're meeting your water goals consistently.";
         Insight.category := "hydration" |} insights in
  let calorieProgress :=
    calculateProgress (Analytics.calories currentData)
      (Goals.calories goals) in
  let insights :=
    push_band calorieProgress
      {| Insight.type := "calories_low";
         Insight.message :=
           "💡 Consider planning your meals to ensure you're getting enough nutrition.";
         Insight.category := "nutrition" |}
      {| Insight.type := "calories_good";
         Insight.message :=
           "🎉 Great job maintaining your calorie goals! Keep up the balanced approach.";
         Insight.category := "nutrition" |} insights in
  let stepProgress :=
    calculateProgress (Analytics.steps currentData) (Goals.steps goals) in
  let insights :=
    push_band stepProgress
      {| Insight.type := "steps_low";
         Insight.message :=
           "💡 Try taking short walks during breaks or using stairs instead of elevators.";
         Insight.category := "activity" |}
      {| Insight.type := "steps_excellent";
         Insight.message :=
           "🎉 Fantastic activity level! You're consistently meeting your step goals.";
         Insight.category := "activity" |} insights in
  let insights :=
    if trend =? "improving" then
      (insights
         ++ [{| Insight.type := "trend_positive";
                Insight.message :=
                  "📈 You're on an upward trend! Keep up the great progress.";
                Insight.category := "motivation" |}])%list
    else if trend =? "declining" then
      (insights
         ++ [{| Insight.type := "trend_negative";
                Insight.message :=
                  "📉 Progress has slowed down. Consider adjusting your goals or routine.";
                Insight.category := "motivation" |}])%list
    else insights in
  insights.

Section Platform.

Variable isWeb : bool.
Variable localeCompare : string -> string -> Z.

(** The calendar is the host's.  [getChartData] reads from it the date of
    the first day and of the last as [toISOString] prints them, and for the
    day [i] of the loop its date and its label; they are inputs here.
    [getEntriesForDateRange] does not throw on a store of this shape, so the
    [catch], which returns the empty array, is not entered. *)
Fixpoint chart_loop (entries : list DailyEntry)
  (dateStr label : nat -> string) (i count : nat)
  (chartData : list ChartPoint.t) : list ChartPoint.t :=
  match count with
  | O => chartData
  | S count' =>
      let entry :=
        find (fun e => Database.date e =? dateStr i) entries in
      let point :=
        {| ChartPoint.date := dateStr i;
           ChartPoint.water :=
             match entry with
             | Some e => or_zero (water_ml e)
             | None => Fin 0
             end;
           ChartPoint.calories :=
             match entry with
             | Some e => or_zero (Database.calories e)
             | None => Fin 0
             end;
           ChartPoint.steps :=
             match entry with
             | Some e => or_zero (Database.steps e)
             | None => Fin 0
             end;
           ChartPoint.label := label i |} in
      chart_loop entries dateStr label (S i) count'
        (chartData ++ [point])%list
  end.

Definition getChartData (st : Storage) (startDate endDate : string)
  (dateStr label : nat -> string) (days : nat) : list ChartPoint.t :=
  let entries :=
    getEntriesForDateRange isWeb localeCompare st startDate endDate in
  chart_loop entries dateStr label 0 days [].

(** [today], [thisWeek] and [lastWeek] are the dates of now, of seven days
    before and of fourteen days before, as [toISOString] prints them.
    [getWeeklyAverages] does not throw, so the [catch] is not entered. *)
Definition getSummaryStats (st : Storage) (today thisWeek lastWeek : string)
  : Summary.t :=
  let todayData := getWeeklyAverages isWeb localeCompare st today today in
  let thisWeekData :=
    getWeeklyAverages isWeb localeCompare st thisWeek today in
  let lastWeekData :=
    getWeeklyAverages isWeb localeCompare st lastWeek thisWeek in
  {| Summary.today := todayData;
     Summary.thisWeek := thisWeekData;
     Summary.lastWeek := lastWeekData;
     Summary.trend := analyzeTrend thisWeekData lastWeekData |}.

End Platform.

End Insights.

(** ** The callers of the record store *)

(** [src/contexts/UserProfileContext.js]: the profile held in memory beside
    the stored one.  A function returns the profile it has set with
    [setProfile] together with what its promise settles to. *)
Module UserProfileContext.

(** [created_at] and [updated_at] are read from the clock when the module is
    loaded. *)
Definition defaultProfile (created_at updated_at : string) : props value :=
  [ ("id", VNum (Fin 1)); ("birthdate", VNull); ("weight_kg", VNull);
    ("height_cm", VNull); ("daily_water_goal_ml", VNum (Fin 2000));
    ("daily_calorie_goal", VNum (Fin 2000));
    ("daily_step_goal", VNum (Fin 10000)); ("name", VStr "");
    ("activity_level", VStr "moderate");
    ("created_at", VStr created_at); ("updated_at", VStr updated_at) ].

Section Platform.

Variable isWeb : bool.

(** [defaults] is [defaultProfile]; [saveNow] is the clock as
    [saveUserProfile] reads it. *)
Definition loadUserProfile (st : Storage) (defaults : props value)
  (saveNow : string) : Storage * props value :=
  match getUserProfile isWeb st with
  | Some savedProfile => (st, savedProfile)
  | None =>
      match saveUserProfile isWeb st saveNow defaults with
      | Ok (st', _) => (st', defaults)
      | Throw _ => (st, defaults)
      end
  end.

(** [setProfile(updatedProfile)] comes before the [await]: the profile in
    memory is set whether [saveUserProfile] resolves or rejects. *)
Definition updateProfile (st : Storage) (profile : props value)
  (now saveNow : string) (updates : props value)
  : props value * result (Storage * props value) :=
  let updatedProfile :=
    define "updated_at" (VStr now) (spread updates (spread profile [])) in
  (updatedProfile,
   match saveUserProfile isWeb st saveNow updatedProfile with
   | Ok (st', _) => Ok (st', updatedProfile)
   | Throw message => Throw message
   end).

Definition updateGoals (st : Storage) (profile : props value)
  (now saveNow : string) (goals : Insights.Goals.t)
  : props value * result (Storage * props value) :=
  updateProfile st profile now saveNow
    [ ("daily_water_goal_ml", VNum (Insights.Goals.water goals));
      ("daily_calorie_goal", VNum (Insights.Goals.calories goals));
      ("daily_step_goal", VNum (Insights.Goals.steps goals)) ].

Definition resetToDefaults (st : Storage) (defaults : props value)
  (now saveNow : string)
  : props value * result (Storage * props value) :=
  let resetProfile := define "updated_at" (VStr now) (spread defaults []) in
  (resetProfile,
   match saveUserProfile isWeb st saveNow resetProfile with
   | Ok (st', _) => Ok (st', resetProfile)
   | Throw message => Throw message
   end).

End Platform.

End UserProfileContext.

(** [src/screens/SettingsScreen.js]: the goals typed by the user. *)
Module SettingsScreen.

(** [{ water, calories, steps }] of [goalInputs]: three texts. *)
Record GoalInputs : Type := {
  water : string;
  calories : string;
  steps : string
}.

(** What [saveGoals] does: it returns after the alert that names the
    invalid goals, or it calls [updateGoals]. *)
Inductive Outcome : Type :=
| InvalidGoals (invalidGoals : list string)
| Updated (profile : props value) (settled : result (Storage * props value)).

Definition isNaN (n : number) : bool :=
  match n with NaN => true | _ => false end.

Section Platform.

Variable isWeb : bool.

(** The global [parseInt], on a text. *)
Variable parseInt : string -> number.

Definition validateGoal (goalType value : string) : bool :=
  let numValue := parseInt value in
  if isNaN numValue || Insights.le numValue (Fin 0) then false
  else if goalType =? "water" then
    Insights.ge numValue (Fin 500) && Insights.le numValue (Fin 5000)
  else if goalType =? "calories" then
    Insights.ge numValue (Fin 1200) && Insights.le numValue (Fin 4000)
  else if goalType =? "steps" then
    Insights.ge numValue (Fin 1000) && Insights.le numValue (Fin 50000)
  else true.

Definition saveGoals (st : Storage) (profile : props value)
  (now saveNow : string) (goalInputs : GoalInputs) : Outcome :=
  let newGoals :=
    {| Insights.Goals.water := parseInt (water goalInputs);
       Insights.Goals.calories := parseInt (calories goalInputs);
       Insights.Goals.steps := parseInt (steps goalInputs) |} in
  let invalidGoals := [] in
  let invalidGoals :=
    Insights.push_when (negb (validateGoal "water" (water goalInputs)))
      "Water" invalidGoals in
  let invalidGoals :=
    Insights.push_when (negb (validateGoal "calories" (calories goalInputs)))
      "Calories" invalidGoals in
  let invalidGoals :=
    Insights.push_when (negb (validateGoal "steps" (steps goalInputs)))
      "Steps" invalidGoals in
  if (0 <? List.length invalidGoals)%nat then InvalidGoals invalidGoals
  else
    let (profile', settled) :=
      UserProfileContext.updateGoals isWeb st profile now saveNow newGoals in
    Updated profile' settled.

End Platform.

End SettingsScreen.

(** [src/screens/HomeScreen.js]: the three counters of the day. *)
Module HomeScreen.

(** The state of [useState]: [waterCount], [calories], [steps]. *)
Record State : Type := {
  waterCount : number;
  calories : number;
  steps : number
}.

(** [useState(0)] three times. *)
Definition initial : State :=
  {| waterCount := Fin 0; calories := Fin 0; steps := Fin 0 |}.

Definition addWater (state : State) : State :=
  {| waterCount := Num.add (waterCount state) (Fin 250);
     calories := calories state;
     steps := steps state |}.

Section Platform.

Variable isWeb : bool.

(** [today] is [getCurrentDate()].  The [catch] shows an alert and leaves
    the counters as they are. *)
Definition loadTodayData (st : Storage) (today : string) (Date_now : Z)
  (toISOString : string) (state : State) : Storage * State :=
  match initDatabase isWeb st with
  | Throw _ => (st, state)
  | Ok st =>
      match getTodayEntry isWeb st today with
      | Entry todayEntry =>
          (st,
           {| waterCount := or_zero (water_ml todayEntry);
              calories := or_zero (Database.calories todayEntry);
              steps := or_zero (Database.steps todayEntry) |})
      | Builtin _ =>
          (st, {| waterCount := Fin 0; calories := Fin 0; steps := Fin 0 |})
      | Null =>
          match saveDailyEntry isWeb st Date_now toISOString (VStr today)
                  (VNum (Fin 0)) (VNum (Fin 0)) (VNum (Fin 0)) with
          | Ok (st', _) => (st', state)
          | Throw _ => (st, state)
          end
      end
  end.

(** The [catch] logs the error and nothing else. *)
Definition saveDataToDatabase (st : Storage) (today : string) (Date_now : Z)
  (toISOString : string) (state : State) : Storage :=
  match saveDailyEntry isWeb st Date_now toISOString (VStr today)
          (VNum (waterCount state)) (VNum (calories state))
          (VNum (steps state)) with
  | Ok (st', _) => st'
  | Throw _ => st
  end.

End Platform.

End HomeScreen.

(** ** Vocabulary of the further statements *)

Module Further.

Import Medicines.

(** The states of the store that the exported operations of
    [database.js] reach from a store without items, the writers of a
    medicine among them.  The keys of an object that is passed are
    distinct. *)
Inductive reaches (isWeb : bool) : Storage -> Prop :=
| reaches_start : reaches isWeb empty_storage
| reaches_initDatabase st st' :
    reaches isWeb st ->
    initDatabase isWeb st = Ok st' ->
    reaches isWeb st'
| reaches_saveDailyEntry st Date_now toISOString d w c s st' r :
    reaches isWeb st ->
    saveDailyEntry isWeb st Date_now toISOString d w c s = Ok (st', r) ->
    reaches isWeb st'
| reaches_saveUserProfile st toISOString profile st' r :
    reaches isWeb st ->
    saveUserProfile isWeb st toISOString profile = Ok (st', r) ->
    reaches isWeb st'
| reaches_initMedicines st :
    reaches isWeb st ->
    reaches isWeb (initMedicines isWeb st)
| reaches_saveMedicine st Date_now toISOString medicine st' id :
    reaches isWeb st ->
    distinct_keys medicine ->
    saveMedicine isWeb st Date_now toISOString medicine = Ok (st', id) ->
    reaches isWeb st'
| reaches_updateMedicine st toISOString id medicine st' :
    reaches isWeb st ->
    distinct_keys medicine ->
    updateMedicine isWeb st toISOString id medicine = Ok st' ->
    reaches isWeb st'
| reaches_deleteMedicine st id st' :
    reaches isWeb st ->
    deleteMedicine isWeb st id = Ok st' ->
    reaches isWeb st'
| reaches_recordDoseTaken st Date_now toISOString medicineId doseTime st' :
    reaches isWeb st ->
    recordDoseTaken isWeb st Date_now toISOString medicineId doseTime
      = Some (Ok st') ->
    reaches isWeb st'.

(** A stored measure is [null] or lies within its bound. *)
Definition bounded (hi : Q) (m : option Q) : Prop :=
  match m with Some q => 0 <= q /\ q <= hi | None => True end.

Definition entry_bounded (e : DailyEntry) : Prop :=
  bounded 10000 (water_ml e)
  /\ bounded 10000 (Database.calories e)
  /\ bounded 100000 (Database.steps e).

(** A number between two rationals. *)
Definition between (lo hi : Q) (n : number) : Prop :=
  exists q, n = Fin q /\ lo <= q /\ q <= hi.

(** A text of white space only. *)
Definition blank (s : string) : bool := forallb is_space (chars s).

(** The no-break space U+00A0 and the ideographic space U+3000, in
    UTF-8. *)
Definition no_break_space : string :=
  String (ascii_of_N 194) (String (ascii_of_N 160) EmptyString).

Definition ideographic_space : string :=
  String (ascii_of_N 227)
    (String (ascii_of_N 128) (String (ascii_of_N 128) EmptyString)).

(** An optional count that [validateMedicine] lets pass: absent, or a
    number that is not below [lo]. *)
Inductive count_passes (lo : Q) : value -> Prop :=
| count_absent : count_passes lo VUndefined
| count_number q : lo <= q -> count_passes lo (VNum (Fin q))
| count_PosInf : count_passes lo (VNum PosInf)
| count_NaN : count_passes lo (VNum NaN).

(** The medicines that [validateMedicine] lets pass: a name and a dosage
    that are strings with more than white space, a frequency that is a
    string and not empty, at least one hour, each a number that is neither
    below 0 nor above 23 (NaN is none of the two), and the two counts. *)
Definition valid_medicine (medicine : props value) : Prop :=
  (exists s, field "name" medicine = VStr s /\ blank s = false)
  /\ (exists s, field "dosage" medicine = VStr s /\ blank s = false)
  /\ (exists s, field "frequency" medicine = VStr s /\ s <> "")
  /\ (exists hour times,
        field "times" medicine = VArr (hour :: times)
        /\ Forall (passes 23) (hour :: times))
  /\ count_passes 1 (field "total_doses" medicine)
  /\ count_passes 0 (field "doses_taken" medicine).

(** What [doses_taken] holds in a stored medicine: nothing, [null], or a
    finite number that is not negative. *)
Inductive counted : value -> Prop :=
| counted_absent : counted VUndefined
| counted_null : counted VNull
| counted_number q : 0 <= q -> counted (VNum (Fin q)).

(** The doses that a stored count stands for: [(doses_taken || 0)]. *)
Definition doses (v : value) : Q :=
  match v with VNum (Fin q) => q | _ => 0 end.

(** A stored medicine: an object with a name that is a string and a count
    of doses. *)
Definition medicine_kept (medicine : props value) : Prop :=
  distinct_keys medicine
  /\ (exists s, field "name" medicine = VStr s)
  /\ counted (field "doses_taken" medicine).

(** A stored dose: a JSON object with a [taken_at] that is a string. *)
Definition dose_kept (entry : value) : Prop :=
  is_JSON entry /\ exists s, taken_at_of entry = Some s.

(** The types of a list of achievements and of insights. *)
Definition achieved (achievements : list Insights.Achievement.t)
  : list string :=
  map Insights.Achievement.type achievements.

Definition advised (insights : list Insights.Insight.t) : list string :=
  map Insights.Insight.type insights.

(** The point of a day in the chart: the measures of the entry of the
    day, zeros when there is none. *)
Definition chart_point (entry : option DailyEntry) (date label : string)
  : Insights.ChartPoint.t :=
  let measure_of (m : DailyEntry -> option Q) :=
    match entry with Some e => or_zero (m e) | None => Fin 0 end in
  {| Insights.ChartPoint.date := date;
     Insights.ChartPoint.water := measure_of water_ml;
     Insights.ChartPoint.calories := measure_of Database.calories;
     Insights.ChartPoint.steps := measure_of Database.steps;
     Insights.ChartPoint.label := label |}.

(** The entry that a store keeps under a date, if the date lies in a
    range. *)
Definition entry_within (st : Storage) (startDate endDate date : string)
  : option DailyEntry :=
  match own date (stored_entries st) with
  | Some e => if in_range startDate endDate e then Some e else None
  | None => None
  end.

(** [l] begins with [prefix]. *)
Definition begins {A : Type} (prefix l : list A) : Prop :=
  exists rest, l = (prefix ++ rest)%list.

(** A profile of the scenario, and a medicine. *)
Definition profile_0 : props value :=
  [ ("id", VNum (Fin 1)); ("name", VStr "Ann"); ("birthdate", VNull);
    ("weight_kg", VNum (Fin 60)); ("height_cm", VNum (Fin 170));
    ("daily_water_goal_ml", VNum (Fin 2000));
    ("daily_calorie_goal", VNum (Fin 2000));
    ("daily_step_goal", VNum (Fin 10000)) ].

Definition aspirin : props value :=
  [ ("name", VStr "Aspirin"); ("dosage", VStr "100mg");
    ("frequency", VStr "daily");
    ("times", VArr [VNum (Fin 8); VNum (Fin 20)]) ].

(** The scenario carried on: the medicines initialised, a medicine saved,
    a dose of it recorded. *)
Definition store_5 : Storage :=
  Eval vm_compute in
    match saveMedicine true (initMedicines true store_2) 1735800000000
            "2025-01-02T06:40:00.000Z" aspirin with
    | Ok (st, _) => st
    | Throw _ => empty_storage
    end.

Definition store_6 : Storage :=
  Eval vm_compute in
    match recordDoseTaken true store_5 1735804800000
            "2025-01-02T08:00:00.000Z" 1735800000000 (VNum (Fin 8)) with
    | Some (Ok st) => st
    | _ => empty_storage
    end.

End Further.

Import Medicines Further.

(** ** Numbers: the rounding to a double *)

#[local] Arguments Qle_bool : simpl never.
#[local] Arguments Qeq_bool : simpl never.
#[local] Arguments Num.double : simpl never.

(** *** The nearest integer *)
Lemma nearest_even_bounds (q : Q) :
  (Qfloor q <= nearest_even q <= Qfloor q + 1)%Z.
Proof.
  unfold nearest_even. cbv zeta.
  destruct (Qcompare _ _); [destruct (Z.even _)| |]; lia.
Qed.

Lemma nearest_even_Z (z : Z) : nearest_even (inject_Z z) = z.
Proof.
  unfold nearest_even. cbv zeta. rewrite Qfloor_Z.
  replace (inject_Z z - inject_Z z ?= 1 # 2) with Lt; [reflexivity|].
  symmetry. apply (proj1 (Qlt_alt _ _)).
  setoid_replace (inject_Z z - inject_Z z) with 0 by ring. reflexivity.
Qed.

Lemma nearest_even_comp (x y : Q) : x == y -> nearest_even x = nearest_even y.
Proof.
  intros H. unfold nearest_even. cbv zeta.
  rewrite (Qfloor_comp _ _ H).
  replace (x - inject_Z (Qfloor y) ?= 1 # 2)
    with (y - inject_Z (Qfloor y) ?= 1 # 2); [reflexivity|].
  apply Qcompare_comp; [now rewrite H|reflexivity].
Qed.

Lemma nearest_even_mono (x y : Q) :
  x <= y -> (nearest_even x <= nearest_even y)%Z.
Proof.
  intros H. pose proof (Qfloor_resp_le _ _ H) as Hfloor.
  pose proof (nearest_even_bounds x) as Hx.
  pose proof (nearest_even_bounds y) as Hy.
  destruct (Z.eq_dec (Qfloor x) (Qfloor y)) as [E|E]; [|lia].
  unfold nearest_even in *. cbv zeta in *. rewrite E in *.
  set (f := Qfloor y) in *.
  destruct (Qcompare_spec (x - inject_Z f) (1 # 2)) as [Ex|Ex|Ex];
    destruct (Qcompare_spec (y - inject_Z f) (1 # 2)) as [Ey|Ey|Ey];
    try destruct (Z.even f); try lia; exfalso; lra.
Qed.

Lemma nearest_even_le (x : Q) (z : Z) :
  x <= inject_Z z -> (nearest_even x <= z)%Z.
Proof.
  intros H. rewrite <- (nearest_even_Z z). now apply nearest_even_mono.
Qed.

Lemma nearest_even_ge (x : Q) (z : Z) :
  inject_Z z <= x -> (z <= nearest_even x)%Z.
Proof.
  intros H. rewrite <- (nearest_even_Z z). now apply nearest_even_mono.
Qed.

(** *** Powers of two *)
Lemma two_nonzero : ~ 2 == 0.
Proof. discriminate. Qed.

Lemma pow2_pos (e : Z) : 0 < 2 ^ e.
Proof. now apply Qpower_0_lt. Qed.

Lemma pow2_plus (a b : Z) : 2 ^ (a + b) == 2 ^ a * 2 ^ b.
Proof. apply Qpower_plus, two_nonzero. Qed.

Lemma pow2_le (a b : Z) : (a <= b)%Z -> 2 ^ a <= 2 ^ b.
Proof. intros H. apply Qpower_le_compat_l; [exact H|discriminate]. Qed.

Lemma pow2_lt (a b : Z) : (a < b)%Z -> 2 ^ a < 2 ^ b.
Proof. intros H. apply Qpower_lt_compat_l; [exact H|reflexivity]. Qed.

Lemma pow2_Z (e : Z) : (0 <= e)%Z -> 2 ^ e == inject_Z (2 ^ e).
Proof. intros H. now rewrite Zpower_Qpower. Qed.

Lemma pow2_lt_inv (a b : Z) : 2 ^ a < 2 ^ b -> (a < b)%Z.
Proof. intros H. apply (Qpower_lt_compat_l_inv 2); [exact H|reflexivity]. Qed.

Lemma pow2_cancel (e : Z) : 2 ^ e * 2 ^ (- e) == 1.
Proof. rewrite <- pow2_plus. now rewrite Z.add_opp_diag_r. Qed.

Lemma div_pow2 (x : Q) (e : Z) : x / 2 ^ e == x * 2 ^ (- e).
Proof.
  unfold Qdiv. now rewrite Qpower_opp.
Qed.

(** *** The binade of a real *)
Lemma binade_spec (q : Q) :
  ~ q == 0 -> 2 ^ binade q <= Qabs q /\ Qabs q < 2 ^ (binade q + 1).
Proof.
  intros Hq. unfold binade. cbv zeta.
  set (n := Z.abs (Qnum q)). set (d := Zpos (Qden q)).
  assert (Hn : (0 < n)%Z).
  { unfold n. destruct q as [num den]. unfold Qeq in Hq. simpl in *. lia. }
  assert (Hd : (0 < d)%Z) by reflexivity.
  pose proof (Z.log2_spec n Hn) as [Ha0 Ha1].
  pose proof (Z.log2_spec d Hd) as [Hb0 Hb1].
  pose proof (Z.log2_nonneg n) as Ha. pose proof (Z.log2_nonneg d) as Hb.
  set (a := Z.log2 n) in *. set (b := Z.log2 d) in *.
  set (X := Qabs q).
  assert (HX : X * inject_Z d == inject_Z n).
  { unfold X, n, d. destruct q as [num den]. simpl.
    unfold Qeq. simpl. rewrite Pos.mul_1_r. lia. }
  set (T := 2 ^ (a - b)).
  assert (HT : T * inject_Z (2 ^ b) == inject_Z (2 ^ a)).
  { unfold T. rewrite <- !pow2_Z by assumption. rewrite <- pow2_plus.
    now replace (a - b + b)%Z with a by lia. }
  assert (HT0 : 0 < T) by apply pow2_pos.
  assert (Hup : 2 ^ (a - b + 1) == 2 * T).
  { unfold T. rewrite pow2_plus. change (2 ^ 1) with 2. ring. }
  assert (Hdown : 2 ^ (a - b - 1 + 1) == T).
  { unfold T. now replace (a - b - 1 + 1)%Z with (a - b)%Z by lia. }
  assert (Hhalf : 2 * 2 ^ (a - b - 1) == T).
  { unfold T. replace (a - b)%Z with (1 + (a - b - 1))%Z at 2 by lia.
    rewrite pow2_plus. reflexivity. }
  rewrite Z.pow_succ_r in Ha1, Hb1 by assumption.
  assert (Ha1' : inject_Z n < 2 * inject_Z (2 ^ a)).
  { replace 2 with (inject_Z 2) by reflexivity. rewrite <- inject_Z_mult.
    now rewrite <- Zlt_Qlt. }
  assert (Hb1' : inject_Z d < 2 * inject_Z (2 ^ b)).
  { replace 2 with (inject_Z 2) by reflexivity. rewrite <- inject_Z_mult.
    now rewrite <- Zlt_Qlt. }
  rewrite Zle_Qle in Ha0, Hb0.
  assert (Hd' : 0 < inject_Z d) by (unfold d; reflexivity).
  assert (Hupper : X < 2 * T).
  { apply (Qmult_lt_r _ _ (inject_Z d) Hd'). rewrite HX.
    apply Qlt_le_trans with (2 * inject_Z (2 ^ a)); [exact Ha1'|].
    rewrite <- HT.
    setoid_replace (2 * (T * inject_Z (2 ^ b)))
      with (2 * T * inject_Z (2 ^ b)) by ring.
    apply Qmult_le_l; [lra|exact Hb0]. }
  assert (Hlower : T < 2 * X).
  { apply (Qmult_lt_r _ _ (inject_Z d) Hd').
    setoid_replace (2 * X * inject_Z d) with (2 * (X * inject_Z d)) by ring.
    rewrite HX.
    apply Qlt_le_trans with (T * (2 * inject_Z (2 ^ b))).
    - apply Qmult_lt_l; assumption.
    - setoid_replace (T * (2 * inject_Z (2 ^ b)))
        with (2 * (T * inject_Z (2 ^ b))) by ring.
      rewrite HT. lra. }
  fold T.
  destruct (Qle_bool T X) eqn:E.
  - apply Qle_bool_iff in E. rewrite Hup. split; assumption.
  - rewrite Hdown. split; [|].
    + lra.
    + apply Qnot_le_lt. intros H. apply Qle_bool_iff in H. congruence.
Qed.

Lemma binade_unique (q : Q) (e : Z) :
  2 ^ e <= Qabs q -> Qabs q < 2 ^ (e + 1) -> binade q = e.
Proof.
  intros H0 H1.
  assert (Hq : ~ q == 0).
  { intros H. rewrite H in H0. pose proof (pow2_pos e).
    change (Qabs 0) with 0 in H0. lra. }
  destruct (binade_spec q Hq) as [B0 B1].
  assert (L1 : (binade q < e + 1)%Z).
  { apply pow2_lt_inv. lra. }
  assert (L2 : (e < binade q + 1)%Z).
  { apply pow2_lt_inv. lra. }
  lia.
Qed.

Lemma binade_comp (x y : Q) : ~ x == 0 -> x == y -> binade x = binade y.
Proof.
  intros Hx H. symmetry. destruct (binade_spec x Hx) as [B0 B1].
  apply binade_unique; now rewrite <- H.
Qed.

(** *** The nearest double *)
Lemma Qeq_bool_false (q : Q) : ~ q == 0 -> Qeq_bool q 0 = false.
Proof.
  intros H. destruct (Qeq_bool q 0) eqn:E; [|reflexivity].
  apply Qeq_bool_iff in E. contradiction.
Qed.

Lemma Qle_bool_comp (a x y : Q) : x == y -> Qle_bool a x = Qle_bool a y.
Proof.
  intros H. destruct (Qle_bool a x) eqn:Ex, (Qle_bool a y) eqn:Ey;
    try reflexivity.
  - apply Qle_bool_iff in Ex. rewrite H in Ex. apply Qle_bool_iff in Ex.
    congruence.
  - apply Qle_bool_iff in Ey. rewrite <- H in Ey. apply Qle_bool_iff in Ey.
    congruence.
Qed.

Lemma double_comp (x y : Q) : x == y -> double x = double y.
Proof.
  intros H. unfold double.
  destruct (Qeq_bool x 0) eqn:Ex.
  - apply Qeq_bool_iff in Ex. rewrite H in Ex.
    now rewrite (proj2 (Qeq_bool_iff y 0) Ex).
  - assert (Hx : ~ x == 0) by (intros E; apply Qeq_bool_iff in E; congruence).
    assert (Hy : ~ y == 0) by now rewrite <- H.
    rewrite (Qeq_bool_false y Hy). cbv zeta. unfold ulp_exponent.
    rewrite <- (binade_comp x y Hx H).
    set (e := Z.max (binade x - 52) (-1074)).
    rewrite (nearest_even_comp (y / 2 ^ e) (x / 2 ^ e)) by now rewrite H.
    now rewrite (Qle_bool_comp 0 y x) by now symmetry.
Qed.

Lemma double_positive (x : Q) :
  0 < x ->
  let e := ulp_exponent x in
  let m := nearest_even (x / 2 ^ e) in
  let r := Qred (inject_Z m * 2 ^ e) in
  (0 <= m)%Z
  /\ ((double x = PosInf /\ 2 ^ 1024 <= r)
      \/ (double x = Fin r /\ r < 2 ^ 1024)).
Proof.
  intros Hx e m r.
  assert (Hm : (0 <= m)%Z).
  { apply nearest_even_ge. change (inject_Z 0) with 0.
    apply Qle_shift_div_l; [apply pow2_pos|]. lra. }
  split; [exact Hm|].
  assert (Hr : 0 <= r).
  { unfold r. rewrite Qred_correct. apply Qmult_le_0_compat.
    - change 0 with (inject_Z 0). now rewrite <- Zle_Qle.
    - apply Qlt_le_weak, pow2_pos. }
  unfold double. rewrite Qeq_bool_false by lra. cbv zeta.
  fold e. fold m. fold r. rewrite (Qabs_pos r Hr).
  destruct (Qle_bool (2 ^ 1024) r) eqn:E.
  - left. apply Qle_bool_iff in E. split; [|exact E].
    now rewrite (proj2 (Qle_bool_iff 0 x)) by lra.
  - right. split; [reflexivity|].
    apply Qnot_le_lt. intros H. apply Qle_bool_iff in H. congruence.
Qed.

Lemma double_nonneg (x : Q) :
  0 <= x -> double x = PosInf \/ exists r, double x = Fin r /\ 0 <= r.
Proof.
  intros Hx. destruct (Qeq_dec x 0) as [E|E].
  - right. exists 0. rewrite (double_comp x 0 E). split; [reflexivity|lra].
  - assert (Hpos : 0 < x).
    { destruct (Qlt_le_dec 0 x) as [H|H]; [exact H|].
      exfalso. apply E. lra. }
    destruct (double_positive x Hpos) as (Hm & [[H _]|[H _]]).
    + now left.
    + right. eexists. split; [exact H|]. rewrite Qred_correct.
      apply Qmult_le_0_compat.
      * change 0 with (inject_Z 0). now rewrite <- Zle_Qle.
      * apply Qlt_le_weak, pow2_pos.
Qed.

(** The double of a real that lies below an integer of at most 53 bits
    lies below it as well. *)
Lemma double_le_integer (x : Q) (h : Z) :
  (h < 2 ^ 53)%Z -> 0 <= x -> x <= inject_Z h ->
  exists r, double x = Fin r /\ 0 <= r /\ r <= inject_Z h.
Proof.
  intros Hh Hx0 Hx1. destruct (Qeq_dec x 0) as [E|E].
  - exists 0. rewrite (double_comp x 0 E). split; [reflexivity|]. lra.
  - assert (Hpos : 0 < x).
    { destruct (Qlt_le_dec 0 x) as [H|H]; [exact H|]. exfalso. apply E. lra. }
    destruct (binade_spec x E) as [B0 B1]. rewrite (Qabs_pos x) in * by lra.
    assert (Hb : (binade x < 53)%Z).
    { apply pow2_lt_inv. apply Qle_lt_trans with x; [exact B0|].
      apply Qle_lt_trans with (inject_Z h); [exact Hx1|].
      rewrite pow2_Z by lia. now rewrite <- Zlt_Qlt. }
    destruct (double_positive x Hpos) as (Hm & Hcases). cbv zeta in *.
    set (e := ulp_exponent x) in *.
    assert (He : (e <= 0)%Z) by (unfold e, ulp_exponent; lia).
    set (m := nearest_even (x / 2 ^ e)) in *.
    assert (Hk : inject_Z (h * 2 ^ (- e)) * 2 ^ e == inject_Z h).
    { rewrite inject_Z_mult, <- pow2_Z by lia.
      rewrite <- Qmult_assoc, (Qmult_comm (2 ^ (- e))), pow2_cancel. ring. }
    assert (Hmk : (m <= h * 2 ^ (- e))%Z).
    { apply nearest_even_le. apply Qle_shift_div_r; [apply pow2_pos|].
      now rewrite Hk. }
    assert (Hr : inject_Z m * 2 ^ e <= inject_Z h).
    { rewrite <- Hk. apply Qmult_le_compat_r.
      - now rewrite <- Zle_Qle.
      - apply Qlt_le_weak, pow2_pos. }
    assert (Hr0 : 0 <= inject_Z m * 2 ^ e).
    { apply Qmult_le_0_compat.
      - change 0 with (inject_Z 0). now rewrite <- Zle_Qle.
      - apply Qlt_le_weak, pow2_pos. }
    destruct Hcases as [[_ Hover]|[Hdouble _]].
    + exfalso. rewrite Qred_correct in Hover.
      assert (H53 : inject_Z h < 2 ^ 1024).
      { apply Qlt_le_trans with (2 ^ 53).
        - rewrite pow2_Z by lia. now rewrite <- Zlt_Qlt.
        - apply pow2_le. lia. }
      lra.
    + eexists. split; [exact Hdouble|]. rewrite Qred_correct. split; assumption.
Qed.

(** The double of a real that lies above a positive integer of at most 53
    bits lies above it as well, or is the infinity. *)
Lemma double_ge_integer (x : Q) (h : Z) :
  (0 < h < 2 ^ 53)%Z -> inject_Z h <= x ->
  double x = PosInf \/ exists r, double x = Fin r /\ inject_Z h <= r.
Proof.
  intros Hh Hx.
  assert (Hh0 : 0 < inject_Z h).
  { change 0 with (inject_Z 0). rewrite <- Zlt_Qlt. lia. }
  assert (Hpos : 0 < x) by lra.
  assert (E : ~ x == 0) by lra.
  destruct (binade_spec x E) as [B0 B1]. rewrite (Qabs_pos x) in * by lra.
  assert (Hb : (0 <= binade x)%Z).
  { assert (H : (0 < binade x + 1)%Z); [|lia].
    apply pow2_lt_inv. change (2 ^ 0) with 1.
    apply Qle_lt_trans with x; [|exact B1].
    apply Qle_trans with (inject_Z h); [|exact Hx].
    change 1 with (inject_Z 1). rewrite <- Zle_Qle. lia. }
  destruct (double_positive x Hpos) as (Hm & Hcases). cbv zeta in *.
  set (e := ulp_exponent x) in *.
  assert (He : e = (binade x - 52)%Z) by (unfold e, ulp_exponent; lia).
  set (m := nearest_even (x / 2 ^ e)) in *.
  assert (Hr : inject_Z h <= inject_Z m * 2 ^ e).
  { destruct (Z.le_gt_cases e 0) as [Hneg|Hgt].
    - assert (Hk : inject_Z (h * 2 ^ (- e)) * 2 ^ e == inject_Z h).
      { rewrite inject_Z_mult, <- pow2_Z by lia.
        rewrite <- Qmult_assoc, (Qmult_comm (2 ^ (- e))), pow2_cancel. ring. }
      assert (Hmk : (h * 2 ^ (- e) <= m)%Z).
      { apply nearest_even_ge. apply Qle_shift_div_l; [apply pow2_pos|].
        now rewrite Hk. }
      rewrite <- Hk. apply Qmult_le_compat_r.
      + now rewrite <- Zle_Qle.
      + apply Qlt_le_weak, pow2_pos.
    - assert (Hmk : (2 ^ 52 <= m)%Z).
      { apply nearest_even_ge. apply Qle_shift_div_l; [apply pow2_pos|].
        rewrite <- pow2_Z by lia. rewrite <- pow2_plus.
        now replace (52 + e)%Z with (binade x) by lia. }
      apply Qle_trans with (2 ^ 53).
      + rewrite pow2_Z by lia. rewrite <- Zle_Qle. lia.
      + apply Qle_trans with (2 ^ 52 * 2 ^ e).
        * rewrite <- pow2_plus. apply pow2_le. lia.
        * apply Qmult_le_compat_r.
          -- rewrite pow2_Z by lia. now rewrite <- Zle_Qle.
          -- apply Qlt_le_weak, pow2_pos. }
  destruct Hcases as [[Hdouble _]|[Hdouble _]]; [now left|right].
  eexists. split; [exact Hdouble|]. now rewrite Qred_correct.
Qed.

Lemma Qred_Z (z : Z) : Qred (inject_Z z) = inject_Z z.
Proof.
  unfold Qred, inject_Z.
  pose proof (Z.ggcd_gcd z 1) as Hg.
  pose proof (Z.ggcd_correct_divisors z 1) as Hd.
  destruct (Z.ggcd z 1) as [g [r1 r2]]. simpl in *.
  rewrite Z.gcd_1_r in Hg. subst g. destruct Hd as [H1 H2].
  replace r1 with z by lia. now replace r2 with 1%Z by lia.
Qed.

Lemma Qred_inject_Z (q : Q) (z : Z) : q == inject_Z z -> Qred q = inject_Z z.
Proof.
  intros H. rewrite (Qred_complete _ _ H). apply Qred_Z.
Qed.

Lemma Qred_Qred (q : Q) : Qred (Qred q) = Qred q.
Proof.
  apply Qred_complete, Qred_correct.
Qed.

Lemma double_Qred (x : Q) (r : Q) : double x = Fin r -> Qred r = r.
Proof.
  unfold double. destruct (Qeq_bool x 0).
  - intros H. assert (E : r = 0) by congruence. now subst r.
  - cbv zeta. set (r0 := inject_Z _ * _).
    destruct (Qle_bool _ _); [destruct (Qle_bool 0 x); discriminate|].
    intros H. assert (E : r = Qred r0) by congruence. subst r.
    apply Qred_Qred.
Qed.

(** An integer of at most 53 bits is a double. *)
Lemma double_integer (z : Z) :
  (0 <= z < 2 ^ 53)%Z -> double (inject_Z z) = Fin (inject_Z z).
Proof.
  intros Hz. destruct (Z.eq_dec z 0) as [->|Hne]; [reflexivity|].
  assert (H0 : 0 <= inject_Z z).
  { change 0 with (inject_Z 0). rewrite <- Zle_Qle. lia. }
  destruct (double_le_integer (inject_Z z) z) as (r & Hr & _ & Hle);
    [lia|exact H0|apply Qle_refl|].
  destruct (double_ge_integer (inject_Z z) z) as [H|(r' & Hr' & Hge)];
    [lia|apply Qle_refl|congruence|].
  rewrite Hr in Hr'. inversion Hr'; subst r'.
  rewrite Hr. f_equal. rewrite <- (double_Qred _ _ Hr).
  apply Qred_inject_Z. lra.
Qed.

(** The rounding at work: 0.1 and 0.2 add up to [0.30000000000000004],
    which is not the double of 0.3; past [2 ^ 53] the odd integers are
    rounded to the even significand; the largest binade overflows; half of
    the smallest double underflows to zero. *)
Example double_arithmetic :
  Num.double (1 # 10) = Fin (3602879701896397 # 36028797018963968)
  /\ Num.double (2 # 10) = Fin (3602879701896397 # 18014398509481984)
  /\ Num.add (Fin (3602879701896397 # 36028797018963968))
       (Fin (3602879701896397 # 18014398509481984))
     = Fin (1351079888211149 # 4503599627370496)
  /\ Num.double (3 # 10) = Fin (5404319552844595 # 18014398509481984)
  /\ Num.add (Fin 9007199254740992) (Fin 1) = Fin 9007199254740992
  /\ Num.add (Fin 9007199254740992) (Fin 3) = Fin 9007199254740996
  /\ Num.mul (Fin (2 ^ 1023)) (Fin 2) = PosInf
  /\ Num.double (2 ^ (-1075)) = Fin 0
  /\ Num.double (3 * 2 ^ (-1075)) = Num.double (2 ^ (-1073)).
Proof.
  repeat split; vm_compute; reflexivity.
Qed.

(** ** Own properties: reading after writing *)

Section PropsFacts.
Context {A : Type}.
Implicit Types (o : props A) (k : string) (a : A).

Lemma own_update_same k a o :
  has_own k o = true -> own k (update_own k a o) = Some a.
Proof.
  unfold has_own.
  induction o as [|[k' a'] rest IH]; simpl; [discriminate|].
  destruct (String.eqb_spec k' k) as [->|Hne]; simpl.
  - now rewrite String.eqb_refl.
  - intros H. destruct (String.eqb_spec k' k); [contradiction|auto].
Qed.

Lemma own_update_other k k' a o :
  k' <> k -> own k' (update_own k a o) = own k' o.
Proof.
  intros Hne.
  induction o as [|[k0 a0] rest IH]; simpl; [reflexivity|].
  destruct (String.eqb_spec k0 k) as [->|Hk]; simpl.
  - destruct (String.eqb_spec k k'); [congruence|reflexivity].
  - now rewrite IH.
Qed.

Lemma own_insert_index_same i k a o :
  own k o = None -> own k (insert_index i k a o) = Some a.
Proof.
  induction o as [|[k' a'] rest IH]; simpl.
  - now rewrite String.eqb_refl.
  - destruct (String.eqb_spec k' k) as [->|Hne]; [discriminate|].
    intros H. destruct (array_index k') as [j|].
    + destruct (j <? i)%N; simpl.
      * destruct (String.eqb_spec k' k); [contradiction|auto].
      * now rewrite String.eqb_refl.
    + simpl. now rewrite String.eqb_refl.
Qed.

Lemma own_insert_index_other i k k' a o :
  k' <> k -> own k' (insert_index i k a o) = own k' o.
Proof.
  intros Hne.
  assert (Hhead : forall l, own k' ((k, a) :: l) = own k' l).
  { intros l. simpl. destruct (String.eqb_spec k k'); congruence. }
  induction o as [|[k0 a0] rest IH]; simpl.
  - destruct (String.eqb_spec k k'); congruence.
  - destruct (array_index k0) as [j|].
    + destruct (j <? i)%N.
      * simpl. now rewrite IH.
      * apply Hhead.
    + apply Hhead.
Qed.

Lemma own_app k o1 o2 :
  own k (o1 ++ o2)%list
  = match own k o1 with Some a => Some a | None => own k o2 end.
Proof.
  induction o1 as [|[k' a'] rest IH]; simpl; [reflexivity|].
  now destruct (k' =? k).
Qed.

Lemma own_define_same k a o : own k (define k a o) = Some a.
Proof.
  unfold define. destruct (has_own k o) eqn:Hk.
  - now apply own_update_same.
  - assert (Hnone : own k o = None).
    { unfold has_own in Hk. now destruct (own k o). }
    destruct (array_index k).
    + now apply own_insert_index_same.
    + rewrite own_app, Hnone. simpl. now rewrite String.eqb_refl.
Qed.

Lemma own_define_other k k' a o :
  k' <> k -> own k' (define k a o) = own k' o.
Proof.
  intros Hne. unfold define. destruct (has_own k o).
  - now apply own_update_other.
  - destruct (array_index k).
    + now apply own_insert_index_other.
    + rewrite own_app. destruct (own k' o); [reflexivity|].
      simpl. destruct (String.eqb_spec k k'); congruence.
Qed.

Lemma In_update_own k a k' a' o :
  In (k', a') (update_own k a o) -> (k' = k /\ a' = a) \/ In (k', a') o.
Proof.
  induction o as [|[k0 a0] rest IH]; simpl; [tauto|].
  destruct (String.eqb_spec k0 k) as [->|Hne]; simpl.
  - intros [H|H]; [left; now inversion H | right; now right].
  - intros [H|H]; [right; now left | destruct (IH H); tauto].
Qed.

Lemma In_insert_index i k a k' a' o :
  In (k', a') (insert_index i k a o) -> (k' = k /\ a' = a) \/ In (k', a') o.
Proof.
  induction o as [|[k0 a0] rest IH]; simpl.
  - intros [H|[]]. left. now inversion H.
  - destruct (array_index k0) as [j|]; [destruct (j <? i)%N|]; simpl.
    + intros [H|H]; [right; now left | destruct (IH H); tauto].
    + intros [H|H]; [left; now inversion H | now right].
    + intros [H|H]; [left; now inversion H | now right].
Qed.

Lemma In_define k a k' a' o :
  In (k', a') (define k a o) -> (k' = k /\ a' = a) \/ In (k', a') o.
Proof.
  unfold define. destruct (has_own k o).
  - apply In_update_own.
  - destruct (array_index k).
    + apply In_insert_index.
    + intros H. apply in_app_or in H. destruct H as [H|[H|[]]].
      * now right.
      * left. now inversion H.
Qed.

Lemma In_assign k a k' a' o :
  In (k', a') (assign k a o) -> (k' = k /\ a' = a) \/ In (k', a') o.
Proof.
  unfold assign.
  destruct ((k =? "__proto__") && negb (has_own k o)); [now right|].
  apply In_define.
Qed.

Lemma get_assign_same k a o :
  k <> "__proto__" -> get k (assign k a o) = Own a.
Proof.
  intros Hk. unfold assign, get.
  destruct (String.eqb_spec k "__proto__"); [contradiction|]. simpl.
  now rewrite own_define_same.
Qed.

Lemma own_delete_same k o : own k (delete k o) = None.
Proof.
  unfold delete.
  induction o as [|[k' a'] rest IH]; simpl; [reflexivity|].
  destruct (String.eqb_spec k' k) as [->|Hne]; simpl; [exact IH|].
  destruct (String.eqb_spec k' k); [contradiction|exact IH].
Qed.

End PropsFacts.

(** ** Daily entries *)

Ltac storage_simpl :=
  unfold stored_entries, stored_medicines, stored_history,
    webStorage_getItem, webStorage_setItem,
    mobileStorage_getItem, mobileStorage_setItem, parse_or in *;
  simpl in *.

Lemma validateDailyEntry_in_bounds (w c s : Q) :
  0 <= w <= 10000 -> 0 <= c <= 10000 -> 0 <= s <= 100000 ->
  validateDailyEntry (VNum (Fin w)) (VNum (Fin c)) (VNum (Fin s)) = [].
Proof.
  intros [Hw0 Hw1] [Hc0 Hc1] [Hs0 Hs1].
  unfold validateDailyEntry, below, above, Num.gt. simpl.
  now rewrite !(proj2 (Qle_bool_iff _ _)) by assumption.
Qed.

(** What a successful [saveDailyEntry] leaves in the store. *)
Lemma saveDailyEntry_Ok isWeb st Date_now toISOString d w c s st' r :
  saveDailyEntry isWeb st Date_now toISOString d w c s = Ok (st', r) ->
  exists e,
    date e = string_of d
    /\ stored_entries st' = assign (string_of d) e (stored_entries st)
    /\ USER_PROFILE st' = USER_PROFILE st
    /\ MEDICINES st' = MEDICINES st
    /\ MEDICINE_DOSE_HISTORY st' = MEDICINE_DOSE_HISTORY st.
Proof.
  unfold saveDailyEntry.
  destruct (0 <? List.length (validateDailyEntry w c s))%nat;
    [discriminate|].
  destruct (negb (ToBoolean d) || negb (typeof d =? "string"));
    [discriminate|].
  destruct isWeb; simpl; intros H; inversion H; subst; clear H;
    eexists; storage_simpl; repeat split; reflexivity.
Qed.

(** C1. Writing the entry of a date with three measures within their
    bounds and reading the entry of that date gives back a record with
    exactly the three measures written.  A date is a string that is not
    empty; the one key that the write does not store under is ["__proto__"],
    which is no date. *)
Theorem saveDailyEntry_getTodayEntry
  (isWeb : bool) (st : Storage) (Date_now : Z) (toISOString d : string)
  (w c s : Q) :
  d <> "" -> d <> "__proto__" ->
  0 <= w <= 10000 -> 0 <= c <= 10000 -> 0 <= s <= 100000 ->
  exists st' r e,
    saveDailyEntry isWeb st Date_now toISOString
      (VStr d) (VNum (Fin w)) (VNum (Fin c)) (VNum (Fin s)) = Ok (st', r)
    /\ getTodayEntry isWeb st' d = Entry e
    /\ water_ml e = Some w
    /\ Database.calories e = Some c
    /\ Database.steps e = Some s.
Proof.
  intros Hd Hproto Hw Hc Hs.
  unfold saveDailyEntry.
  rewrite (validateDailyEntry_in_bounds w c s Hw Hc Hs). simpl.
  destruct (String.eqb_spec d "") as [|_]; [contradiction|]. simpl.
  destruct isWeb; simpl; do 3 eexists;
    (split; [reflexivity|]);
    unfold getTodayEntry; storage_simpl;
    rewrite (get_assign_same _ _ _ Hproto); simpl; auto.
Qed.

Lemma saveDailyEntry_getTodayEntry_witness :
  exists st' r e,
    saveDailyEntry true empty_storage 1735689600000 "2025-01-01T00:00:00.000Z"
      (VStr "2025-01-01") (VNum (Fin 1000)) (VNum (Fin 500))
      (VNum (Fin 2000)) = Ok (st', r)
    /\ getTodayEntry true st' "2025-01-01" = Entry e
    /\ water_ml e = Some 1000
    /\ Database.calories e = Some 500
    /\ Database.steps e = Some 2000.
Proof.
  apply (saveDailyEntry_getTodayEntry true empty_storage 1735689600000
           "2025-01-01T00:00:00.000Z" "2025-01-01" 1000 500 2000);
    try discriminate; split; discriminate.
Defined.

(** The scenario of an entry written twice: the second write replaces the
    first. *)
Example saveDailyEntry_twice :
  exists st1 r1 st2 r2,
    saveDailyEntry true store_0 1 "t1" (VStr "2025-01-01")
      (VNum (Fin 1000)) (VNum (Fin 500)) (VNum (Fin 2000)) = Ok (st1, r1)
    /\ saveDailyEntry true st1 2 "t2" (VStr "2025-01-01")
         (VNum (Fin 2000)) (VNum (Fin 1000)) (VNum (Fin 4000)) = Ok (st2, r2)
    /\ getTodayEntry true st2 "2025-01-01"
       = Entry {| id := 2; date := "2025-01-01"; water_ml := Some 2000;
                  Database.calories := Some 1000;
                  Database.steps := Some 4000; created_at := "t2" |}.
Proof.
  do 4 eexists. repeat split.
Qed.

(** The two strings under which no entry is written: the empty string is
    refused, and the write under ["__proto__"] creates no property. *)
Example saveDailyEntry_empty_date :
  saveDailyEntry true store_0 1 "t1" (VStr "")
    (VNum (Fin 1000)) (VNum (Fin 500)) (VNum (Fin 2000))
  = Throw "Failed to save daily entry: Invalid date format".
Proof. reflexivity. Qed.

Example saveDailyEntry_proto_date :
  exists st1 r1,
    saveDailyEntry true store_0 1 "t1" (VStr "__proto__")
      (VNum (Fin 1000)) (VNum (Fin 500)) (VNum (Fin 2000)) = Ok (st1, r1)
    /\ stored_entries st1 = []
    /\ getTodayEntry true st1 "__proto__" = Builtin "__proto__".
Proof.
  do 2 eexists. repeat split.
Qed.

Lemma range_test_passes (hi : Q) (v : value) :
  negb (typeof v =? "number") || below v 0 || above v hi = false
  <-> passes hi v.
Proof.
  unfold below, above, Num.gt. split.
  - destruct v as [| |b|[| |q|]|s|items|o]; simpl; try discriminate.
    + intros _. constructor.
    + intros H. apply orb_false_iff in H. destruct H as [H0 H1].
      apply negb_false_iff, Qle_bool_iff in H0, H1. now constructor.
  - intros [q H0 H1|]; simpl; [|reflexivity].
    now rewrite !(proj2 (Qle_bool_iff _ _)) by assumption.
Qed.

Lemma validateDailyEntry_nil (w c s : value) :
  validateDailyEntry w c s = []
  <-> passes 10000 w /\ passes 10000 c /\ passes 100000 s.
Proof.
  rewrite <- !range_test_passes. unfold validateDailyEntry, push_if.
  destruct (negb (typeof w =? "number") || below w 0 || above w 10000);
  destruct (negb (typeof c =? "number") || below c 0 || above c 10000);
  destruct (negb (typeof s =? "number") || below s 0 || above s 100000);
    simpl; intuition discriminate.
Qed.

(** A measure that does not pass makes [saveDailyEntry] throw the error of
    the validation before it touches the store. *)
Lemma saveDailyEntry_invalid isWeb st Date_now toISOString d w c s :
  ~ (passes 10000 w /\ passes 10000 c /\ passes 100000 s) ->
  saveDailyEntry isWeb st Date_now toISOString d w c s
  = Throw ("Failed to save daily entry: Invalid data: "
           ++ String.concat ", " (validateDailyEntry w c s)).
Proof.
  rewrite <- validateDailyEntry_nil. intros H. unfold saveDailyEntry.
  destruct (validateDailyEntry w c s); [congruence|reflexivity].
Qed.

(** C2. The measure NaN is no number of [0..10000], and [saveDailyEntry]
    takes it: the validation returns no message, and the call overwrites the
    entry of the date with an entry whose [water_ml] is [null]. *)
Theorem saveDailyEntry_accepts_NaN :
  validateDailyEntry (VNum NaN) (VNum (Fin 500)) (VNum (Fin 2000)) = []
  /\ exists st1 r1 st2 r2 e,
       saveDailyEntry true empty_storage 1 "t1" (VStr "2025-01-01")
         (VNum (Fin 1000)) (VNum (Fin 500)) (VNum (Fin 2000)) = Ok (st1, r1)
       /\ saveDailyEntry true st1 2 "t2" (VStr "2025-01-01")
            (VNum NaN) (VNum (Fin 500)) (VNum (Fin 2000)) = Ok (st2, r2)
       /\ stored_entries st1 <> stored_entries st2
       /\ getTodayEntry true st2 "2025-01-01" = Entry e
       /\ water_ml e = None.
Proof.
  split; [reflexivity|].
  do 5 eexists. repeat split; try reflexivity. discriminate.
Qed.

(** *** The other operations leave the entries alone *)

Lemma initDatabase_entries isWeb st st' :
  initDatabase isWeb st = Ok st' -> stored_entries st' = stored_entries st.
Proof.
  unfold initDatabase.
  destruct isWeb, st as [[entries|] [profile|] medicines history];
    storage_simpl; intros H; inversion H; reflexivity.
Qed.

Lemma saveUserProfile_entries isWeb st toISOString profile st' r :
  saveUserProfile isWeb st toISOString profile = Ok (st', r) ->
  DAILY_ENTRIES st' = DAILY_ENTRIES st.
Proof.
  unfold saveUserProfile.
  destruct (0 <? List.length (validateUserProfile profile))%nat;
    [discriminate|].
  destruct isWeb; simpl; intros H; inversion H; reflexivity.
Qed.

Lemma initMedicines_entries isWeb st :
  DAILY_ENTRIES (initMedicines isWeb st) = DAILY_ENTRIES st.
Proof.
  unfold initMedicines.
  destruct isWeb, st as [entries profile [medicines|] [history|]];
    reflexivity.
Qed.

Lemma deleteMedicine_entries isWeb st id st' :
  deleteMedicine isWeb st id = Ok st' ->
  DAILY_ENTRIES st' = DAILY_ENTRIES st.
Proof.
  unfold deleteMedicine.
  destruct isWeb; intros H; inversion H; reflexivity.
Qed.

Lemma recordDoseTaken_entries isWeb st Date_now toISOString id doseTime st' :
  recordDoseTaken isWeb st Date_now toISOString id doseTime = Some (Ok st') ->
  DAILY_ENTRIES st' = DAILY_ENTRIES st.
Proof.
  unfold recordDoseTaken.
  destruct isWeb; storage_simpl;
    (destruct (own (Number_toString id) _) as [medicine|];
     [destruct (plus_one _); [|discriminate]|]);
    intros H; inversion H; reflexivity.
Qed.

(** C10. In every state of the store that the operations reach from the
    store without items, each entry of the map of daily entries carries in
    its [date] the key under which it is kept. *)
Theorem stored_date_is_key (isWeb : bool) (st : Storage) :
  reachable isWeb st ->
  forall k e, In (k, e) (stored_entries st) -> date e = k.
Proof.
  induction 1 as
    [ | st st' _ IH Hinit
      | st Date_now toISOString d w c s st' r _ IH Hsave
      | st toISOString profile st' r _ IH Hsave
      | st medicines _ IH
      | st _ IH
      | st id st' _ IH Hdelete
      | st Date_now toISOString id doseTime st' _ IH Hrecord ];
    intros k e Hin.
  - contradiction.
  - rewrite (initDatabase_entries _ _ _ Hinit) in Hin. now apply IH.
  - destruct (saveDailyEntry_Ok _ _ _ _ _ _ _ _ _ _ Hsave)
      as (e' & Hdate & Hentries & _).
    rewrite Hentries in Hin. apply In_assign in Hin.
    destruct Hin as [[-> ->]|Hin]; [exact Hdate | now apply IH].
  - unfold stored_entries in *.
    rewrite (saveUserProfile_entries _ _ _ _ _ _ Hsave) in Hin. now apply IH.
  - now apply IH.
  - unfold stored_entries in *.
    rewrite initMedicines_entries in Hin. now apply IH.
  - unfold stored_entries in *.
    rewrite (deleteMedicine_entries _ _ _ _ Hdelete) in Hin. now apply IH.
  - unfold stored_entries in *.
    rewrite (recordDoseTaken_entries _ _ _ _ _ _ _ Hrecord) in Hin.
    now apply IH.
Qed.

Lemma store_2_reachable : reachable true store_2.
Proof.
  apply (reach_saveDailyEntry true store_1 1735776000000
           "2025-01-02T00:00:00.000Z" (VStr "2025-01-02") (VNum (Fin 2))
           (VNum (Fin 700)) (VNum (Fin 4000)) store_2
           {| changes := 1; lastInsertRowid := 1735776000000 |});
    [|reflexivity].
  apply (reach_saveDailyEntry true store_0 1735689600000
           "2025-01-01T00:00:00.000Z" (VStr "2025-01-01") (VNum (Fin 1))
           (VNum (Fin 500)) (VNum (Fin 2000)) store_1
           {| changes := 1; lastInsertRowid := 1735689600000 |});
    [|reflexivity].
  apply (reach_initDatabase true empty_storage store_0);
    [apply reach_start | reflexivity].
Defined.

Lemma stored_date_is_key_witness :
  reachable true store_2
  /\ In ("2025-01-02", entry_2) (stored_entries store_2)
  /\ date entry_2 = "2025-01-02".
Proof.
  split; [exact store_2_reachable|].
  split; [right; left; reflexivity|].
  apply (stored_date_is_key true store_2 store_2_reachable
           "2025-01-02" entry_2).
  right; left; reflexivity.
Defined.

(** ** Sorting *)

Section SortFacts.
Context {A : Type} (comparefn : A -> A -> Z).

Lemma insert_sorted_Permutation (x : A) (l : list A) :
  Permutation (insert_sorted comparefn x l) (x :: l).
Proof.
  induction l as [|y rest IH]; simpl; [reflexivity|].
  destruct (comparefn x y <=? 0)%Z; [reflexivity|].
  rewrite IH. apply perm_swap.
Qed.

Lemma Array_sort_Permutation (l : list A) :
  Permutation (Array_sort comparefn l) l.
Proof.
  induction l as [|x rest IH]; simpl; [reflexivity|].
  rewrite insert_sorted_Permutation. now constructor.
Qed.

Lemma Array_sort_length (l : list A) :
  List.length (Array_sort comparefn l) = List.length l.
Proof. apply Permutation_length, Array_sort_Permutation. Qed.

Hypothesis before_total :
  forall x y, (0 < comparefn x y)%Z -> (comparefn y x <= 0)%Z.

Lemma insert_sorted_HdRel (y x : A) (l : list A) :
  before comparefn y x -> HdRel (before comparefn) y l ->
  HdRel (before comparefn) y (insert_sorted comparefn x l).
Proof.
  intros Hyx Hy. destruct l as [|z rest]; simpl; [now constructor|].
  destruct (comparefn x z <=? 0)%Z; constructor; [exact Hyx|].
  now inversion Hy.
Qed.

Lemma insert_sorted_Sorted (x : A) (l : list A) :
  Sorted (before comparefn) l ->
  Sorted (before comparefn) (insert_sorted comparefn x l).
Proof.
  induction 1 as [|y rest Hrest IH Hy]; simpl.
  - repeat constructor.
  - destruct (Z.leb_spec (comparefn x y) 0) as [Hle|Hgt].
    + constructor; [now constructor | now constructor].
    + constructor; [exact IH|].
      apply insert_sorted_HdRel; [now apply before_total | exact Hy].
Qed.

Lemma Array_sort_Sorted (l : list A) :
  Sorted (before comparefn) (Array_sort comparefn l).
Proof.
  induction l as [|x rest IH]; simpl; [constructor|].
  now apply insert_sorted_Sorted.
Qed.

End SortFacts.

(** A consistent comparison is total and transitive as an order. *)
Lemma consistent_total cmp :
  consistent cmp -> forall a b, (0 < cmp a b)%Z -> (cmp b a < 0)%Z.
Proof.
  intros C a b Hab.
  destruct (Z.compare_spec (cmp b a) 0) as [Heq|Hlt|Hgt]; [|exact Hlt|].
  - apply (cmp_sym cmp C) in Heq. lia.
  - pose proof (cmp_trans_gt cmp C a b a) as H.
    pose proof (cmp_refl cmp C a). lia.
Qed.

Lemma consistent_trans cmp :
  consistent cmp ->
  forall a b c, (cmp a b <= 0)%Z -> (cmp b c <= 0)%Z -> (cmp a c <= 0)%Z.
Proof.
  intros C a b c Hab Hbc.
  destruct (Z.compare_spec (cmp a c) 0) as [Heq|Hlt|Hgt]; [lia|lia|].
  exfalso.
  pose proof (consistent_total cmp C a c Hgt) as Hca.
  destruct (Z.compare_spec (cmp a b) 0) as [Hab0|Hab0|Hab0]; [| |lia];
  destruct (Z.compare_spec (cmp b c) 0) as [Hbc0|Hbc0|Hbc0]; try lia.
  - pose proof (cmp_trans_eq cmp C a b c Hab0 Hbc0). lia.
  - (* a = b, b < c, c < a: b < a *)
    pose proof (cmp_trans_lt cmp C b c a Hbc0 Hca) as Hba.
    pose proof (cmp_sym cmp C a b Hab0). lia.
  - (* a < b, b = c, c < a: c < b *)
    pose proof (cmp_trans_lt cmp C c a b Hca Hab0) as Hcb.
    pose proof (cmp_sym cmp C b c Hbc0). lia.
  - pose proof (cmp_trans_lt cmp C a b c Hab0 Hbc0). lia.
Qed.

(** The comparison of code units is consistent. *)
Lemma String_as_OT_compare (a b : string) :
  OrdersEx.String_as_OT.compare a b = String.compare a b.
Proof.
  reflexivity.
Qed.

Lemma String_compare_refl (a : string) : String.compare a a = Eq.
Proof.
  rewrite <- String_as_OT_compare.
  destruct (OrdersEx.String_as_OT.compare_spec a a) as [_|H|H];
    [reflexivity| |]; now apply StrictOrder_Irreflexive in H.
Qed.

Lemma String_compare_trans (a b c : string) :
  String.compare a b = Lt -> String.compare b c = Lt -> String.compare a c = Lt.
Proof.
  rewrite <- !String_as_OT_compare.
  apply (@StrictOrder_Transitive _ _ OrdersEx.String_as_OT.lt_strorder).
Qed.

Lemma codeunit_compare_consistent : consistent codeunit_compare.
Proof.
  assert (Hlt : forall a b, (codeunit_compare a b < 0)%Z
                            <-> String.compare a b = Lt).
  { intros a b. unfold codeunit_compare.
    destruct (String.compare a b); split; (lia || discriminate || auto). }
  assert (Hgt : forall a b, (codeunit_compare a b > 0)%Z
                            <-> String.compare b a = Lt).
  { intros a b. unfold codeunit_compare. rewrite (String.compare_antisym b a).
    destruct (String.compare a b); simpl; split;
      (lia || discriminate || auto). }
  assert (Heq : forall a b, codeunit_compare a b = 0%Z <-> a = b).
  { intros a b. unfold codeunit_compare. split.
    - destruct (String.compare a b) eqn:H; try discriminate.
      intros _. now apply String.compare_eq_iff.
    - intros ->. now rewrite String_compare_refl. }
  split.
  - intros a. now apply Heq.
  - intros a b H. apply Heq. symmetry. now apply Heq.
  - intros a b c H1 H2. apply Heq. apply Heq in H1, H2. congruence.
  - intros a b c H1 H2. apply Hlt. apply Hlt in H1, H2.
    eapply String_compare_trans; eassumption.
  - intros a b c H1 H2. apply Hgt. apply Hgt in H1, H2.
    eapply String_compare_trans; eassumption.
Qed.

(** ** Range queries *)

Lemma getEntriesForDateRange_unfold isWeb localeCompare st a b :
  getEntriesForDateRange isWeb localeCompare st a b
  = Array_sort (by_date localeCompare)
      (filter (in_range a b) (Object_values (stored_entries st))).
Proof.
  unfold getEntriesForDateRange. now destruct isWeb; storage_simpl.
Qed.

Lemma getEntriesForDateRange_Permutation isWeb localeCompare st a b :
  Permutation (getEntriesForDateRange isWeb localeCompare st a b)
    (filter (in_range a b) (Object_values (stored_entries st))).
Proof.
  rewrite getEntriesForDateRange_unfold. apply Array_sort_Permutation.
Qed.



Lemma caseless_compare_consistent : consistent caseless_compare.
Proof.
  pose proof codeunit_compare_consistent as C. unfold caseless_compare.
  constructor.
  - intros a. apply (cmp_refl _ C).
  - intros a b. apply (cmp_sym _ C).
  - intros a b c. apply (cmp_trans_eq _ C).
  - intros a b c. apply (cmp_trans_lt _ C).
  - intros a b c. apply (cmp_trans_gt _ C).
Qed.




(** ** Averages *)

Lemma or_zero_measure (m : option Q) :
  exists q, or_zero m = Fin q /\ q == measure m.
Proof.
  destruct m as [q|]; simpl; [|now exists 0].
  destruct (Qeq_bool q 0) eqn:H; simpl.
  - exists 0. split; [reflexivity|]. apply Qeq_bool_iff in H. now rewrite H.
  - now exists q.
Qed.

Lemma add_comp (n : number) (x y : Q) :
  x == y -> Num.add n (Fin x) = Num.add n (Fin y).
Proof.
  intros H. destruct n as [| |q|]; try reflexivity.
  unfold Num.add. apply double_comp. now rewrite H.
Qed.

Lemma add_or_zero (n : number) (m : option Q) :
  Num.add n (or_zero m) = Num.add n (Fin (measure m)).
Proof.
  destruct (or_zero_measure m) as (q & -> & H). now apply add_comp.
Qed.

(** The [reduce] accumulates each measure by double additions and counts
    the entries by double additions of one. *)
Lemma fold_add_entry (l : list DailyEntry) :
  forall W C S K : number,
    fold_left add_entry l
      {| acc_water := W; acc_calories := C; acc_steps := S; count := K |}
    = {| acc_water :=
           fold_left (fun acc q => Num.add acc (Fin q))
             (map (fun e => measure (water_ml e)) l) W;
         acc_calories :=
           fold_left (fun acc q => Num.add acc (Fin q))
             (map (fun e => measure (Database.calories e)) l) C;
         acc_steps :=
           fold_left (fun acc q => Num.add acc (Fin q))
             (map (fun e => measure (Database.steps e)) l) S;
         count := fold_left (fun k _ => Num.add k (Fin 1)) l K |}.
Proof.
  induction l as [|e rest IH]; intros W C S K; [reflexivity|].
  cbn [fold_left map]. unfold add_entry at 2.
  cbn [acc_water acc_calories acc_steps count].
  rewrite !add_or_zero. apply IH.
Qed.

(** Counting by double additions is exact below [2^53]; from there on the
    count stays where it is. *)
Lemma count_step (k : Z) :
  (0 <= k)%Z -> (k + 1 < 2 ^ 53)%Z ->
  Num.add (Fin (inject_Z k)) (Fin 1) = Fin (inject_Z (k + 1)).
Proof.
  intros H0 H1. unfold Num.add.
  rewrite (double_comp _ (inject_Z (k + 1))).
  - apply double_integer. lia.
  - rewrite inject_Z_plus. reflexivity.
Qed.

Lemma count_saturates (k : Z) :
  (0 <= k <= 2 ^ 53)%Z ->
  exists k',
    Num.add (Fin (inject_Z k)) (Fin 1) = Fin (inject_Z k')
    /\ (1 <= k' <= 2 ^ 53)%Z.
Proof.
  intros Hk. destruct (Z.lt_ge_cases (k + 1) (2 ^ 53)) as [Hlt|Hge].
  - exists (k + 1)%Z. split; [apply count_step; lia|lia].
  - exists (2 ^ 53)%Z. split; [|lia].
    assert (Hcases : k = (2 ^ 53 - 1)%Z \/ k = (2 ^ 53)%Z) by lia.
    destruct Hcases as [-> | ->]; vm_compute; reflexivity.
Qed.

Lemma count_exact {A : Type} (l : list A) :
  forall k,
    (0 <= k)%Z -> (k + Z.of_nat (List.length l) < 2 ^ 53)%Z ->
    fold_left (fun n _ => Num.add n (Fin 1)) l (Fin (inject_Z k))
    = Fin (inject_Z (k + Z.of_nat (List.length l))).
Proof.
  induction l as [|x rest IH]; intros k H0 H1.
  - simpl. now rewrite Z.add_0_r.
  - cbn [fold_left List.length] in *. rewrite Nat2Z.inj_succ in *.
    rewrite count_step by lia. rewrite IH by lia. do 2 f_equal. lia.
Qed.

Lemma count_positive {A : Type} (l : list A) :
  forall k,
    (0 <= k <= 2 ^ 53)%Z -> l <> [] ->
    exists k',
      fold_left (fun n _ => Num.add n (Fin 1)) l (Fin (inject_Z k))
      = Fin (inject_Z k')
      /\ (1 <= k' <= 2 ^ 53)%Z.
Proof.
  induction l as [|x rest IH]; intros k Hk Hl; [congruence|].
  cbn [fold_left].
  destruct (count_saturates k Hk) as (k1 & -> & Hk1).
  destruct rest as [|y rest'].
  - now exists k1.
  - apply IH; [lia|discriminate].
Qed.

(** The averages in terms of the entries found. *)
Lemma getWeeklyAverages_over_found
  (isWeb : bool) (localeCompare : string -> string -> Z) (st : Storage)
  (a b : string) :
  let found := getEntriesForDateRange isWeb localeCompare st a b in
  let averages := getWeeklyAverages isWeb localeCompare st a b in
  let mean (m : DailyEntry -> option Q) :=
    Num.round
      (Num.div (double_sum (map (fun e => measure (m e)) found))
         (daysTracked averages)) in
  List.length found
  = List.length (filter (in_range a b) (Object_values (stored_entries st)))
  /\ (found = [] -> averages = no_averages)
  /\ (found <> [] ->
      water averages = mean water_ml
      /\ calories averages = mean Database.calories
      /\ steps averages = mean Database.steps
      /\ exists k,
           daysTracked averages = Num.of_Z k /\ (1 <= k <= 2 ^ 53)%Z)
  /\ ((Z.of_nat (List.length found) < 2 ^ 53)%Z ->
      daysTracked averages = Num.of_Z (Z.of_nat (List.length found))).
Proof.
  intros found averages mean.
  split; [apply Permutation_length, getEntriesForDateRange_Permutation|].
  subst mean averages. unfold getWeeklyAverages. fold found.
  destruct found as [|e rest] eqn:Efound.
  - cbn [List.length Nat.eqb]. split; [reflexivity|].
    split; [congruence|]. intros _. reflexivity.
  - cbn [List.length Nat.eqb]. rewrite fold_add_entry.
    cbn [acc_water acc_calories acc_steps count water calories steps
         daysTracked].
    split; [discriminate|]. split.
    + intros _. repeat split.
      change (Fin 0) with (Fin (inject_Z 0)).
      destruct (count_positive (e :: rest) 0) as (k & -> & Hk);
        [lia|discriminate|].
      now exists k.
    + intros Hlength. change (Fin 0) with (Fin (inject_Z 0)).
      rewrite count_exact; [reflexivity|lia|].
      cbn [List.length]. lia.
Qed.

(** C6. The averages over a range are taken over the entries found in the
    range only: [daysTracked] is the number of these entries, and each
    average is what [Math.round] makes of the mean of the measure over
    them, a [null] measure counting for zero.  The mean is the one of
    double arithmetic: the measures are added one by one in the order of
    the entries found and the sum is divided by their number.  When no
    entry is found the result is all zero.  (A count of [2^53] entries or
    more is beyond what a double counts.) *)
Theorem getWeeklyAverages_spec
  (isWeb : bool) (localeCompare : string -> string -> Z) (st : Storage)
  (a b : string) :
  let found := getEntriesForDateRange isWeb localeCompare st a b in
  let averages := getWeeklyAverages isWeb localeCompare st a b in
  (Z.of_nat (List.length found) < 2 ^ 53)%Z ->
  List.length found
  = List.length (filter (in_range a b) (Object_values (stored_entries st)))
  /\ daysTracked averages = Num.of_Z (Z.of_nat (List.length found))
  /\ (found = [] -> averages = no_averages)
  /\ (found <> [] ->
      water averages
      = rounded_mean (map (fun e => measure (water_ml e)) found)
      /\ calories averages
         = rounded_mean (map (fun e => measure (Database.calories e)) found)
      /\ steps averages
         = rounded_mean (map (fun e => measure (Database.steps e)) found)).
Proof.
  intros found averages Hlength.
  destruct (getWeeklyAverages_over_found isWeb localeCompare st a b)
    as (Hfound & Hnil & Hcons & Hdays).
  fold found averages in Hfound, Hnil, Hcons, Hdays.
  specialize (Hdays Hlength).
  split; [exact Hfound|]. split; [exact Hdays|]. split; [exact Hnil|].
  intros Hne. destruct (Hcons Hne) as (Hw & Hc & Hs & _).
  unfold rounded_mean. rewrite !length_map, <- Hdays. tauto.
Qed.

Lemma getWeeklyAverages_spec_witness :
  (Z.of_nat
     (List.length
        (getEntriesForDateRange true codeunit_compare store_2
           "2025-01-01" "2025-01-07")) < 2 ^ 53)%Z
  /\ getEntriesForDateRange true codeunit_compare store_2
       "2025-01-01" "2025-01-07" <> []
  /\ water (getWeeklyAverages true codeunit_compare store_2
              "2025-01-01" "2025-01-07")
     = rounded_mean [1; 2].
Proof.
  assert (Hlength :
            (Z.of_nat
               (List.length
                  (getEntriesForDateRange true codeunit_compare store_2
                     "2025-01-01" "2025-01-07")) < 2 ^ 53)%Z)
    by reflexivity.
  assert (Hfound : getEntriesForDateRange true codeunit_compare store_2
                     "2025-01-01" "2025-01-07" <> []) by discriminate.
  split; [exact Hlength|]. split; [exact Hfound|].
  destruct (getWeeklyAverages_spec true codeunit_compare store_2
              "2025-01-01" "2025-01-07" Hlength) as (_ & _ & _ & H).
  exact (proj1 (H Hfound)).
Defined.

(** C6, as it is worded, fails: over the two entries of the scenario, whose
    water is 1 and 2, the arithmetic mean is 3/2 and the average returned
    is 2. *)
Lemma getWeeklyAverages_not_mean :
  let averages :=
    getWeeklyAverages true codeunit_compare store_2
      "2025-01-01" "2025-01-07" in
  map (fun e => measure (water_ml e))
    (getEntriesForDateRange true codeunit_compare store_2
       "2025-01-01" "2025-01-07") = [1; 2]
  /\ arithmetic_mean [1; 2] == 3 # 2
  /\ water averages = Fin 2
  /\ Num.eq (water averages) (Fin (arithmetic_mean [1; 2])) = false.
Proof.
  cbv zeta. split; [reflexivity|]. split; [reflexivity|].
  split; vm_compute; reflexivity.
Qed.

(** The sum is the one of double arithmetic: the doubles nearest to 0.7 and
    to 0.3 add up to the double 1, although their exact sum is below 1.
    Over the two entries that hold them the average of the water is
    [Math.round (1 / 2)], which is 1, where the exact mean, below one half,
    would be rounded to 0. *)
Example double_sum_rounds :
  Num.double (7 # 10) = Fin (3152519739159347 # 4503599627370496)
  /\ Num.double (3 # 10) = Fin (5404319552844595 # 18014398509481984)
  /\ double_sum
       [ 3152519739159347 # 4503599627370496;
         5404319552844595 # 18014398509481984 ] = Fin 1
  /\ (3152519739159347 # 4503599627370496)
     + (5404319552844595 # 18014398509481984) < 1
  /\ map (fun e => measure (water_ml e))
       (getEntriesForDateRange true codeunit_compare store_tenths
          "2025-01-01" "2025-01-07")
     = [ 3152519739159347 # 4503599627370496;
         5404319552844595 # 18014398509481984 ]
  /\ water (getWeeklyAverages true codeunit_compare store_tenths
              "2025-01-01" "2025-01-07") = Fin 1
  /\ Num.round
       (Fin (arithmetic_mean
               [ 3152519739159347 # 4503599627370496;
                 5404319552844595 # 18014398509481984 ])) = Fin 0.
Proof.
  repeat split; vm_compute; reflexivity.
Qed.

(** ** Progress *)

Lemma lt_asym (a b : number) : Num.lt a b = true -> Num.lt b a = false.
Proof.
  destruct a as [| |x|], b as [| |y|]; simpl; try reflexivity;
    try discriminate.
  intros H. apply negb_true_iff in H. apply negb_false_iff.
  apply Qle_bool_iff, Qlt_le_weak, Qnot_le_lt.
  intros Hle. apply Qle_bool_iff in Hle. congruence.
Qed.

Lemma lt_100_false (z : Z) :
  (100 <= z)%Z -> Num.lt (Fin (inject_Z z)) (Fin 100) = false.
Proof.
  intros H. simpl. apply negb_false_iff, Qle_bool_iff.
  change 100 with (inject_Z 100). now rewrite <- Zle_Qle.
Qed.

Lemma min_100 (z : Z) :
  Num.min (Fin (inject_Z z)) (Fin 100) = Fin (inject_Z (Z.min z 100)).
Proof.
  unfold Num.min. destruct (Z.le_gt_cases 100 z) as [H|H].
  - rewrite (lt_100_false z H). now rewrite Z.min_r.
  - replace (Num.lt (Fin (inject_Z z)) (Fin 100)) with true.
    + now rewrite Z.min_l by lia.
    + symmetry. simpl. apply negb_true_iff.
      destruct (Qle_bool 100 (inject_Z z)) eqn:E; [|reflexivity].
      apply Qle_bool_iff in E. change 100 with (inject_Z 100) in E.
      rewrite <- Zle_Qle in E. lia.
Qed.

(** The progress in terms of the percentage of double arithmetic. *)
Lemma calculateProgress_percentage (c g : Q) :
  ~ g == 0 ->
  calculateProgress (Fin c) (Fin g)
  = match percentage c g with
    | Fin p => Fin (inject_Z (Z.min (Qfloor (p + (1 # 2))) 100))
    | PosInf => Fin 100
    | other => other
    end.
Proof.
  intros Hg. unfold calculateProgress, percentage. cbn [Num.eq Num.div].
  rewrite (Qeq_bool_false g Hg).
  destruct (Num.mul (double (c / g)) (Fin 100)) as [| |p|];
    try reflexivity.
  cbn [Num.round]. apply min_100.
Qed.

(** A current value that is not below a positive goal makes a percentage
    that is not below 100. *)
Lemma percentage_full (c g : Q) :
  0 < g -> g <= c ->
  percentage c g = PosInf \/ exists p, percentage c g = Fin p /\ 100 <= p.
Proof.
  intros Hg Hc. unfold percentage.
  assert (H1 : inject_Z 1 <= c / g).
  { change (inject_Z 1) with 1. apply Qle_shift_div_l; [exact Hg|].
    now rewrite Qmult_1_l. }
  destruct (double_ge_integer (c / g) 1) as [-> | (r & -> & Hr)];
    [lia|exact H1|now left|].
  cbn [Num.mul]. change (inject_Z 1) with 1 in Hr.
  destruct (double_ge_integer (r * 100) 100) as [-> | (p & -> & Hp)];
    [lia|change (inject_Z 100) with 100; lra|now left|].
  right. exists p. split; [reflexivity|exact Hp].
Qed.

(** C4. [calculateProgress] returns 0 when the goal is 0; otherwise it
    returns what [Math.round] makes of the percentage, capped at 100, the
    percentage being the one of double arithmetic: the double nearest to
    [current / goal], times 100, rounded to a double again.  It returns
    exactly 100 whenever [current > goal > 0], and never a value above
    100. *)
Theorem calculateProgress_spec (current goal : number) :
  (Num.eq goal (Fin 0) = true -> calculateProgress current goal = Fin 0)
  /\ (forall c g, current = Fin c -> goal = Fin g -> ~ g == 0 ->
      calculateProgress current goal
      = match percentage c g with
        | Fin p => Fin (inject_Z (Z.min (Qfloor (p + (1 # 2))) 100))
        | PosInf => Fin 100
        | other => other
        end)
  /\ (Num.gt goal (Fin 0) = true -> Num.gt current goal = true ->
      calculateProgress current goal = Fin 100)
  /\ Num.gt (calculateProgress current goal) (Fin 100) = false.
Proof.
  split; [|split; [|split]].
  - unfold calculateProgress. now intros ->.
  - intros c g -> -> Hg. now apply calculateProgress_percentage.
  - intros Hgoal Hcurrent.
    destruct goal as [| |g|]; try discriminate;
      [|destruct current; discriminate].
    unfold Num.gt in Hgoal. simpl in Hgoal.
    apply negb_true_iff in Hgoal.
    assert (Hg : 0 < g).
    { apply Qnot_le_lt. intros H. apply Qle_bool_iff in H. congruence. }
    assert (Hg0 : ~ g == 0) by lra.
    destruct current as [| |c|]; try discriminate.
    + unfold Num.gt in Hcurrent. simpl in Hcurrent.
      apply negb_true_iff in Hcurrent.
      assert (Hc : g < c).
      { apply Qnot_le_lt. intros H. apply Qle_bool_iff in H. congruence. }
      rewrite (calculateProgress_percentage c g Hg0).
      destruct (percentage_full c g Hg) as [-> | (p & -> & Hp)];
        [lra|reflexivity|].
      rewrite Z.min_r; [reflexivity|].
      apply Z.le_trans with (Qfloor (inject_Z 100));
        [now rewrite Qfloor_Z|].
      apply Qfloor_resp_le. change (inject_Z 100) with 100. lra.
    + unfold calculateProgress. cbn [Num.eq Num.div].
      rewrite (Qeq_bool_false g Hg0).
      replace (Qle_bool 0 g) with true
        by (symmetry; apply Qle_bool_iff; now apply Qlt_le_weak).
      reflexivity.
  - unfold calculateProgress.
    destruct (Num.eq goal (Fin 0)); [reflexivity|].
    set (p := Num.round _). unfold Num.gt, Num.min.
    destruct p as [| |q|] eqn:Ep; try reflexivity.
    destruct (Num.lt (Fin q) (Fin 100)) eqn:E.
    + now apply lt_asym.
    + reflexivity.
Qed.

Lemma calculateProgress_spec_witness :
  calculateProgress (Fin 0) (Fin 0) = Fin 0
  /\ calculateProgress (Fin 1150) (Fin 2000)
     = match percentage 1150 2000 with
       | Fin p => Fin (inject_Z (Z.min (Qfloor (p + (1 # 2))) 100))
       | PosInf => Fin 100
       | other => other
       end
  /\ calculateProgress (Fin 2500) (Fin 2000) = Fin 100.
Proof.
  split; [|split].
  - apply (calculateProgress_spec (Fin 0) (Fin 0)). reflexivity.
  - apply (calculateProgress_spec (Fin 1150) (Fin 2000)); [reflexivity..|].
    discriminate.
  - apply (calculateProgress_spec (Fin 2500) (Fin 2000)); reflexivity.
Defined.

(** C4, as it is worded, fails: for 1 out of 3 the words of the
    specification give 100/3, and [calculateProgress] returns 33. *)
Lemma calculateProgress_not_spec :
  progressPercentage_spec 1 3 == 100 # 3
  /\ calculateProgress (Fin 1) (Fin 3) = Fin 33
  /\ Num.eq (calculateProgress (Fin 1) (Fin 3))
       (Fin (progressPercentage_spec 1 3)) = false.
Proof.
  split; [reflexivity|]. split; vm_compute; reflexivity.
Qed.

(** The percentage is the one of double arithmetic: 1150 of 2000 is 57.5
    exactly and [57.49999999999999] in doubles, which [Math.round] takes
    down. *)
Example calculateProgress_rounds :
  percentage 1150 2000 = Fin (8092405580431359 # 140737488355328)
  /\ (8092405580431359 # 140737488355328) < 115 # 2
  /\ calculateProgress (Fin 1150) (Fin 2000) = Fin 57.
Proof.
  repeat split; vm_compute; reflexivity.
Qed.

(** ** Trend *)

Lemma truthy_Fin (q : Q) : Num.truthy (Fin q) = false <-> q == 0.
Proof.
  simpl. rewrite negb_false_iff. apply Qeq_bool_iff.
Qed.

Lemma classify_Fin (avg : Q) :
  (10 < avg -> classify (Fin avg) = "improving")
  /\ (avg < -10 -> classify (Fin avg) = "declining")
  /\ (-10 <= avg <= 10 -> classify (Fin avg) = "stable").
Proof.
  unfold classify, Num.gt. simpl.
  destruct (Qle_bool avg 10) eqn:E1; destruct (Qle_bool (-10) avg) eqn:E2;
    simpl;
    try (apply Qle_bool_iff in E1); try (apply Qle_bool_iff in E2);
    try (assert (10 < avg)
           by (apply Qnot_le_lt; intros H; apply Qle_bool_iff in H;
               congruence));
    try (assert (avg < -10)
           by (apply Qnot_le_lt; intros H; apply Qle_bool_iff in H;
               congruence));
    repeat split; intros; try reflexivity; exfalso; lra.
Qed.

(** The percent change of a finite measure against a previous one other
    than zero: the percentage that the double difference makes of the
    previous measure. *)
Lemma percent_change_Fin (current previous difference : Q) :
  ~ previous == 0 ->
  Num.double (current - previous) = Fin difference ->
  percent_change (Fin current) (Fin previous)
  = percentage difference previous.
Proof.
  intros Hp Hd. unfold percent_change, percentage, Num.sub.
  cbn [Num.opp Num.add]. change (current + - previous) with
    (current - previous). rewrite Hd. cbn [Num.div].
  now rewrite (Qeq_bool_false previous Hp).
Qed.

(** C5. [analyzeTrend] returns ["new"] whenever the water, the calories and
    the steps of the previous window are all zero, whatever the current
    window; otherwise it computes the average of the three percent changes
    [(current - previous) / previous * 100] and returns ["improving"] when
    that average is above 10, ["declining"] when it is below -10 and
    ["stable"] otherwise, also when it is [NaN].  The average is the one
    that the program computes, in double arithmetic: every difference,
    quotient, product and sum is rounded to a double. *)
Theorem analyzeTrend_spec (currentWeek previousWeek : Averages) (w c s : Q) :
  water previousWeek = Fin w ->
  calories previousWeek = Fin c ->
  steps previousWeek = Fin s ->
  let avgChange :=
    Num.div
      (Num.add
         (Num.add (percent_change (water currentWeek) (Fin w))
            (percent_change (calories currentWeek) (Fin c)))
         (percent_change (steps currentWeek) (Fin s)))
      (Fin 3) in
  (w == 0 /\ c == 0 /\ s == 0 -> analyzeTrend currentWeek previousWeek = "new")
  /\ (~ (w == 0 /\ c == 0 /\ s == 0) ->
      analyzeTrend currentWeek previousWeek = classify avgChange
      /\ (forall avg,
            avgChange = Fin avg ->
            (10 < avg -> analyzeTrend currentWeek previousWeek = "improving")
            /\ (avg < -10 ->
                analyzeTrend currentWeek previousWeek = "declining")
            /\ (-10 <= avg <= 10 ->
                analyzeTrend currentWeek previousWeek = "stable"))
      /\ (avgChange = PosInf ->
          analyzeTrend currentWeek previousWeek = "improving")
      /\ (avgChange = NegInf ->
          analyzeTrend currentWeek previousWeek = "declining")
      /\ (avgChange = NaN ->
          analyzeTrend currentWeek previousWeek = "stable"))
  /\ (forall w' c' s' dw dc ds,
        water currentWeek = Fin w' -> calories currentWeek = Fin c' ->
        steps currentWeek = Fin s' ->
        ~ w == 0 -> ~ c == 0 -> ~ s == 0 ->
        Num.double (w' - w) = Fin dw ->
        Num.double (c' - c) = Fin dc ->
        Num.double (s' - s) = Fin ds ->
        avgChange
        = Num.div
            (Num.add (Num.add (percentage dw w) (percentage dc c))
               (percentage ds s))
            (Fin 3)).
Proof.
  intros Hw Hc Hs avgChange.
  split; [|split].
  - intros (H1 & H2 & H3). unfold analyzeTrend. rewrite Hw, Hc, Hs.
    now rewrite !(proj2 (truthy_Fin _)) by assumption.
  - intros Hnz.
    assert (Hold : analyzeTrend currentWeek previousWeek
                   = classify avgChange).
    { unfold analyzeTrend. rewrite Hw, Hc, Hs.
      destruct (Num.truthy (Fin w)) eqn:E1;
      destruct (Num.truthy (Fin c)) eqn:E2;
      destruct (Num.truthy (Fin s)) eqn:E3;
        try reflexivity.
      exfalso. apply Hnz. now rewrite <- !truthy_Fin. }
    rewrite Hold. split; [reflexivity|]. split; [|split; [|split]].
    + intros avg ->. apply classify_Fin.
    + now intros ->.
    + now intros ->.
    + now intros ->.
  - intros w' c' s' dw dc ds Hw' Hc' Hs' Hwz Hcz Hsz Hdw Hdc Hds.
    subst avgChange. rewrite Hw', Hc', Hs'.
    now rewrite (percent_change_Fin w' w dw Hwz Hdw),
      (percent_change_Fin c' c dc Hcz Hdc),
      (percent_change_Fin s' s ds Hsz Hds).
Qed.

Lemma analyzeTrend_spec_witness :
  analyzeTrend
    {| water := Fin 9; calories := Fin 9; steps := Fin 9;
       daysTracked := Fin 7 |}
    {| water := Fin 0; calories := Fin 0; steps := Fin 0;
       daysTracked := Fin 0 |} = "new"
  /\ analyzeTrend
       {| water := Fin 1200; calories := Fin 2400; steps := Fin 6000;
          daysTracked := Fin 7 |}
       {| water := Fin 1000; calories := Fin 2000; steps := Fin 5000;
          daysTracked := Fin 7 |} = "improving".
Proof.
  split.
  - apply (analyzeTrend_spec
             {| water := Fin 9; calories := Fin 9; steps := Fin 9;
                daysTracked := Fin 7 |}
             {| water := Fin 0; calories := Fin 0; steps := Fin 0;
                daysTracked := Fin 0 |} 0 0 0);
      try reflexivity.
    repeat split; reflexivity.
  - destruct (analyzeTrend_spec
                {| water := Fin 1200; calories := Fin 2400;
                   steps := Fin 6000; daysTracked := Fin 7 |}
                {| water := Fin 1000; calories := Fin 2000;
                   steps := Fin 5000; daysTracked := Fin 7 |}
                1000 2000 5000 eq_refl eq_refl eq_refl)
      as (_ & H & _).
    destruct H as (_ & Hfinite & _).
    + intros (H & _). discriminate.
    + apply (Hfinite 20); vm_compute; reflexivity.
Defined.

(** The average is the one of double arithmetic.  For the windows below the
    three percent changes are -200/3, 260/3 and 10, whose exact average is
    10, which is not above 10; the doubles make it [10.000000000000005]
    and [analyzeTrend] returns ["improving"], as the program does. *)
Example analyzeTrend_at_the_limit :
  let currentWeek :=
    {| water := Fin 1000; calories := Fin 2800; steps := Fin 11000;
       daysTracked := Fin 7 |} in
  let previousWeek :=
    {| water := Fin 3000; calories := Fin 1500; steps := Fin 10000;
       daysTracked := Fin 7 |} in
  ((1000 - 3000) / 3000 * 100 + (2800 - 1500) / 1500 * 100
   + (11000 - 10000) / 10000 * 100) / 3 == 10
  /\ analyzeTrend currentWeek previousWeek = "improving".
Proof.
  cbv zeta. split; [reflexivity|]. vm_compute. reflexivity.
Qed.

(** ** The profile *)

Lemma push_if_nil (test : bool) (message : string) (errors : list string) :
  push_if test message errors = [] <-> test = false /\ errors = [].
Proof.
  unfold push_if. destruct test; split.
  - intros H. now apply app_eq_nil in H.
  - intros [H _]. discriminate.
  - auto.
  - tauto.
Qed.

Lemma validateUserProfile_nil (profile : props value) :
  validateUserProfile profile = []
  <-> (let name := field "name" profile in
       ToBoolean name && negb (typeof name =? "string") = false)
      /\ forall name lo hi,
           In (name, (lo, hi)) ranges ->
           range_test lo hi (field name profile) = false.
Proof.
  unfold validateUserProfile. rewrite !push_if_nil. unfold range_test.
  split.
  - intros (H5 & H4 & H3 & H2 & H1 & H0 & _). split; [exact H0|].
    intros name lo hi Hin. simpl in Hin.
    repeat (destruct Hin as [Hin|Hin];
            [inversion Hin; subst; assumption|]).
    contradiction.
  - intros [H0 H]. repeat split; try exact H0;
      apply H; simpl; tauto.
Qed.

Lemma refused_range_test (lo hi : Q) (v : value) :
  refused lo hi v -> range_test lo hi v = true.
Proof.
  unfold range_test, below, above, Num.gt.
  intros [q Hq Hlo|q Hq Hhi| | |s Hs| |items|o]; simpl; try reflexivity.
  - rewrite (Qeq_bool_false q Hq). simpl.
    replace (Qle_bool lo q) with false; [reflexivity|].
    symmetry. apply not_true_iff_false. intros H.
    apply Qle_bool_iff in H. lra.
  - rewrite (Qeq_bool_false q Hq). simpl.
    replace (Qle_bool q hi) with false; [apply orb_true_r|].
    symmetry. apply not_true_iff_false. intros H.
    apply Qle_bool_iff in H. lra.
  - destruct (String.eqb_spec s ""); [contradiction|reflexivity].
Qed.

Lemma admitted_range_test (lo hi : Q) (v : value) :
  admitted lo hi v -> range_test lo hi v = false.
Proof.
  unfold range_test, below, above, Num.gt.
  intros [| |q Hlo Hhi]; simpl; try reflexivity.
  rewrite !(proj2 (Qle_bool_iff _ _)) by assumption. apply andb_false_r.
Qed.

Lemma saveUserProfile_valid isWeb st toISOString profile :
  validateUserProfile profile = [] ->
  saveUserProfile isWeb st toISOString profile
  = Ok (with_USER_PROFILE
          (Some (JSON_props
                   (define "updated_at" (VStr toISOString)
                      (spread profile [("id", VNum (Fin 1))])))) st,
        {| changes := 1; lastInsertRowid := 1 |}).
Proof.
  intros H. unfold saveUserProfile. rewrite H. now destruct isWeb.
Qed.

Lemma saveUserProfile_invalid isWeb st toISOString profile :
  validateUserProfile profile <> [] ->
  saveUserProfile isWeb st toISOString profile
  = Throw ("Failed to save user profile: Invalid profile data: "
           ++ String.concat ", " (validateUserProfile profile)).
Proof.
  intros H. unfold saveUserProfile.
  destruct (validateUserProfile profile); [congruence|reflexivity].
Qed.

(** C8. The validation of a profile checks the name and the five numeric
    fields, and no other field.  [saveUserProfile] throws the error of the
    validation whenever one of the five fields holds a number other than
    zero outside its range, or a truthy value that is not a number, and
    whenever the name is a truthy value that is not a string.  A profile
    passes when its name is absent, [null] or a string and each of the five
    fields is absent, [null] or a number of its range, whatever its other
    fields hold. *)
Theorem validateUserProfile_spec
  (isWeb : bool) (st : Storage) (toISOString : string)
  (profile : props value) :
  (forall name lo hi,
     In (name, (lo, hi)) ranges ->
     refused lo hi (field name profile) ->
     validateUserProfile profile <> []
     /\ saveUserProfile isWeb st toISOString profile
        = Throw ("Failed to save user profile: Invalid profile data: "
                 ++ String.concat ", " (validateUserProfile profile)))
  /\ (ToBoolean (field "name" profile) = true ->
      typeof (field "name" profile) <> "string" ->
      validateUserProfile profile <> []
      /\ saveUserProfile isWeb st toISOString profile
         = Throw ("Failed to save user profile: Invalid profile data: "
                  ++ String.concat ", " (validateUserProfile profile)))
  /\ (admitted_name (field "name" profile) ->
      (forall name lo hi,
         In (name, (lo, hi)) ranges -> admitted lo hi (field name profile)) ->
      validateUserProfile profile = []
      /\ exists st',
           saveUserProfile isWeb st toISOString profile
           = Ok (st', {| changes := 1; lastInsertRowid := 1 |})).
Proof.
  split; [|split].
  - intros name lo hi Hin Hrefused.
    assert (Hne : validateUserProfile profile <> []).
    { rewrite validateUserProfile_nil. intros [_ H].
      specialize (H name lo hi Hin).
      rewrite (refused_range_test lo hi _ Hrefused) in H. discriminate. }
    split; [exact Hne | now apply saveUserProfile_invalid].
  - intros Htruthy Htype.
    assert (Hne : validateUserProfile profile <> []).
    { rewrite validateUserProfile_nil. cbv zeta. intros [H _].
      rewrite Htruthy in H. simpl in H. apply negb_false_iff in H.
      apply String.eqb_eq in H. contradiction. }
    split; [exact Hne | now apply saveUserProfile_invalid].
  - intros Hname Hfields.
    assert (Hnil : validateUserProfile profile = []).
    { apply validateUserProfile_nil. split.
      - cbv zeta. destruct Hname; simpl; try reflexivity.
        apply andb_false_r.
      - intros name lo hi Hin. apply admitted_range_test.
        now apply Hfields. }
    split; [exact Hnil|].
    eexists. now apply saveUserProfile_valid.
Qed.

Lemma validateUserProfile_spec_witness :
  (validateUserProfile [("name", VStr "Ann"); ("weight_kg", VNum (Fin 10))]
   <> []
   /\ saveUserProfile true store_0 "2025-01-03T00:00:00.000Z"
        [("name", VStr "Ann"); ("weight_kg", VNum (Fin 10))]
      = Throw ("Failed to save user profile: Invalid profile data: "
               ++ String.concat ", "
                    (validateUserProfile
                       [("name", VStr "Ann");
                        ("weight_kg", VNum (Fin 10))])))
  /\ validateUserProfile [("daily_step_goal", VNum (Fin 8000))] = [].
Proof.
  split.
  - apply (validateUserProfile_spec true store_0 "2025-01-03T00:00:00.000Z"
             [("name", VStr "Ann"); ("weight_kg", VNum (Fin 10))])
      with (name := "weight_kg") (lo := 20) (hi := 500).
    + left; reflexivity.
    + apply refused_low; [discriminate | reflexivity].
  - apply (validateUserProfile_spec true store_0 "2025-01-03T00:00:00.000Z"
             [("daily_step_goal", VNum (Fin 8000))]).
    + apply name_undefined.
    + intros name lo hi Hin. simpl in Hin.
      repeat (destruct Hin as [Hin|Hin];
              [inversion Hin; subst;
               first [apply admitted_undefined
                     | apply admitted_number; discriminate]|]).
      contradiction.
Defined.

(** C8, as it is worded, fails: a birthdate is provided, it is the number
    42 and no date string, and the profile passes the validation and is
    stored. *)
Lemma validateUserProfile_skips_birthdate :
  validateUserProfile [("birthdate", VNum (Fin 42))] = []
  /\ saveUserProfile true store_0 "2025-01-03T00:00:00.000Z"
       [("birthdate", VNum (Fin 42))]
     = Ok (with_USER_PROFILE
             (Some [ ("id", VNum (Fin 1)); ("birthdate", VNum (Fin 42));
                     ("updated_at", VStr "2025-01-03T00:00:00.000Z") ])
             store_0,
           {| changes := 1; lastInsertRowid := 1 |}).
Proof.
  split; reflexivity.
Qed.

(** *** The keys of an object that is built *)

Section KeysFacts.
Context {A : Type}.
Implicit Types (o : props A) (k : string) (a : A).

Lemma own_None_keys k o : own k o = None <-> ~ In k (map fst o).
Proof.
  induction o as [|[k' a'] rest IH]; simpl; [tauto|].
  destruct (String.eqb_spec k' k) as [->|Hne].
  - split; [discriminate | intros H; exfalso; apply H; now left].
  - rewrite IH. tauto.
Qed.

Lemma keys_update_own k a o : map fst (update_own k a o) = map fst o.
Proof.
  induction o as [|[k' a'] rest IH]; simpl; [reflexivity|].
  destruct (k' =? k); simpl; [reflexivity | now rewrite IH].
Qed.

Lemma keys_insert_index i k a o :
  Permutation (map fst (insert_index i k a o)) (k :: map fst o).
Proof.
  induction o as [|[k' a'] rest IH]; simpl; [reflexivity|].
  destruct (array_index k') as [j|]; [destruct (j <? i)%N|]; simpl;
    try reflexivity.
  rewrite IH. apply perm_swap.
Qed.

Lemma distinct_keys_define k a o :
  distinct_keys o -> distinct_keys (define k a o).
Proof.
  unfold distinct_keys, define. intros Ho.
  destruct (has_own k o) eqn:Hk.
  - now rewrite keys_update_own.
  - assert (Hnew : NoDup (k :: map fst o)).
    { constructor; [|exact Ho]. apply own_None_keys.
      unfold has_own in Hk. now destruct (own k o). }
    destruct (array_index k).
    + eapply Permutation_NoDup; [|exact Hnew].
      symmetry. apply keys_insert_index.
    + rewrite map_app. simpl.
      eapply Permutation_NoDup; [|exact Hnew]. apply Permutation_cons_append.
Qed.

End KeysFacts.

Lemma distinct_keys_spread (p o : props value) :
  distinct_keys o -> distinct_keys (spread p o).
Proof.
  unfold spread. revert o.
  induction p as [|[k v] rest IH]; intros o Ho; simpl; [exact Ho|].
  apply IH. now apply distinct_keys_define.
Qed.

(** A spread copies each property of its argument over the properties
    already there. *)
Lemma own_spread (k : string) (p o : props value) :
  distinct_keys p ->
  own k (spread p o)
  = match own k p with Some v => Some v | None => own k o end.
Proof.
  unfold spread, distinct_keys. revert o.
  induction p as [|[k' v'] rest IH]; intros o Hp; simpl; [reflexivity|].
  inversion Hp as [|? ? Hnotin Hrest]; subst.
  rewrite (IH _ Hrest).
  destruct (String.eqb_spec k' k) as [->|Hne].
  - apply own_None_keys in Hnotin. rewrite Hnotin. apply own_define_same.
  - destruct (own k rest); [reflexivity|].
    apply own_define_other. congruence.
Qed.

(** JSON keeps the properties that are not [undefined]. *)
Lemma own_JSON_props (k : string) (o : props value) :
  distinct_keys o -> own k (JSON_props o) = JSON_property (own k o).
Proof.
  unfold distinct_keys.
  induction o as [|[k' v'] rest IH]; intros Ho; simpl; [reflexivity|].
  inversion Ho as [|? ? Hnotin Hrest]; subst.
  destruct (String.eqb_spec k' k) as [->|Hne].
  - apply own_None_keys in Hnotin.
    destruct v'; simpl; rewrite ?String.eqb_refl; try reflexivity.
    rewrite (IH Hrest), Hnotin. reflexivity.
  - destruct v'; simpl;
      try (destruct (String.eqb_spec k' k); [contradiction|]);
      now apply IH.
Qed.

(** C7. For an object that passes the validation, [saveUserProfile] stores
    as the new profile the JSON image of the properties of that object, with
    [updated_at] set to the time of the call and with [id] set to 1 unless
    the object has an [id] of its own, which it keeps.  The stored profile
    is replaced whole: whatever the store held before, the same profile is
    stored, and the other documents are left as they were. *)
Theorem saveUserProfile_spec
  (isWeb : bool) (st : Storage) (toISOString : string)
  (profile : props value) :
  distinct_keys profile ->
  validateUserProfile profile = [] ->
  exists st' stored,
    saveUserProfile isWeb st toISOString profile
    = Ok (st', {| changes := 1; lastInsertRowid := 1 |})
    /\ USER_PROFILE st' = Some stored
    /\ own "updated_at" stored = Some (VStr toISOString)
    /\ own "id" stored
       = match own "id" profile with
         | Some v => JSON_property (Some v)
         | None => Some (VNum (Fin 1))
         end
    /\ (forall k, k <> "id" -> k <> "updated_at" ->
        own k stored = JSON_property (own k profile))
    /\ (forall st0, exists st0',
          saveUserProfile isWeb st0 toISOString profile
          = Ok (st0', {| changes := 1; lastInsertRowid := 1 |})
          /\ USER_PROFILE st0' = Some stored)
    /\ DAILY_ENTRIES st' = DAILY_ENTRIES st
    /\ MEDICINES st' = MEDICINES st
    /\ MEDICINE_DOSE_HISTORY st' = MEDICINE_DOSE_HISTORY st.
Proof.
  intros Hkeys Hvalid.
  set (updatedProfile :=
         define "updated_at" (VStr toISOString)
           (spread profile [("id", VNum (Fin 1))])).
  assert (Hdistinct : distinct_keys updatedProfile).
  { apply distinct_keys_define, distinct_keys_spread.
    repeat constructor. simpl. tauto. }
  exists (with_USER_PROFILE (Some (JSON_props updatedProfile)) st),
         (JSON_props updatedProfile).
  split; [now apply saveUserProfile_valid|].
  split; [reflexivity|].
  split.
  { rewrite (own_JSON_props _ _ Hdistinct). unfold updatedProfile.
    now rewrite own_define_same. }
  split.
  { rewrite (own_JSON_props _ _ Hdistinct). unfold updatedProfile.
    rewrite own_define_other by discriminate.
    rewrite (own_spread _ _ _ Hkeys).
    now destruct (own "id" profile). }
  split.
  { intros k Hid Hupdated.
    rewrite (own_JSON_props _ _ Hdistinct). unfold updatedProfile.
    rewrite own_define_other by congruence.
    rewrite (own_spread _ _ _ Hkeys).
    destruct (own k profile); [reflexivity|]. cbn [own].
    destruct (String.eqb_spec "id" k); [congruence|reflexivity]. }
  split.
  { intros st0. eexists. split; [now apply saveUserProfile_valid|].
    reflexivity. }
  repeat split.
Qed.

Lemma saveUserProfile_spec_witness :
  exists st' stored,
    saveUserProfile true store_0 "2025-01-03T00:00:00.000Z"
      [("name", VStr "Ann"); ("daily_step_goal", VNum (Fin 8000))]
    = Ok (st', {| changes := 1; lastInsertRowid := 1 |})
    /\ USER_PROFILE st' = Some stored
    /\ own "updated_at" stored = Some (VStr "2025-01-03T00:00:00.000Z")
    /\ own "id" stored = Some (VNum (Fin 1))
    /\ own "name" stored = Some (VStr "Ann")
    /\ own "daily_water_goal_ml" stored = None.
Proof.
  destruct (saveUserProfile_spec true store_0 "2025-01-03T00:00:00.000Z"
              [("name", VStr "Ann"); ("daily_step_goal", VNum (Fin 8000))])
    as (st' & stored & Hsave & Hstored & Hupdated & Hid & Hother & _).
  - repeat constructor; simpl; intuition discriminate.
  - reflexivity.
  - exists st', stored. repeat split; try assumption.
    + apply (Hother "name"); discriminate.
    + apply (Hother "daily_water_goal_ml"); discriminate.
Defined.

(** C7, as it is worded, fails: an object that carries the [id] 2 passes
    the validation and is stored with the [id] 2. *)
Lemma saveUserProfile_keeps_id :
  validateUserProfile [("id", VNum (Fin 2)); ("name", VStr "Ann")] = []
  /\ saveUserProfile true store_0 "2025-01-03T00:00:00.000Z"
       [("id", VNum (Fin 2)); ("name", VStr "Ann")]
     = Ok (with_USER_PROFILE
             (Some [ ("id", VNum (Fin 2)); ("name", VStr "Ann");
                     ("updated_at", VStr "2025-01-03T00:00:00.000Z") ])
             store_0,
           {| changes := 1; lastInsertRowid := 1 |}).
Proof.
  split; reflexivity.
Qed.

(** ** Medicines and doses *)

(** The key of a medicine is the text of a number, which is none of the
    names that an object inherits: [medicines[medicineId]] is an own
    property or [undefined]. *)
Lemma Number_toString_head (z : Z) : numeric_head (Number_toString z) = true.
Proof.
  unfold Number_toString, NilZero.string_of_int.
  destruct (Z.to_int z) as [d|d]; [|reflexivity].
  unfold NilZero.string_of_uint. now destruct d.
Qed.

Lemma inherited_head (k : string) :
  inherited k = true -> numeric_head k = false.
Proof.
  unfold inherited. intros H. apply existsb_exists in H.
  destruct H as (name & Hin & Hk). apply String.eqb_eq in Hk. subst k.
  simpl in Hin.
  repeat (destruct Hin as [<-|Hin]; [reflexivity|]). contradiction.
Qed.

Lemma get_Number_toString {A : Type} (z : Z) (o : props A) :
  get (Number_toString z) o
  = match own (Number_toString z) o with Some a => Own a | None => Missing end.
Proof.
  unfold get. destruct (own (Number_toString z) o); [reflexivity|].
  destruct (inherited (Number_toString z)) eqn:E; [|reflexivity].
  apply inherited_head in E. now rewrite Number_toString_head in E.
Qed.

Lemma own_JSON_medicines (k : string) (medicines : props (props value)) :
  own k (JSON_medicines medicines) = option_map JSON_props (own k medicines).
Proof.
  unfold JSON_medicines.
  induction medicines as [|[k' m] rest IH]; simpl; [reflexivity|].
  now destruct (k' =? k).
Qed.

Lemma JSON_items_fixed (history : list value) :
  Forall is_JSON history -> JSON_items history = history.
Proof.
  unfold JSON_items. induction 1 as [|v rest [Hdef Himage] _ IH]; simpl.
  - reflexivity.
  - rewrite IH. f_equal. destruct v; congruence.
Qed.

(** The scenario of a dose of a medicine that exists: its counter goes
    from 0 to 1 and the history grows by one entry. *)
Example recordDoseTaken_counts :
  exists st',
    recordDoseTaken true store_3 1735722000000 "2025-01-02T09:00:00.000Z"
      1735700000002 (VNum (Fin 9)) = Some (Ok st')
    /\ option_map (field "doses_taken")
         (own "1735700000002" (stored_medicines st'))
       = Some (VNum (Fin 1))
    /\ List.length (stored_history st') = 2%nat.
Proof.
  eexists. repeat split.
Qed.

Lemma deleteMedicine_unfold isWeb st id :
  deleteMedicine isWeb st id
  = Ok (with_MEDICINES
          (Some (JSON_medicines
                   (delete (Number_toString id) (stored_medicines st)))) st).
Proof.
  unfold deleteMedicine. now destruct isWeb; storage_simpl.
Qed.

(** C9. Recording a dose of a medicine that has been deleted is no error:
    the call succeeds, the dose history grows by exactly one entry, which
    refers to the deleted medicine, and the medicines are left as the
    deletion left them, without the medicine. *)
Theorem recordDoseTaken_after_deleteMedicine
  (isWeb : bool) (st st1 : Storage) (id hour Date_now : Z)
  (toISOString : string) :
  Forall is_JSON (stored_history st) ->
  deleteMedicine isWeb st id = Ok st1 ->
  exists st2,
    recordDoseTaken isWeb st1 Date_now toISOString id (VNum (Num.of_Z hour))
    = Some (Ok st2)
    /\ stored_history st2
       = (stored_history st
            ++ [VObj [ ("id", VNum (Num.of_Z Date_now));
                       ("medicine_id", VNum (Num.of_Z id));
                       ("dose_time", VNum (Num.of_Z hour));
                       ("taken_at", VStr toISOString) ]])%list
    /\ MEDICINES st2 = MEDICINES st1
    /\ own (Number_toString id) (stored_medicines st2) = None
    /\ DAILY_ENTRIES st2 = DAILY_ENTRIES st
    /\ USER_PROFILE st2 = USER_PROFILE st.
Proof.
  intros Hjson Hdelete. rewrite deleteMedicine_unfold in Hdelete.
  inversion Hdelete as [Hst1]. clear Hdelete.
  set (medicines :=
         JSON_medicines (delete (Number_toString id) (stored_medicines st))).
  assert (Hgone : own (Number_toString id) medicines = None).
  { unfold medicines. now rewrite own_JSON_medicines, own_delete_same. }
  assert (Hhistory :
            JSON_items
              (stored_history st
                 ++ [doseHistoryEntry Date_now id (VNum (Num.of_Z hour))
                       toISOString])%list
            = (stored_history st
                 ++ [doseHistoryEntry Date_now id (VNum (Num.of_Z hour))
                       toISOString])%list).
  { apply JSON_items_fixed. apply Forall_app. split; [exact Hjson|].
    repeat constructor. discriminate. }
  unfold recordDoseTaken.
  destruct isWeb; storage_simpl; fold medicines; rewrite Hgone;
    eexists; (split; [reflexivity|]); simpl;
    unfold JSON_items in Hhistory; unfold JSON_items;
    rewrite Hhistory; repeat split; assumption.
Qed.

Lemma recordDoseTaken_after_deleteMedicine_witness :
  exists st2,
    deleteMedicine true store_3 1735700000001 = Ok store_4
    /\ recordDoseTaken true store_4 1735722000000 "2025-01-02T08:00:00.000Z"
         1735700000001 (VNum (Num.of_Z 8)) = Some (Ok st2)
    /\ List.length (stored_history st2)
       = S (List.length (stored_history store_3))
    /\ MEDICINES st2 = MEDICINES store_4.
Proof.
  destruct (recordDoseTaken_after_deleteMedicine true store_3 store_4
              1735700000001 8 1735722000000 "2025-01-02T08:00:00.000Z")
    as (st2 & Hrecord & Hhistory & Hmedicines & _).
  - repeat constructor; discriminate.
  - reflexivity.
  - exists st2. split; [reflexivity|]. split; [exact Hrecord|].
    split; [|exact Hmedicines].
    rewrite Hhistory, length_app. simpl. lia.
Defined.

(** *** The documents of a reachable store are JSON *)

Lemma value_eq_undefined (v : value) : v = VUndefined \/ v <> VUndefined.
Proof. destruct v; (now left) || (right; discriminate). Qed.

Lemma JSON_image_defined (v : value) :
  v <> VUndefined -> JSON_image v <> VUndefined.
Proof.
  destruct v as [| |b|n|s|items|o]; simpl; try congruence.
  now destruct (Num.is_finite n).
Qed.

Lemma JSON_item_image (x : value) :
  x <> VUndefined ->
  match x with VUndefined => VNull | _ => JSON_image x end = JSON_image x.
Proof. destruct x; congruence. Qed.

Lemma JSON_image_idempotent (v : value) :
  JSON_image (JSON_image v) = JSON_image v.
Proof.
  induction v as [| |b|n|s|items IH|o IH] using value_induction;
    try reflexivity.
  - simpl. destruct (Num.is_finite n) eqn:E; simpl; [now rewrite E|reflexivity].
  - simpl. f_equal. rewrite map_map.
    induction IH as [|x rest Hx _ IHrest]; simpl; [reflexivity|].
    rewrite IHrest. f_equal.
    destruct (value_eq_undefined x) as [->|Hdef]; [reflexivity|].
    rewrite (JSON_item_image x Hdef).
    rewrite (JSON_item_image _ (JSON_image_defined x Hdef)). exact Hx.
  - simpl. f_equal.
    induction IH as [|[k x] rest Hx _ IHrest]; simpl; [reflexivity|].
    simpl in Hx.
    destruct (value_eq_undefined x) as [->|Hdef]; [exact IHrest|].
    replace (match x with
             | VUndefined => []
             | _ => [(k, JSON_image x)]
             end) with [(k, JSON_image x)] by (destruct x; congruence).
    simpl. rewrite IHrest.
    pose proof (JSON_image_defined x Hdef) as Hdef'.
    destruct (JSON_image x) eqn:E; try congruence; now rewrite Hx.
Qed.

Lemma JSON_items_JSON (items : list value) : Forall is_JSON (JSON_items items).
Proof.
  unfold JSON_items. apply Forall_forall. intros y Hy.
  apply in_map_iff in Hy. destruct Hy as (x & <- & _).
  destruct x; split; try discriminate; try reflexivity;
    try (apply JSON_image_defined; discriminate);
    apply JSON_image_idempotent.
Qed.

Lemma reachable_history_JSON (isWeb : bool) (st : Storage) :
  reachable isWeb st -> Forall is_JSON (stored_history st).
Proof.
  induction 1 as
    [ | st st' _ IH Hinit
      | st Date_now toISOString d w c s st' r _ IH Hsave
      | st toISOString profile st' r _ IH Hsave
      | st medicines _ IH
      | st _ IH
      | st id st' _ IH Hdelete
      | st Date_now toISOString id doseTime st' _ IH Hrecord ].
  - constructor.
  - unfold initDatabase in Hinit.
    destruct isWeb, st as [[entries|] [profile|] medicines history];
      storage_simpl; inversion Hinit; subst; exact IH.
  - destruct (saveDailyEntry_Ok _ _ _ _ _ _ _ _ _ _ Hsave)
      as (_ & _ & _ & _ & _ & Hhistory).
    unfold stored_history. now rewrite Hhistory.
  - unfold saveUserProfile in Hsave.
    destruct (0 <? List.length (validateUserProfile profile))%nat;
      [discriminate|].
    destruct isWeb; simpl in Hsave; inversion Hsave; subst; exact IH.
  - exact IH.
  - unfold initMedicines.
    destruct isWeb, st as [entries profile [medicines|] [history|]];
      storage_simpl; try exact IH; constructor.
  - rewrite deleteMedicine_unfold in Hdelete. inversion Hdelete; subst.
    exact IH.
  - unfold recordDoseTaken in Hrecord.
    destruct isWeb; storage_simpl;
      (destruct (own (Number_toString id) _) as [medicine|];
       [destruct (plus_one _); [|discriminate]|]);
      inversion Hrecord; subst; simpl; apply JSON_items_JSON.
Qed.

(** * Further properties of the record store *)

(** ** Initialisation *)

Lemma initDatabase_unfold isWeb st :
  initDatabase isWeb st
  = Ok {| DAILY_ENTRIES := Some (stored_entries st);
          USER_PROFILE :=
            Some (match USER_PROFILE st with
                  | Some profile => profile
                  | None => Database.defaultProfile
                  end);
          MEDICINES := MEDICINES st;
          MEDICINE_DOSE_HISTORY := MEDICINE_DOSE_HISTORY st |}.
Proof.
  unfold initDatabase.
  destruct isWeb, st as [[entries|] [profile|] medicines history];
    reflexivity.
Qed.

(** X1. [initDatabase] always resolves; it creates the empty map of entries
    and the default profile where the store has none, keeps the entries and
    the profile that the store has, touches neither the medicines nor the
    dose history, and a second call changes nothing. *)
Theorem initDatabase_idempotent (isWeb : bool) (st : Storage) :
  exists st1,
    initDatabase isWeb st = Ok st1
    /\ initDatabase isWeb st1 = Ok st1
    /\ DAILY_ENTRIES st1 = Some (stored_entries st)
    /\ (forall entries,
          DAILY_ENTRIES st = Some entries -> DAILY_ENTRIES st1 = Some entries)
    /\ (forall profile,
          USER_PROFILE st = Some profile -> USER_PROFILE st1 = Some profile)
    /\ (USER_PROFILE st = None ->
        getUserProfile isWeb st1 = Some Database.defaultProfile)
    /\ MEDICINES st1 = MEDICINES st
    /\ MEDICINE_DOSE_HISTORY st1 = MEDICINE_DOSE_HISTORY st.
Proof.
  eexists. split; [apply initDatabase_unfold|].
  split; [rewrite initDatabase_unfold; reflexivity|].
  split; [reflexivity|].
  split; [intros entries H; simpl; unfold stored_entries; now rewrite H|].
  split; [intros profile H; simpl; now rewrite H|].
  split; [|split; reflexivity].
  intros H. unfold getUserProfile. simpl. rewrite H.
  now destruct isWeb.
Qed.

(** ** The entries of a reachable store *)

Section AssignFacts.
Context {A : Type}.
Implicit Types (o : props A) (k : string) (a : A).

Lemma distinct_keys_assign k a o :
  distinct_keys o -> distinct_keys (assign k a o).
Proof.
  unfold assign. intros H.
  destruct ((k =? "__proto__") && negb (has_own k o)); [exact H|].
  now apply distinct_keys_define.
Qed.

Lemma own_assign_other k k' a o : k' <> k -> own k' (assign k a o) = own k' o.
Proof.
  unfold assign. intros H.
  destruct ((k =? "__proto__") && negb (has_own k o)); [reflexivity|].
  now apply own_define_other.
Qed.

Lemma get_assign_other k k' a o : k' <> k -> get k' (assign k a o) = get k' o.
Proof.
  intros H. unfold get. now rewrite own_assign_other.
Qed.

Lemma length_update_own k a o :
  List.length (update_own k a o) = List.length o.
Proof.
  induction o as [|[k' a'] rest IH]; simpl; [reflexivity|].
  destruct (k' =? k); simpl; [reflexivity | now rewrite IH].
Qed.

Lemma length_define k a o :
  List.length (define k a o)
  = if has_own k o then List.length o else S (List.length o).
Proof.
  unfold define. destruct (has_own k o).
  - apply length_update_own.
  - destruct (array_index k) as [i|].
    + rewrite <- (length_map fst).
      rewrite (Permutation_length (keys_insert_index i k a o)).
      simpl. now rewrite length_map.
    + rewrite length_app. simpl. lia.
Qed.

Lemma In_own k a o : distinct_keys o -> In (k, a) o -> own k o = Some a.
Proof.
  unfold distinct_keys.
  induction o as [|[k' a'] rest IH]; simpl; [contradiction|].
  intros Hkeys Hin. inversion Hkeys as [|? ? Hnotin Hrest]; subst.
  destruct Hin as [Heq|Hin].
  - inversion Heq; subst. now rewrite String.eqb_refl.
  - destruct (String.eqb_spec k' k) as [->|Hne]; [|now apply IH].
    exfalso. apply Hnotin. apply in_map_iff. now exists (k, a).
Qed.

Lemma own_In k a o : own k o = Some a -> In (k, a) o.
Proof.
  induction o as [|[k' a'] rest IH]; simpl; [discriminate|].
  destruct (String.eqb_spec k' k) as [->|Hne].
  - intros H. inversion H. now left.
  - intros H. right. now apply IH.
Qed.

End AssignFacts.

Lemma initDatabase_idempotent_witness :
  exists st1,
    initDatabase true store_2 = Ok st1
    /\ initDatabase true st1 = Ok st1
    /\ DAILY_ENTRIES st1 = DAILY_ENTRIES store_2
    /\ USER_PROFILE st1 = USER_PROFILE store_2.
Proof.
  destruct (initDatabase_idempotent true store_2)
    as (st1 & Hinit & Hagain & _ & Hentries & Hprofile & _).
  exists st1. split; [exact Hinit|]. split; [exact Hagain|].
  split; [now apply Hentries | now apply Hprofile].
Defined.

Lemma getTodayEntry_unfold isWeb st d :
  getTodayEntry isWeb st d = or_null (get d (stored_entries st)).
Proof.
  unfold getTodayEntry. now destruct isWeb; storage_simpl.
Qed.

Lemma passes_bounded (hi : Q) (v : value) :
  passes hi v -> bounded hi (JSON_number (number_of v)).
Proof.
  intros [q H0 H1|]; simpl; tauto.
Qed.

(** What a successful [saveDailyEntry] has received and written. *)
Lemma saveDailyEntry_Ok_entry isWeb st Date_now toISOString d w c s st' r :
  saveDailyEntry isWeb st Date_now toISOString d w c s = Ok (st', r) ->
  exists day e,
    d = VStr day /\ day <> ""
    /\ passes 10000 w /\ passes 10000 c /\ passes 100000 s
    /\ date e = day /\ entry_bounded e
    /\ water_ml e = JSON_number (number_of w)
    /\ Database.calories e = JSON_number (number_of c)
    /\ Database.steps e = JSON_number (number_of s)
    /\ stored_entries st' = assign day e (stored_entries st)
    /\ USER_PROFILE st' = USER_PROFILE st
    /\ MEDICINES st' = MEDICINES st
    /\ MEDICINE_DOSE_HISTORY st' = MEDICINE_DOSE_HISTORY st.
Proof.
  unfold saveDailyEntry.
  destruct (validateDailyEntry w c s) eqn:Hvalid; [|discriminate].
  apply validateDailyEntry_nil in Hvalid. destruct Hvalid as (Hw & Hc & Hs).
  simpl.
  destruct (negb (ToBoolean d) || negb (typeof d =? "string")) eqn:Hguard;
    [discriminate|].
  apply orb_false_iff in Hguard. destruct Hguard as [Htruthy Hstring].
  destruct d as [| |b|n|day|items|o]; try discriminate.
  simpl in Htruthy.
  destruct (String.eqb_spec day "") as [->|Hday]; [discriminate|].
  intros H. exists day.
  exists {| id := Date_now; date := day;
            water_ml := JSON_number (number_of w);
            Database.calories := JSON_number (number_of c);
            Database.steps := JSON_number (number_of s);
            created_at := toISOString |}.
  split; [reflexivity|]. split; [exact Hday|].
  do 3 (split; [assumption|]).
  destruct isWeb; simpl in H; inversion H; subst; clear H; storage_simpl;
    (split; [reflexivity|]);
    (split; [repeat split; now apply passes_bounded|]);
    repeat split; reflexivity.
Qed.

Lemma saveMedicine_entries isWeb st Date_now toISOString medicine st' id :
  saveMedicine isWeb st Date_now toISOString medicine = Ok (st', id) ->
  DAILY_ENTRIES st' = DAILY_ENTRIES st
  /\ USER_PROFILE st' = USER_PROFILE st
  /\ MEDICINE_DOSE_HISTORY st' = MEDICINE_DOSE_HISTORY st.
Proof.
  unfold saveMedicine.
  destruct (0 <? List.length (validateMedicine medicine))%nat;
    [discriminate|].
  destruct isWeb; intros H; inversion H; repeat split.
Qed.

Lemma updateMedicine_entries isWeb st toISOString id medicine st' :
  updateMedicine isWeb st toISOString id medicine = Ok st' ->
  DAILY_ENTRIES st' = DAILY_ENTRIES st
  /\ USER_PROFILE st' = USER_PROFILE st
  /\ MEDICINE_DOSE_HISTORY st' = MEDICINE_DOSE_HISTORY st.
Proof.
  unfold updateMedicine.
  destruct (0 <? List.length (validateMedicine medicine))%nat;
    [discriminate|].
  destruct isWeb; storage_simpl;
    (destruct (own (Number_toString id) _); [|discriminate]);
    intros H; inversion H; repeat split.
Qed.

(** The entries of a reachable store: one key per entry, which is its date,
    and measures within their bounds. *)
Lemma reaches_entries (isWeb : bool) (st : Storage) :
  reaches isWeb st ->
  distinct_keys (stored_entries st)
  /\ forall k e, In (k, e) (stored_entries st) ->
                 date e = k /\ entry_bounded e.
Proof.
  induction 1 as
    [ | st st' _ IH Hinit
      | st Date_now toISOString d w c s st' r _ IH Hsave
      | st toISOString profile st' r _ IH Hsave
      | st _ IH
      | st Date_now toISOString medicine st' id _ IH _ Hsave
      | st toISOString id medicine st' _ IH _ Hupdate
      | st id st' _ IH Hdelete
      | st Date_now toISOString id doseTime st' _ IH Hrecord ].
  - split; [constructor | intros k e []].
  - now rewrite (initDatabase_entries _ _ _ Hinit).
  - destruct (saveDailyEntry_Ok_entry _ _ _ _ _ _ _ _ _ _ Hsave)
      as (day & e & _ & _ & _ & _ & _ & Hdate & Hbounded & _ & _ & _
          & Hentries & _).
    rewrite Hentries. destruct IH as [Hkeys Hall]. split.
    + now apply distinct_keys_assign.
    + intros k e' Hin. apply In_assign in Hin.
      destruct Hin as [[-> ->]|Hin]; [now split | now apply Hall].
  - unfold stored_entries in *.
    now rewrite (saveUserProfile_entries _ _ _ _ _ _ Hsave).
  - unfold stored_entries in *. now rewrite initMedicines_entries.
  - unfold stored_entries in *.
    now rewrite (proj1 (saveMedicine_entries _ _ _ _ _ _ _ Hsave)).
  - unfold stored_entries in *.
    now rewrite (proj1 (updateMedicine_entries _ _ _ _ _ _ Hupdate)).
  - unfold stored_entries in *.
    now rewrite (deleteMedicine_entries _ _ _ _ Hdelete).
  - unfold stored_entries in *.
    now rewrite (recordDoseTaken_entries _ _ _ _ _ _ _ Hrecord).
Qed.

Lemma store_2_reaches : reaches true store_2.
Proof.
  apply (reaches_saveDailyEntry true store_1 1735776000000
           "2025-01-02T00:00:00.000Z" (VStr "2025-01-02") (VNum (Fin 2))
           (VNum (Fin 700)) (VNum (Fin 4000)) store_2
           {| changes := 1; lastInsertRowid := 1735776000000 |});
    [|reflexivity].
  apply (reaches_saveDailyEntry true store_0 1735689600000
           "2025-01-01T00:00:00.000Z" (VStr "2025-01-01") (VNum (Fin 1))
           (VNum (Fin 500)) (VNum (Fin 2000)) store_1
           {| changes := 1; lastInsertRowid := 1735689600000 |});
    [|reflexivity].
  apply (reaches_initDatabase true empty_storage store_0);
    [apply reaches_start | reflexivity].
Defined.

(** The entries that a filter keeps carry distinct marks when all the
    entries do. *)
Lemma filter_keeps_distinct {A B : Type} (mark : A -> B) (keep : A -> bool)
  (entries : list A) :
  NoDup (map mark entries) -> NoDup (map mark (filter keep entries)).
Proof.
  induction entries as [|x rest IH]; simpl; [auto|].
  intros H. inversion H as [|? ? Hnotin Hrest]; subst.
  destruct (keep x); simpl; [|now apply IH].
  constructor; [|now apply IH].
  intros Hin. apply Hnotin. apply in_map_iff in Hin.
  destruct Hin as (y & Hy & Hin). apply filter_In in Hin.
  apply in_map_iff. exists y. tauto.
Qed.

Lemma NoDup_map_constant {A B : Type} (f : A -> B) (b : B) (l : list A) :
  NoDup (map f l) -> (forall x, In x l -> f x = b) ->
  (List.length l <= 1)%nat.
Proof.
  destruct l as [|x [|y rest]]; simpl; intros Hnodup Hall; try lia.
  exfalso. inversion Hnodup as [|? ? Hnotin _]; subst. apply Hnotin.
  left. rewrite (Hall x), (Hall y); auto.
Qed.

Lemma reaches_dates (isWeb : bool) (st : Storage) :
  reaches isWeb st -> NoDup (map date (Object_values (stored_entries st))).
Proof.
  intros H. destruct (reaches_entries isWeb st H) as [Hkeys Hall].
  unfold Object_values. rewrite map_map.
  replace (map (fun kv => date (snd kv)) (stored_entries st))
    with (map fst (stored_entries st)); [exact Hkeys|].
  apply map_ext_in. intros [k e] Hin. symmetry. now apply Hall.
Qed.

(** X2. A reachable store holds at most one entry per date: no two of its
    entries carry the same date, and the range query of a single day
    returns at most one entry. *)
Theorem one_entry_per_date (isWeb : bool) (st : Storage) :
  reaches isWeb st ->
  NoDup (map date (Object_values (stored_entries st)))
  /\ forall localeCompare d,
       (List.length (getEntriesForDateRange isWeb localeCompare st d d)
        <= 1)%nat.
Proof.
  intros H. pose proof (reaches_dates isWeb st H) as Hdates.
  split; [exact Hdates|].
  intros localeCompare d.
  rewrite (Permutation_length
             (getEntriesForDateRange_Permutation isWeb localeCompare st d d)).
  apply (NoDup_map_constant date d).
  - now apply filter_keeps_distinct.
  - intros e He. apply filter_In in He. destruct He as [_ He].
    unfold in_range in He. apply andb_true_iff in He.
    symmetry. now apply String.leb_antisym.
Qed.

Lemma one_entry_per_date_witness :
  reaches true store_2
  /\ (List.length
        (getEntriesForDateRange true codeunit_compare store_2
           "2025-01-02" "2025-01-02") <= 1)%nat.
Proof.
  split; [exact store_2_reaches|].
  apply (one_entry_per_date true store_2 store_2_reaches).
Defined.

(** ** Averages within the bounds *)

(** The sum of double arithmetic stays within the integer bound of the
    exact sum, as long as that bound is a double. *)
Lemma double_sum_bounds (hi : Z) (l : list Q) :
  forall (s : Q) (k : Z),
    (0 <= hi)%Z -> (0 <= k)%Z ->
    (hi * (k + Z.of_nat (List.length l)) < 2 ^ 53)%Z ->
    Forall (fun q => 0 <= q /\ q <= inject_Z hi) l ->
    0 <= s -> s <= inject_Z (hi * k) ->
    exists r,
      fold_left (fun acc q => Num.add acc (Fin q)) l (Fin s) = Fin r
      /\ 0 <= r
      /\ r <= inject_Z (hi * (k + Z.of_nat (List.length l))).
Proof.
  induction l as [|q rest IH]; intros s k Hhi Hk Hlim Hall Hs0 Hs1.
  - exists s. cbn [fold_left List.length]. rewrite Z.add_0_r. tauto.
  - cbn [fold_left List.length] in *. rewrite Nat2Z.inj_succ in *.
    inversion Hall as [|q' rest' [Hq0 Hq1] Hrest]; subst.
    cbn [Num.add].
    destruct (double_le_integer (s + q) (hi * (k + 1))) as (r & -> & R0 & R1).
    + nia.
    + lra.
    + rewrite Z.mul_add_distr_l, Z.mul_1_r, inject_Z_plus. lra.
    + assert (Hlim' : (hi * (k + 1 + Z.of_nat (List.length rest))
                       < 2 ^ 53)%Z).
      { replace (k + 1 + Z.of_nat (List.length rest))%Z
          with (k + Z.succ (Z.of_nat (List.length rest)))%Z by lia.
        exact Hlim. }
      assert (Hk' : (0 <= k + 1)%Z) by lia.
      destruct (IH r (k + 1)%Z Hhi Hk' Hlim' Hrest R0 R1)
        as (r' & Hr' & R0' & R1').
      exists r'. split; [exact Hr'|]. split; [exact R0'|].
      replace (k + Z.succ (Z.of_nat (List.length rest)))%Z
        with (k + 1 + Z.of_nat (List.length rest))%Z by lia.
      exact R1'.
Qed.

Lemma round_bounds (hi : Z) (x : Q) :
  0 <= x -> x <= inject_Z hi ->
  0 <= inject_Z (Qfloor (x + (1 # 2)))
  /\ inject_Z (Qfloor (x + (1 # 2))) <= inject_Z hi.
Proof.
  intros H0 H1. split.
  - change 0 with (inject_Z 0). rewrite <- Zle_Qle.
    apply Z.le_trans with (Qfloor (inject_Z 0)); [now rewrite Qfloor_Z|].
    apply Qfloor_resp_le. change (inject_Z 0) with 0. lra.
  - rewrite <- Zle_Qle. apply Z.lt_succ_r. rewrite Zlt_Qlt.
    apply Qle_lt_trans with (x + (1 # 2)); [apply Qfloor_le|].
    unfold Z.succ. rewrite inject_Z_plus. change (inject_Z 1) with 1. lra.
Qed.

(** The rounded mean of measures within a bound, over at most [2 ^ 36] of
    them, lies within the bound. *)
Lemma rounded_mean_bounds (hi : Z) (l : list Q) :
  (0 <= hi < 2 ^ 17)%Z ->
  l <> [] -> (Z.of_nat (List.length l) <= 2 ^ 36)%Z ->
  Forall (fun q => 0 <= q /\ q <= inject_Z hi) l ->
  between 0 (inject_Z hi)
    (Num.round
       (Num.div (double_sum l) (Num.of_Z (Z.of_nat (List.length l))))).
Proof.
  intros Hhi Hne Hlen Hall.
  assert (Hn : (0 < Z.of_nat (List.length l))%Z)
    by (destruct l; [congruence|simpl; lia]).
  assert (Hlim : (hi * (0 + Z.of_nat (List.length l)) < 2 ^ 53)%Z).
  { rewrite Z.add_0_l.
    apply Z.le_lt_trans with ((2 ^ 17 - 1) * 2 ^ 36)%Z; [nia|reflexivity]. }
  assert (Hz : 0 <= inject_Z (hi * 0)).
  { rewrite Z.mul_0_r. apply Qle_refl. }
  destruct (double_sum_bounds hi l 0 0 (proj1 Hhi) (Z.le_refl 0) Hlim Hall
              (Qle_refl 0) Hz) as (r & Hr & R0 & R1).
  unfold double_sum. rewrite Hr. rewrite Z.add_0_l in R1.
  set (n := Z.of_nat (List.length l)) in *.
  assert (Hn' : 0 < inject_Z n)
    by (change 0 with (inject_Z 0); now rewrite <- Zlt_Qlt).
  unfold Num.of_Z. cbn [Num.div].
  rewrite Qeq_bool_false by lra.
  destruct (double_le_integer (r / inject_Z n) hi) as (m & -> & M0 & M1).
  - apply Z.lt_trans with (2 ^ 17)%Z; [lia|reflexivity].
  - apply Qle_shift_div_l; [exact Hn'|]. now rewrite Qmult_0_l.
  - apply Qle_shift_div_r; [exact Hn'|].
    now rewrite <- inject_Z_mult.
  - cbn [Num.round]. eexists. split; [reflexivity|].
    now apply round_bounds.
Qed.

Lemma bounded_measure (hi : Q) (m : option Q) :
  0 <= hi -> bounded hi m -> 0 <= measure m /\ measure m <= hi.
Proof.
  intros Hhi. destruct m as [q|]; simpl; [tauto|].
  intros _. split; [apply Qle_refl | exact Hhi].
Qed.

Lemma found_entries_bounded isWeb localeCompare st a b :
  reaches isWeb st ->
  Forall entry_bounded (getEntriesForDateRange isWeb localeCompare st a b).
Proof.
  intros H. apply Forall_forall. intros e He.
  apply (Permutation_in _
           (getEntriesForDateRange_Permutation isWeb localeCompare st a b))
    in He.
  apply filter_In in He. destruct He as [He _].
  unfold Object_values in He. apply in_map_iff in He.
  destruct He as ([k e'] & <- & Hin).
  now apply (proj2 (reaches_entries isWeb st H) k e').
Qed.

(** X3. On a reachable store, when the range holds at most [2 ^ 36]
    entries, every average that [getWeeklyAverages] returns lies within the
    bound of its measure: the water and the calories within 0 and 10000,
    the steps within 0 and 100000.  The averages are those of double
    arithmetic; with that many entries every sum is below [2 ^ 53] and no
    rounding takes it above the bound. *)
Theorem getWeeklyAverages_bounded
  (isWeb : bool) (localeCompare : string -> string -> Z) (st : Storage)
  (a b : string) :
  reaches isWeb st ->
  (Z.of_nat
     (List.length (getEntriesForDateRange isWeb localeCompare st a b))
   <= 2 ^ 36)%Z ->
  let averages := getWeeklyAverages isWeb localeCompare st a b in
  between 0 10000 (water averages)
  /\ between 0 10000 (calories averages)
  /\ between 0 100000 (steps averages).
Proof.
  intros Hreach Hlen averages. subst averages.
  pose proof (found_entries_bounded isWeb localeCompare st a b Hreach)
    as Hall.
  pose proof (getWeeklyAverages_over_found isWeb localeCompare st a b) as H.
  cbv zeta in H. destruct H as (_ & Hnil & Hcons & Hcount).
  destruct (getEntriesForDateRange isWeb localeCompare st a b)
    as [|e rest] eqn:Efound.
  - rewrite (Hnil eq_refl). simpl.
    repeat split; exists 0; (split; [reflexivity|]); split; discriminate.
  - destruct Hcons as (-> & -> & -> & _); [discriminate|].
    rewrite Hcount
      by (apply Z.le_lt_trans with (2 ^ 36)%Z; [exact Hlen|reflexivity]).
    assert (Hround : forall (hi : Z) (f : DailyEntry -> option Q),
               (0 <= hi < 2 ^ 17)%Z ->
               (forall e', entry_bounded e' -> bounded (inject_Z hi) (f e')) ->
               between 0 (inject_Z hi)
                 (Num.round
                    (Num.div
                       (double_sum
                          (map (fun e' => measure (f e')) (e :: rest)))
                       (Num.of_Z (Z.of_nat (List.length (e :: rest))))))).
    { intros hi f Hhi Hf.
      assert (Hhi' : 0 <= inject_Z hi)
        by (change 0 with (inject_Z 0); rewrite <- Zle_Qle; lia).
      rewrite <- (length_map (fun e' => measure (f e')) (e :: rest)).
      apply rounded_mean_bounds; [exact Hhi|discriminate| |].
      - now rewrite length_map.
      - apply Forall_map. eapply Forall_impl; [|exact Hall].
        intros e' He'. apply bounded_measure; auto. }
    split; [|split].
    + apply (Hround 10000%Z water_ml); [split; [lia|reflexivity]|].
      now intros e' (H1 & _ & _).
    + apply (Hround 10000%Z Database.calories);
        [split; [lia|reflexivity]|].
      now intros e' (_ & H2 & _).
    + apply (Hround 100000%Z Database.steps);
        [split; [lia|reflexivity]|].
      now intros e' (_ & _ & H3).
Qed.

Lemma getWeeklyAverages_bounded_witness :
  reaches true store_2
  /\ (Z.of_nat
        (List.length
           (getEntriesForDateRange true codeunit_compare store_2
              "2025-01-01" "2025-01-07")) <= 2 ^ 36)%Z
  /\ between 0 10000
       (water (getWeeklyAverages true codeunit_compare store_2
                 "2025-01-01" "2025-01-07")).
Proof.
  assert (Hlen : (Z.of_nat
                    (List.length
                       (getEntriesForDateRange true codeunit_compare store_2
                          "2025-01-01" "2025-01-07")) <= 2 ^ 36)%Z)
    by (vm_compute; discriminate).
  split; [exact store_2_reaches|]. split; [exact Hlen|].
  apply (getWeeklyAverages_bounded true codeunit_compare store_2
           "2025-01-01" "2025-01-07" store_2_reaches Hlen).
Defined.

(** ** Writing an entry *)

(** X4. A successful [saveDailyEntry] touches the entry of its date and no
    other: the entry of every other date reads as before, and the number
    of entries stays when the date had an entry and grows by one when it
    had none. *)
Theorem saveDailyEntry_other_dates
  (isWeb : bool) (st st' : Storage) (Date_now : Z) (toISOString d : string)
  (w c s : value) (r : RunResult) :
  saveDailyEntry isWeb st Date_now toISOString (VStr d) w c s = Ok (st', r) ->
  (forall d', d' <> d -> getTodayEntry isWeb st' d' = getTodayEntry isWeb st d')
  /\ (d <> "__proto__" ->
      List.length (stored_entries st')
      = if has_own d (stored_entries st)
        then List.length (stored_entries st)
        else S (List.length (stored_entries st))).
Proof.
  intros Hsave.
  destruct (saveDailyEntry_Ok_entry _ _ _ _ _ _ _ _ _ _ Hsave)
    as (day & e & Hd & _ & _ & _ & _ & _ & _ & _ & _ & _ & Hentries & _).
  inversion Hd; subst day. split.
  - intros d' Hd'. rewrite !getTodayEntry_unfold, Hentries.
    now rewrite get_assign_other.
  - intros Hproto. rewrite Hentries. unfold assign.
    destruct (String.eqb_spec d "__proto__"); [contradiction|]. simpl.
    apply length_define.
Qed.

Lemma saveDailyEntry_other_dates_witness :
  getTodayEntry true store_2 "2025-01-01"
  = getTodayEntry true store_1 "2025-01-01"
  /\ List.length (stored_entries store_2) = 2%nat.
Proof.
  assert (Hsave :
            saveDailyEntry true store_1 1735776000000
              "2025-01-02T00:00:00.000Z" (VStr "2025-01-02") (VNum (Fin 2))
              (VNum (Fin 700)) (VNum (Fin 4000))
            = Ok (store_2,
                  {| changes := 1; lastInsertRowid := 1735776000000 |}))
    by reflexivity.
  split.
  - apply (saveDailyEntry_other_dates _ _ _ _ _ _ _ _ _ _ Hsave).
    discriminate.
  - apply (saveDailyEntry_other_dates _ _ _ _ _ _ _ _ _ _ Hsave).
    discriminate.
Defined.

(** X5. [saveDailyEntry] resolves exactly when each measure is a number
    that is neither below 0 nor above its bound and the date is a string
    that is not empty.  When the measures pass and the date does not, it
    throws "Invalid date format"; when a measure does not pass, it throws
    the messages of the validation, whatever the date. *)
Theorem saveDailyEntry_resolves_iff
  (isWeb : bool) (st : Storage) (Date_now : Z) (toISOString : string)
  (d w c s : value) :
  let measures := passes 10000 w /\ passes 10000 c /\ passes 100000 s in
  let dated := exists day, d = VStr day /\ day <> "" in
  ((exists st' r,
      saveDailyEntry isWeb st Date_now toISOString d w c s = Ok (st', r))
   <-> measures /\ dated)
  /\ (measures -> ~ dated ->
      saveDailyEntry isWeb st Date_now toISOString d w c s
      = Throw "Failed to save daily entry: Invalid date format")
  /\ (~ measures ->
      saveDailyEntry isWeb st Date_now toISOString d w c s
      = Throw ("Failed to save daily entry: Invalid data: "
               ++ String.concat ", " (validateDailyEntry w c s))).
Proof.
  intros measures dated. subst measures dated.
  assert (Hguard :
            negb (ToBoolean d) || negb (typeof d =? "string") = false
            <-> exists day, d = VStr day /\ day <> "").
  { split.
    - intros H. apply orb_false_iff in H. destruct H as [Ht Hs].
      destruct d as [| |b|n|day|items|o]; try discriminate.
      exists day. split; [reflexivity|]. simpl in Ht.
      now destruct (String.eqb_spec day "").
    - intros (day & -> & Hday). simpl.
      now destruct (String.eqb_spec day ""). }
  split; [split|split].
  - intros (st' & r & Hsave).
    destruct (saveDailyEntry_Ok_entry _ _ _ _ _ _ _ _ _ _ Hsave)
      as (day & e & Hd & Hday & Hw & Hc & Hs & _).
    split; [tauto | now exists day].
  - intros [Hmeasures Hdated].
    apply validateDailyEntry_nil in Hmeasures. apply Hguard in Hdated.
    unfold saveDailyEntry. rewrite Hmeasures, Hdated. simpl.
    destruct isWeb; simpl; eauto.
  - intros Hmeasures Hdated.
    apply validateDailyEntry_nil in Hmeasures.
    unfold saveDailyEntry. rewrite Hmeasures. simpl.
    destruct (negb (ToBoolean d) || negb (typeof d =? "string")) eqn:E;
      [reflexivity|].
    exfalso. apply Hdated. now apply Hguard.
  - apply saveDailyEntry_invalid.
Qed.

Lemma saveDailyEntry_resolves_iff_witness :
  (exists st' r,
     saveDailyEntry true store_0 1 "t" (VStr "2025-01-01")
       (VNum (Fin 250)) (VNum NaN) (VNum (Fin 0)) = Ok (st', r))
  /\ saveDailyEntry true store_0 1 "t" VNull
       (VNum (Fin 250)) (VNum (Fin 0)) (VNum (Fin 0))
     = Throw "Failed to save daily entry: Invalid date format".
Proof.
  split.
  - apply (saveDailyEntry_resolves_iff true store_0 1 "t" (VStr "2025-01-01")
             (VNum (Fin 250)) (VNum NaN) (VNum (Fin 0))).
    split.
    + repeat split; (apply passes_NaN || (apply passes_range; discriminate)).
    + exists "2025-01-01". split; [reflexivity | discriminate].
  - apply (saveDailyEntry_resolves_iff true store_0 1 "t" VNull
             (VNum (Fin 250)) (VNum (Fin 0)) (VNum (Fin 0))).
    + repeat split; apply passes_range; discriminate.
    + intros (day & Hday & _). discriminate.
Defined.

(** * Further properties of the medicines *)

(** ** The validation of a medicine *)

Lemma chars_full (s : string) : Forall (fun ch => ch <> EmptyString) (chars s).
Proof.
  induction s as [|c rest IH]; simpl; [constructor|].
  destruct (chars rest) as [|[|c' ch] others].
  - repeat constructor. discriminate.
  - constructor; [discriminate|exact IH].
  - inversion IH; subst.
    destruct (continues c'); repeat constructor; try discriminate;
      assumption.
Qed.

Lemma trimStart_blank (text : list string) :
  forallb is_space text = true -> trimStart text = [].
Proof.
  induction text as [|ch rest IH]; simpl; [reflexivity|].
  destruct (is_space ch); simpl; [exact IH|discriminate].
Qed.

Lemma trimStart_kept (text : list string) :
  forallb is_space text = false ->
  exists ch rest,
    trimStart text = ch :: rest /\ is_space ch = false /\ In ch text.
Proof.
  induction text as [|ch rest IH]; simpl; [discriminate|].
  destruct (is_space ch) eqn:E; simpl.
  - intros H. destruct (IH H) as (ch' & rest' & H1 & H2 & H3).
    exists ch', rest'. auto.
  - intros _. exists ch, rest. auto.
Qed.

Lemma trimEnd_kept (ch : string) (rest : list string) :
  is_space ch = false ->
  exists kept, trimEnd (ch :: rest) = ch :: kept.
Proof.
  intros E. simpl. rewrite E. destruct (trimEnd rest); eauto.
Qed.

Lemma trim_blank (s : string) :
  (String.length (trim s) <? 1)%nat = blank s.
Proof.
  unfold trim, blank. destruct (forallb is_space (chars s)) eqn:E.
  - now rewrite (trimStart_blank _ E).
  - destruct (trimStart_kept _ E) as (ch & rest & -> & Hch & Hin).
    destruct (trimEnd_kept ch rest Hch) as [kept ->].
    pose proof (chars_full s) as Hfull. rewrite Forall_forall in Hfull.
    specialize (Hfull ch Hin).
    destruct ch as [|c ch]; [congruence|].
    simpl. now destruct kept.
Qed.

Lemma text_test (v : value) :
  negb (ToBoolean v) || negb (typeof v =? "string")
  || (String.length (trim (string_of v)) <? 1)%nat = false
  <-> exists s, v = VStr s /\ blank s = false.
Proof.
  rewrite trim_blank. split.
  - intros H. apply orb_false_iff in H. destruct H as [H Hblank].
    apply orb_false_iff in H. destruct H as [_ Hstring].
    destruct v as [| |b|n|s|items|o]; try discriminate. now exists s.
  - intros (s & -> & Hblank). simpl. rewrite Hblank.
    destruct s; [discriminate|reflexivity].
Qed.

(** The white space is that of the characters, not of the bytes: a name
    between an ideographic space and a no-break space is trimmed to the
    name, a name of such spaces only is refused, and a Cyrillic letter
    whose second byte is the one of the no-break space is a name. *)
Example trim_wide_spaces :
  trim (ideographic_space ++ "Aspirin" ++ no_break_space) = "Aspirin"
  /\ validateMedicine
       [("name", VStr (ideographic_space ++ no_break_space));
        ("dosage", VStr "100mg"); ("frequency", VStr "daily");
        ("times", VArr [VNum (Fin 8)])]
     = ["Medicine name is required"]
  /\ blank (String (ascii_of_N 208) (String (ascii_of_N 160) EmptyString))
     = false.
Proof.
  repeat split.
Qed.

Lemma frequency_test (v : value) :
  negb (ToBoolean v) || negb (typeof v =? "string") = false
  <-> exists s, v = VStr s /\ s <> "".
Proof.
  split.
  - intros H. apply orb_false_iff in H. destruct H as [Ht Hs].
    destruct v as [| |b|n|s|items|o]; try discriminate.
    exists s. split; [reflexivity|]. simpl in Ht.
    now destruct (String.eqb_spec s "").
  - intros (s & -> & Hs). simpl. now destruct (String.eqb_spec s "").
Qed.

Lemma count_test (lo : Q) (v : value) :
  defined v && (negb (typeof v =? "number") || below v lo) = false
  <-> count_passes lo v.
Proof.
  unfold below. split.
  - destruct v as [| |b|[| |q|]|s|items|o]; simpl; try discriminate.
    + intros _. constructor.
    + intros _. constructor.
    + intros H. apply negb_false_iff, Qle_bool_iff in H. now constructor.
    + intros _. constructor.
  - intros [|q H| |]; simpl; try reflexivity.
    now rewrite (proj2 (Qle_bool_iff _ _) H).
Qed.

Lemma check_times_nil (times : list value) :
  forall index errors,
    check_times index times errors = []
    <-> errors = [] /\ Forall (passes 23) times.
Proof.
  induction times as [|hour rest IH]; intros index errors; simpl.
  - split; [intros ->; split; constructor | tauto].
  - rewrite IH, push_if_nil, range_test_passes. split.
    + intros ((H1 & H2) & H3). split; [exact H2 | now constructor].
    + intros (H1 & H2). inversion H2; subst. tauto.
Qed.

Lemma validateMedicine_nil (medicine : props value) :
  validateMedicine medicine = [] <-> valid_medicine medicine.
Proof.
  unfold validateMedicine, valid_medicine. cbv zeta.
  rewrite !push_if_nil, !count_test.
  assert (Htimes :
            forall errors,
              match field "times" medicine with
              | VArr [] =>
                  (errors ++ ["At least one dose time is required"])%list
              | VArr times => check_times 0 times errors
              | _ => (errors ++ ["At least one dose time is required"])%list
              end = []
              <-> errors = []
                  /\ exists hour times,
                       field "times" medicine = VArr (hour :: times)
                       /\ Forall (passes 23) (hour :: times)).
  { intros errors.
    destruct (field "times" medicine) as [| |b|n|s|[|hour times]|o];
      try (split;
           [intros H; now apply app_eq_nil in H
           |intros (_ & ? & ? & ? & _); discriminate]).
    rewrite check_times_nil. split.
    - intros [H1 H2]. split; [exact H1|]. now exists hour, times.
    - intros (H1 & hour' & times' & Heq & H2). inversion Heq; subst. tauto. }
  rewrite Htimes, !push_if_nil, !text_test, frequency_test. tauto.
Qed.

Lemma Number_toString_not_proto (z : Z) : Number_toString z <> "__proto__".
Proof.
  intros H. pose proof (Number_toString_head z) as Hhead.
  rewrite H in Hhead. discriminate.
Qed.

Lemma own_assign_same {A : Type} (k : string) (a : A) (o : props A) :
  k <> "__proto__" -> own k (assign k a o) = Some a.
Proof.
  intros Hk. unfold assign.
  destruct (String.eqb_spec k "__proto__"); [contradiction|].
  apply own_define_same.
Qed.

Lemma saveMedicine_valid isWeb st Date_now toISOString medicine :
  valid_medicine medicine ->
  saveMedicine isWeb st Date_now toISOString medicine
  = Ok (with_MEDICINES
          (Some (JSON_medicines
                   (assign (Number_toString Date_now)
                      (medicineWithId medicine Date_now toISOString)
                      (stored_medicines st)))) st,
        Date_now).
Proof.
  intros H. apply validateMedicine_nil in H.
  unfold saveMedicine. rewrite H. now destruct isWeb.
Qed.

Lemma saveMedicine_invalid isWeb st Date_now toISOString medicine :
  ~ valid_medicine medicine ->
  saveMedicine isWeb st Date_now toISOString medicine
  = Throw ("Invalid medicine data: "
           ++ String.concat ", " (validateMedicine medicine)).
Proof.
  rewrite <- validateMedicine_nil. intros H. unfold saveMedicine.
  destruct (validateMedicine medicine); [congruence|reflexivity].
Qed.

(** X6. [saveMedicine] resolves exactly when the medicine has a name and a
    dosage that are strings with more than white space, a frequency that is
    a string and not empty, at least one time and only times that are
    numbers neither below 0 nor above 23, a [total_doses] that is absent or
    a number not below 1 and a [doses_taken] that is absent or a number
    not below 0.  Otherwise it throws "Invalid medicine data" with the
    messages of the validation, and writes nothing. *)
Theorem saveMedicine_resolves_iff
  (isWeb : bool) (st : Storage) (Date_now : Z) (toISOString : string)
  (medicine : props value) :
  ((exists st' id,
      saveMedicine isWeb st Date_now toISOString medicine = Ok (st', id))
   <-> valid_medicine medicine)
  /\ (~ valid_medicine medicine ->
      validateMedicine medicine <> []
      /\ saveMedicine isWeb st Date_now toISOString medicine
         = Throw ("Invalid medicine data: "
                  ++ String.concat ", " (validateMedicine medicine))).
Proof.
  split; [split|].
  - intros (st' & id & Hsave).
    apply validateMedicine_nil. unfold saveMedicine in Hsave.
    now destruct (validateMedicine medicine).
  - intros H. rewrite (saveMedicine_valid _ _ _ _ _ H). eauto.
  - intros H. split; [now rewrite validateMedicine_nil|].
    now apply saveMedicine_invalid.
Qed.

Lemma aspirin_valid : valid_medicine aspirin.
Proof.
  apply validateMedicine_nil. reflexivity.
Qed.

Lemma saveMedicine_resolves_iff_witness :
  (exists st' id,
     saveMedicine true store_2 1735700000001 "2025-01-01T03:00:00.000Z"
       aspirin = Ok (st', id))
  /\ saveMedicine true store_2 1735700000001 "2025-01-01T03:00:00.000Z"
       [("name", VStr "  "); ("dosage", VStr "100mg");
        ("frequency", VStr "daily"); ("times", VArr [VNum (Fin 8)])]
     = Throw "Invalid medicine data: Medicine name is required".
Proof.
  split.
  - apply (saveMedicine_resolves_iff true store_2 1735700000001
             "2025-01-01T03:00:00.000Z" aspirin).
    exact aspirin_valid.
  - apply (saveMedicine_resolves_iff true store_2 1735700000001
             "2025-01-01T03:00:00.000Z"
             [("name", VStr "  "); ("dosage", VStr "100mg");
              ("frequency", VStr "daily"); ("times", VArr [VNum (Fin 8)])]).
    intros ((s & Hname & Hblank) & _). inversion Hname; subst. discriminate.
Defined.

(** ** Saving, updating and deleting a medicine *)

Lemma saveMedicine_unfold isWeb st Date_now toISOString medicine :
  saveMedicine isWeb st Date_now toISOString medicine
  = if (0 <? List.length (validateMedicine medicine))%nat
    then Throw ("Invalid medicine data: "
                ++ String.concat ", " (validateMedicine medicine))
    else Ok (with_MEDICINES
               (Some (JSON_medicines
                        (assign (Number_toString Date_now)
                           (medicineWithId medicine Date_now toISOString)
                           (stored_medicines st)))) st,
             Date_now).
Proof.
  unfold saveMedicine. now destruct isWeb.
Qed.

Lemma updateMedicine_unfold isWeb st toISOString id medicine :
  updateMedicine isWeb st toISOString id medicine
  = if (0 <? List.length (validateMedicine medicine))%nat
    then Throw ("Invalid medicine data: "
                ++ String.concat ", " (validateMedicine medicine))
    else
      match own (Number_toString id) (stored_medicines st) with
      | None => Throw "Medicine not found"
      | Some old =>
          Ok (with_MEDICINES
                (Some (JSON_medicines
                         (assign (Number_toString id)
                            (merged old medicine toISOString)
                            (stored_medicines st)))) st)
      end.
Proof.
  unfold updateMedicine. now destruct isWeb.
Qed.

Lemma validateMedicine_length (medicine : props value) :
  (0 <? List.length (validateMedicine medicine))%nat = false
  <-> valid_medicine medicine.
Proof.
  rewrite <- validateMedicine_nil.
  destruct (validateMedicine medicine); simpl; split;
    try reflexivity; discriminate.
Qed.

Lemma validateMedicine_refuses (medicine : props value) :
  ~ valid_medicine medicine ->
  (0 <? List.length (validateMedicine medicine))%nat = true.
Proof.
  rewrite <- validateMedicine_length.
  now destruct (0 <? List.length (validateMedicine medicine))%nat.
Qed.

Lemma distinct_keys_medicineWithId medicine id toISOString :
  distinct_keys (medicineWithId medicine id toISOString).
Proof.
  unfold medicineWithId. repeat apply distinct_keys_define.
  apply distinct_keys_spread. constructor.
Qed.

Lemma distinct_keys_merged old medicine toISOString :
  distinct_keys (merged old medicine toISOString).
Proof.
  unfold merged. apply distinct_keys_define.
  repeat apply distinct_keys_spread. constructor.
Qed.

Lemma or_defined (a b : value) : b <> VUndefined -> or a b <> VUndefined.
Proof.
  intros Hb. unfold or. destruct (ToBoolean a) eqn:E; [|exact Hb].
  intros ->. discriminate.
Qed.

Lemma JSON_property_defined (v : value) :
  v <> VUndefined -> JSON_property (Some v) = Some (JSON_image v).
Proof.
  intros H. destruct v; try reflexivity. contradiction.
Qed.

Lemma field_JSON_props (k : string) (o : props value) :
  distinct_keys o -> field k (JSON_props o) = JSON_image (field k o).
Proof.
  intros H. unfold field. rewrite (own_JSON_props k o H).
  destruct (own k o) as [v|]; [|reflexivity].
  destruct (value_eq_undefined v) as [->|Hv]; [reflexivity|].
  now rewrite (JSON_property_defined v Hv).
Qed.

Lemma own_spread_nil (k : string) (p : props value) :
  distinct_keys p -> own k (spread p []) = own k p.
Proof.
  intros H. rewrite (own_spread k p [] H). now destruct (own k p).
Qed.

Lemma own_delete_other {A : Type} (k k' : string) (o : props A) :
  k' <> k -> own k' (delete k o) = own k' o.
Proof.
  intros Hne. unfold delete.
  induction o as [|[k0 a0] rest IH]; simpl; [reflexivity|].
  destruct (String.eqb_spec k0 k) as [->|Hk0]; simpl.
  - destruct (String.eqb_spec k k'); [congruence|exact IH].
  - now rewrite IH.
Qed.

Lemma delete_absent {A : Type} (k : string) (o : props A) :
  own k o = None -> delete k o = o.
Proof.
  unfold delete. induction o as [|[k0 a0] rest IH]; simpl; [reflexivity|].
  destruct (String.eqb_spec k0 k); [discriminate|].
  intros H. simpl. now rewrite (IH H).
Qed.

Lemma keys_JSON_medicines (medicines : props (props value)) :
  map fst (JSON_medicines medicines) = map fst medicines.
Proof.
  unfold JSON_medicines. rewrite map_map. reflexivity.
Qed.

Lemma has_own_Some {A : Type} (k : string) (a : A) (o : props A) :
  own k o = Some a -> has_own k o = true.
Proof.
  intros H. unfold has_own. now rewrite H.
Qed.

Lemma keys_assign_present {A : Type} (k : string) (a a' : A) (o : props A) :
  own k o = Some a' -> map fst (assign k a o) = map fst o.
Proof.
  intros H. unfold assign, define. rewrite (has_own_Some k a' o H).
  rewrite andb_false_r. apply keys_update_own.
Qed.

(** X7. A medicine that passes the validation is stored under the decimal
    text of the clock reading, which is also its [id]; [created_at] is the
    time of the call; [doses_taken] is the one given, or 0 when none or a
    falsy one is given; every other property is the JSON image of the one
    given; and the other medicines are kept as they were stored. *)
Theorem saveMedicine_round_trip
  (isWeb : bool) (st : Storage) (Date_now : Z) (toISOString : string)
  (medicine : props value) :
  distinct_keys medicine ->
  valid_medicine medicine ->
  exists st' kept,
    saveMedicine isWeb st Date_now toISOString medicine = Ok (st', Date_now)
    /\ own (Number_toString Date_now) (stored_medicines st') = Some kept
    /\ field "id" kept = VNum (Num.of_Z Date_now)
    /\ field "created_at" kept = VStr toISOString
    /\ field "doses_taken" kept
       = JSON_image (or (field "doses_taken" medicine) (VNum (Fin 0)))
    /\ (forall k,
          k <> "id" -> k <> "created_at" -> k <> "doses_taken" ->
          own k kept = JSON_property (own k medicine))
    /\ (forall k,
          k <> Number_toString Date_now ->
          own k (stored_medicines st')
          = option_map JSON_props (own k (stored_medicines st))).
Proof.
  intros Hkeys Hvalid.
  pose proof (distinct_keys_medicineWithId medicine Date_now toISOString)
    as Hdistinct.
  eexists. exists (JSON_props (medicineWithId medicine Date_now toISOString)).
  split; [now apply saveMedicine_valid|].
  cbn [stored_medicines with_MEDICINES MEDICINES parse_or].
  split; [|split; [|split; [|split; [|split]]]].
  - rewrite own_JSON_medicines, own_assign_same; [reflexivity|].
    apply Number_toString_not_proto.
  - rewrite (field_JSON_props _ _ Hdistinct). unfold field, medicineWithId.
    rewrite !own_define_other by discriminate.
    now rewrite own_define_same.
  - rewrite (field_JSON_props _ _ Hdistinct). unfold field, medicineWithId.
    rewrite own_define_other by discriminate.
    now rewrite own_define_same.
  - rewrite (field_JSON_props _ _ Hdistinct).
    unfold field at 1. unfold medicineWithId.
    now rewrite own_define_same.
  - intros k Hid Hcreated Hdoses.
    rewrite (own_JSON_props _ _ Hdistinct). unfold medicineWithId.
    rewrite !own_define_other by assumption.
    now rewrite (own_spread_nil k medicine Hkeys).
  - intros k Hk. rewrite own_JSON_medicines.
    now rewrite own_assign_other by assumption.
Qed.

Lemma aspirin_distinct : distinct_keys aspirin.
Proof.
  unfold distinct_keys, aspirin. simpl.
  repeat constructor; simpl; intuition discriminate.
Qed.

Lemma saveMedicine_round_trip_witness :
  distinct_keys aspirin
  /\ valid_medicine aspirin
  /\ exists st' kept,
       saveMedicine true store_2 1735800000000 "2025-01-02T06:40:00.000Z"
         aspirin = Ok (st', 1735800000000%Z)
       /\ own "1735800000000" (stored_medicines st') = Some kept
       /\ field "doses_taken" kept = VNum (Fin 0).
Proof.
  split; [exact aspirin_distinct|]. split; [exact aspirin_valid|].
  destruct (saveMedicine_round_trip true store_2 1735800000000
              "2025-01-02T06:40:00.000Z" aspirin aspirin_distinct
              aspirin_valid)
    as (st' & kept & Hsave & Hown & _ & _ & Hdoses & _).
  exists st', kept. split; [exact Hsave|]. split; [exact Hown|exact Hdoses].
Defined.

(** X8. The key of a new medicine is the clock reading alone: a second
    medicine saved at the same reading takes the place of the first, and
    the store holds as many medicines as after the first call. *)
Theorem saveMedicine_same_instant
  (isWeb : bool) (st : Storage) (Date_now : Z) (first second : string)
  (medicine medicine' : props value) :
  valid_medicine medicine ->
  valid_medicine medicine' ->
  exists st1 st2,
    saveMedicine isWeb st Date_now first medicine = Ok (st1, Date_now)
    /\ saveMedicine isWeb st1 Date_now second medicine' = Ok (st2, Date_now)
    /\ own (Number_toString Date_now) (stored_medicines st2)
       = Some (JSON_props (medicineWithId medicine' Date_now second))
    /\ map fst (stored_medicines st2) = map fst (stored_medicines st1).
Proof.
  intros Hvalid Hvalid'. do 2 eexists.
  split; [now apply saveMedicine_valid|].
  split; [now apply saveMedicine_valid|].
  cbn [stored_medicines with_MEDICINES MEDICINES parse_or].
  split.
  - rewrite own_JSON_medicines, own_assign_same; [reflexivity|].
    apply Number_toString_not_proto.
  - rewrite keys_JSON_medicines.
    apply keys_assign_present
      with (a' := JSON_props (medicineWithId medicine Date_now first)).
    rewrite own_JSON_medicines, own_assign_same; [reflexivity|].
    apply Number_toString_not_proto.
Qed.

Lemma saveMedicine_same_instant_witness :
  valid_medicine aspirin
  /\ exists st1 st2,
       saveMedicine true store_2 1735800000000 "2025-01-02T06:40:00.000Z"
         aspirin = Ok (st1, 1735800000000%Z)
       /\ saveMedicine true st1 1735800000000 "2025-01-02T06:40:00.000Z"
            aspirin = Ok (st2, 1735800000000%Z)
       /\ map fst (stored_medicines st2) = map fst (stored_medicines st1).
Proof.
  split; [exact aspirin_valid|].
  destruct (saveMedicine_same_instant true store_2 1735800000000
              "2025-01-02T06:40:00.000Z" "2025-01-02T06:40:00.000Z"
              aspirin aspirin aspirin_valid aspirin_valid)
    as (st1 & st2 & H1 & H2 & _ & Hkeys).
  exists st1, st2. split; [exact H1|]. split; [exact H2|exact Hkeys].
Defined.

(** X9. [updateMedicine] validates what it is given before it looks the
    medicine up, and it validates it as a whole medicine: it resolves
    exactly when the object given passes the validation and a medicine is
    stored under the id.  An object that does not pass is refused with the
    messages of the validation, also when the id is unknown; one that
    passes is refused with "Medicine not found" when the id is unknown. *)
Theorem updateMedicine_outcomes
  (isWeb : bool) (st : Storage) (toISOString : string) (id : Z)
  (medicine : props value) :
  ((exists st', updateMedicine isWeb st toISOString id medicine = Ok st')
   <-> valid_medicine medicine
       /\ own (Number_toString id) (stored_medicines st) <> None)
  /\ (~ valid_medicine medicine ->
      updateMedicine isWeb st toISOString id medicine
      = Throw ("Invalid medicine data: "
               ++ String.concat ", " (validateMedicine medicine)))
  /\ (valid_medicine medicine ->
      own (Number_toString id) (stored_medicines st) = None ->
      updateMedicine isWeb st toISOString id medicine
      = Throw "Medicine not found").
Proof.
  rewrite updateMedicine_unfold. split; [split|split].
  - intros [st' H].
    destruct (0 <? List.length (validateMedicine medicine))%nat eqn:E;
      [discriminate|].
    apply validateMedicine_length in E. split; [exact E|].
    now destruct (own (Number_toString id) (stored_medicines st)).
  - intros [Hvalid Hown]. apply validateMedicine_length in Hvalid.
    rewrite Hvalid.
    destruct (own (Number_toString id) (stored_medicines st));
      [eauto|contradiction].
  - intros H. now rewrite (validateMedicine_refuses medicine H).
  - intros Hvalid Hown. apply validateMedicine_length in Hvalid.
    now rewrite Hvalid, Hown.
Qed.

Lemma updateMedicine_outcomes_witness :
  updateMedicine true store_5 "2025-01-03T00:00:00.000Z" 1735800000000
    [("doses_taken", VNum (Fin 1))]
  = Throw ("Invalid medicine data: Medicine name is required, "
           ++ "Dosage is required, Frequency is required, "
           ++ "At least one dose time is required")
  /\ updateMedicine true store_5 "2025-01-03T00:00:00.000Z" 7 aspirin
     = Throw "Medicine not found".
Proof.
  split.
  - apply (updateMedicine_outcomes true store_5 "2025-01-03T00:00:00.000Z"
             1735800000000 [("doses_taken", VNum (Fin 1))]).
    intros ((s & Hname & _) & _). discriminate.
  - apply (updateMedicine_outcomes true store_5 "2025-01-03T00:00:00.000Z"
             7 aspirin); [exact aspirin_valid|reflexivity].
Defined.

(** X10. A successful [updateMedicine] lays the properties given over the
    stored ones: the medicine under the id holds the time of the call as
    [updated_at] and, for every other name, the JSON image of the property
    given or, when none is given, of the stored one.  The other medicines
    are kept as they were stored and no key is added or removed. *)
Theorem updateMedicine_merges
  (isWeb : bool) (st : Storage) (toISOString : string) (id : Z)
  (old medicine : props value) :
  distinct_keys medicine ->
  distinct_keys old ->
  valid_medicine medicine ->
  own (Number_toString id) (stored_medicines st) = Some old ->
  exists st' kept,
    updateMedicine isWeb st toISOString id medicine = Ok st'
    /\ own (Number_toString id) (stored_medicines st') = Some kept
    /\ field "updated_at" kept = VStr toISOString
    /\ (forall k,
          k <> "updated_at" ->
          own k kept
          = JSON_property
              (match own k medicine with
               | Some v => Some v
               | None => own k old
               end))
    /\ (forall k,
          k <> Number_toString id ->
          own k (stored_medicines st')
          = option_map JSON_props (own k (stored_medicines st)))
    /\ map fst (stored_medicines st') = map fst (stored_medicines st).
Proof.
  intros Hkeys Hold Hvalid Hown.
  pose proof (distinct_keys_merged old medicine toISOString) as Hdistinct.
  rewrite updateMedicine_unfold, Hown.
  rewrite (proj2 (validateMedicine_length medicine) Hvalid).
  eexists. exists (JSON_props (merged old medicine toISOString)).
  split; [reflexivity|].
  cbn [stored_medicines with_MEDICINES MEDICINES parse_or].
  fold (stored_medicines st).
  split; [|split; [|split; [|split]]].
  - rewrite own_JSON_medicines, own_assign_same; [reflexivity|].
    apply Number_toString_not_proto.
  - rewrite (field_JSON_props _ _ Hdistinct). unfold field, merged.
    now rewrite own_define_same.
  - intros k Hk. rewrite (own_JSON_props _ _ Hdistinct). unfold merged.
    rewrite own_define_other by assumption.
    rewrite (own_spread k medicine _ Hkeys).
    now rewrite (own_spread_nil k old Hold).
  - intros k Hk. rewrite own_JSON_medicines.
    now rewrite own_assign_other by assumption.
  - rewrite keys_JSON_medicines.
    now apply keys_assign_present with (a' := old).
Qed.

Lemma updateMedicine_merges_witness :
  distinct_keys aspirin
  /\ valid_medicine aspirin
  /\ exists st' kept,
       updateMedicine true store_6 "2025-01-03T00:00:00.000Z" 1735800000000
         aspirin = Ok st'
       /\ own "1735800000000" (stored_medicines st') = Some kept
       /\ own "doses_taken" kept = Some (VNum (Fin 1)).
Proof.
  split; [exact aspirin_distinct|]. split; [exact aspirin_valid|].
  destruct (updateMedicine_merges true store_6 "2025-01-03T00:00:00.000Z"
              1735800000000
              (match own "1735800000000" (stored_medicines store_6) with
               | Some old => old
               | None => []
               end)
              aspirin aspirin_distinct)
    as (st' & kept & Hupdate & Hown & _ & Hother & _).
  - unfold distinct_keys. simpl.
    repeat constructor; simpl; intuition discriminate.
  - exact aspirin_valid.
  - reflexivity.
  - exists st', kept. split; [exact Hupdate|]. split; [exact Hown|].
    rewrite (Hother "doses_taken"); [reflexivity|discriminate].
Defined.

(** X11. [deleteMedicine] resolves on every store and for every id, also
    when no medicine is stored under it: afterwards no medicine is stored
    under the id, the other medicines are kept as they were stored, and
    when none was stored under the id the keys are the same as before. *)
Theorem deleteMedicine_removes (isWeb : bool) (st : Storage) (id : Z) :
  exists st',
    deleteMedicine isWeb st id = Ok st'
    /\ own (Number_toString id) (stored_medicines st') = None
    /\ (forall k,
          k <> Number_toString id ->
          own k (stored_medicines st')
          = option_map JSON_props (own k (stored_medicines st)))
    /\ (own (Number_toString id) (stored_medicines st) = None ->
        map fst (stored_medicines st') = map fst (stored_medicines st)).
Proof.
  eexists. split; [apply deleteMedicine_unfold|].
  cbn [stored_medicines with_MEDICINES MEDICINES parse_or].
  fold (stored_medicines st).
  split; [|split].
  - now rewrite own_JSON_medicines, own_delete_same.
  - intros k Hk. rewrite own_JSON_medicines.
    now rewrite own_delete_other by assumption.
  - intros H. now rewrite keys_JSON_medicines, (delete_absent _ _ H).
Qed.

Lemma deleteMedicine_removes_witness :
  exists st',
    deleteMedicine true store_6 1735800000000 = Ok st'
    /\ own "1735800000000" (stored_medicines st') = None
    /\ exists st'',
         deleteMedicine true st' 1735800000000 = Ok st''
         /\ map fst (stored_medicines st'') = map fst (stored_medicines st').
Proof.
  destruct (deleteMedicine_removes true store_6 1735800000000)
    as (st' & Hdelete & Hgone & _).
  exists st'. split; [exact Hdelete|]. split; [exact Hgone|].
  destruct (deleteMedicine_removes true st' 1735800000000)
    as (st'' & Hagain & _ & _ & Hkeys).
  exists st''. split; [exact Hagain | now apply Hkeys].
Defined.

(** ** What a reachable store holds of the medicines *)

Lemma field_define_same (k : string) (v : value) (o : props value) :
  field k (define k v o) = v.
Proof.
  unfold field. now rewrite own_define_same.
Qed.

Lemma field_define_other (k k' : string) (v : value) (o : props value) :
  k' <> k -> field k' (define k v o) = field k' o.
Proof.
  intros H. unfold field. now rewrite own_define_other.
Qed.

Lemma field_spread (k : string) (p o : props value) :
  distinct_keys p ->
  field k (spread p o)
  = match own k p with Some v => v | None => field k o end.
Proof.
  intros H. unfold field. rewrite (own_spread k p o H).
  now destruct (own k p).
Qed.

Lemma field_spread_nil (k : string) (p : props value) :
  distinct_keys p -> field k (spread p []) = field k p.
Proof.
  intros H. unfold field. now rewrite own_spread_nil.
Qed.

Lemma keys_JSON_props (k : string) (o : props value) :
  In k (map fst (JSON_props o)) -> In k (map fst o).
Proof.
  unfold JSON_props. induction o as [|[k0 v0] rest IH]; simpl; [auto|].
  intros H. rewrite map_app in H. apply in_app_or in H.
  destruct H as [H|H]; [left|right; now apply IH].
  destruct v0; simpl in H; try contradiction; destruct H as [H|[]]; exact H.
Qed.

Lemma distinct_keys_JSON_props (o : props value) :
  distinct_keys o -> distinct_keys (JSON_props o).
Proof.
  unfold distinct_keys.
  induction o as [|[k0 v0] rest IH]; simpl; [auto|].
  intros H. inversion H as [|? ? Hnotin Hrest]; subst.
  specialize (IH Hrest).
  assert (Hfresh : ~ In k0 (map fst (JSON_props rest))).
  { intros Hin. apply Hnotin. now apply keys_JSON_props. }
  unfold JSON_props in *. simpl.
  destruct v0; simpl; try exact IH; now constructor.
Qed.

Lemma counted_JSON (v : value) :
  count_passes 0 v \/ counted v -> counted (JSON_image v).
Proof.
  intros [[|q H| |]|[| |q H]]; simpl; now constructor.
Qed.

Lemma medicine_kept_JSON (m : props value) :
  distinct_keys m ->
  (exists s, field "name" m = VStr s) ->
  count_passes 0 (field "doses_taken" m) \/ counted (field "doses_taken" m) ->
  medicine_kept (JSON_props m).
Proof.
  intros Hkeys [s Hname] Hcount.
  split; [now apply distinct_keys_JSON_props|]. split.
  - exists s. now rewrite (field_JSON_props _ _ Hkeys), Hname.
  - rewrite (field_JSON_props _ _ Hkeys). now apply counted_JSON.
Qed.

Lemma medicine_kept_image (m : props value) :
  medicine_kept m -> medicine_kept (JSON_props m).
Proof.
  intros (H1 & H2 & H3). apply medicine_kept_JSON; auto.
Qed.

Lemma count_passes_or (v : value) :
  count_passes 0 v -> count_passes 0 (or v (VNum (Fin 0))).
Proof.
  intros [|q H| |]; unfold or;
    destruct (ToBoolean _) eqn:E; simpl in E; try discriminate;
    try (now constructor); constructor; apply Qle_refl.
Qed.

Lemma medicineWithId_kept medicine id toISOString :
  distinct_keys medicine ->
  valid_medicine medicine ->
  medicine_kept (JSON_props (medicineWithId medicine id toISOString)).
Proof.
  intros Hkeys ((s & Hname & _) & _ & _ & _ & _ & Hdoses).
  apply medicine_kept_JSON.
  - apply distinct_keys_medicineWithId.
  - exists s. unfold medicineWithId.
    rewrite !field_define_other by discriminate.
    now rewrite field_spread_nil.
  - left. unfold medicineWithId. rewrite field_define_same.
    now apply count_passes_or.
Qed.

Lemma merged_kept old medicine toISOString :
  distinct_keys medicine ->
  valid_medicine medicine ->
  medicine_kept old ->
  medicine_kept (JSON_props (merged old medicine toISOString)).
Proof.
  intros Hkeys ((s & Hname & _) & _ & _ & _ & _ & Hdoses)
    (Hold & _ & Hcounted).
  apply medicine_kept_JSON.
  - apply distinct_keys_merged.
  - exists s. unfold merged.
    rewrite field_define_other by discriminate.
    rewrite (field_spread _ _ _ Hkeys). unfold field in Hname.
    now destruct (own "name" medicine).
  - unfold merged. rewrite field_define_other by discriminate.
    rewrite (field_spread _ _ _ Hkeys). unfold field in Hdoses.
    destruct (own "doses_taken" medicine); [now left|right].
    now rewrite field_spread_nil.
Qed.

(** One more than a count that is not negative: a number that is not
    negative either, or [Infinity]. *)
Lemma add_one_passes (q : Q) :
  0 <= q -> count_passes 0 (VNum (Num.add (Fin q) (Fin 1))).
Proof.
  intros Hq. cbn [Num.add].
  destruct (double_nonneg (q + 1)) as [-> | (r & -> & Hr)];
    [lra|constructor|now constructor].
Qed.

Lemma plus_one_counted (v : value) :
  counted v ->
  plus_one (or v (VNum (Fin 0)))
  = Some (VNum (Num.add (Fin (doses v)) (Fin 1)))
  /\ count_passes 0 (VNum (Num.add (Fin (doses v)) (Fin 1))).
Proof.
  intros [| |q H].
  - split; [reflexivity|]. apply add_one_passes, Qle_refl.
  - split; [reflexivity|]. apply add_one_passes, Qle_refl.
  - split; [|now apply add_one_passes].
    unfold or. cbn [ToBoolean doses].
    destruct (Num.truthy (Fin q)) eqn:E; [reflexivity|].
    apply truthy_Fin in E. cbn [plus_one Num.add]. do 2 f_equal.
    apply double_comp. now rewrite E.
Qed.

Lemma recorded_kept (medicine : props value) (n : number) :
  medicine_kept medicine ->
  count_passes 0 (VNum n) ->
  medicine_kept (JSON_props (define "doses_taken" (VNum n) medicine)).
Proof.
  intros (Hkeys & Hname & _) Hn. apply medicine_kept_JSON.
  - now apply distinct_keys_define.
  - destruct Hname as [s Hs]. exists s.
    now rewrite field_define_other by discriminate.
  - left. now rewrite field_define_same.
Qed.

Lemma In_JSON_medicines k m (medicines : props (props value)) :
  In (k, m) (JSON_medicines medicines) ->
  exists m0, m = JSON_props m0 /\ In (k, m0) medicines.
Proof.
  unfold JSON_medicines. intros H. apply in_map_iff in H.
  destruct H as ([k0 m0] & Heq & Hin). inversion Heq; subst.
  now exists m0.
Qed.

Lemma distinct_keys_delete {A : Type} (k : string) (o : props A) :
  distinct_keys o -> distinct_keys (delete k o).
Proof.
  unfold distinct_keys, delete. apply filter_keeps_distinct.
Qed.

Lemma initDatabase_medicines isWeb st st' :
  initDatabase isWeb st = Ok st' ->
  MEDICINES st' = MEDICINES st
  /\ MEDICINE_DOSE_HISTORY st' = MEDICINE_DOSE_HISTORY st.
Proof.
  unfold initDatabase.
  destruct isWeb, st as [[entries|] [profile|] medicines history];
    storage_simpl; intros H; inversion H; split; reflexivity.
Qed.

Lemma saveUserProfile_medicines isWeb st toISOString profile st' r :
  saveUserProfile isWeb st toISOString profile = Ok (st', r) ->
  MEDICINES st' = MEDICINES st
  /\ MEDICINE_DOSE_HISTORY st' = MEDICINE_DOSE_HISTORY st.
Proof.
  unfold saveUserProfile.
  destruct (0 <? List.length (validateUserProfile profile))%nat;
    [discriminate|].
  destruct isWeb; simpl; intros H; inversion H; split; reflexivity.
Qed.

Lemma initMedicines_medicines isWeb st :
  stored_medicines (initMedicines isWeb st) = stored_medicines st
  /\ stored_history (initMedicines isWeb st) = stored_history st.
Proof.
  unfold initMedicines.
  destruct isWeb, st as [entries profile [medicines|] [history|]];
    split; reflexivity.
Qed.

Lemma recordDoseTaken_unfold isWeb st Date_now toISOString id doseTime :
  recordDoseTaken isWeb st Date_now toISOString id doseTime
  = let history :=
      Some (JSON_items
              (stored_history st
               ++ [doseHistoryEntry Date_now id doseTime toISOString])%list)
    in
    match own (Number_toString id) (stored_medicines st) with
    | Some medicine =>
        match plus_one (or (field "doses_taken" medicine) (VNum (Fin 0))) with
        | Some doses_taken =>
            Some (Ok (with_MEDICINE_DOSE_HISTORY history
                        (with_MEDICINES
                           (Some (JSON_medicines
                                    (update_own (Number_toString id)
                                       (define "doses_taken" doses_taken
                                          medicine)
                                       (stored_medicines st)))) st)))
        | None => None
        end
    | None => Some (Ok (with_MEDICINE_DOSE_HISTORY history st))
    end.
Proof.
  unfold recordDoseTaken.
  destruct isWeb; storage_simpl;
    (destruct (own (Number_toString id) _) as [medicine|];
     [destruct (plus_one _)|]); reflexivity.
Qed.

Lemma reaches_medicines (isWeb : bool) (st : Storage) :
  reaches isWeb st ->
  distinct_keys (stored_medicines st)
  /\ forall k m, In (k, m) (stored_medicines st) -> medicine_kept m.
Proof.
  induction 1 as
    [ | st st' _ IH Hinit
      | st Date_now toISOString d w c s st' r _ IH Hsave
      | st toISOString profile st' r _ IH Hsave
      | st _ IH
      | st Date_now toISOString medicine st' id _ IH Hkeys Hsave
      | st toISOString id medicine st' _ IH Hkeys Hupdate
      | st id st' _ IH Hdelete
      | st Date_now toISOString id doseTime st' _ IH Hrecord ].
  - split; [constructor | intros k m []].
  - unfold stored_medicines in *.
    now rewrite (proj1 (initDatabase_medicines _ _ _ Hinit)).
  - destruct (saveDailyEntry_Ok _ _ _ _ _ _ _ _ _ _ Hsave)
      as (_ & _ & _ & _ & Hmedicines & _).
    unfold stored_medicines in *. now rewrite Hmedicines.
  - unfold stored_medicines in *.
    now rewrite (proj1 (saveUserProfile_medicines _ _ _ _ _ _ Hsave)).
  - now rewrite (proj1 (initMedicines_medicines isWeb st)).
  - rewrite saveMedicine_unfold in Hsave.
    destruct (0 <? List.length (validateMedicine medicine))%nat eqn:E;
      [discriminate|].
    apply validateMedicine_length in E. inversion Hsave; subst; clear Hsave.
    cbn [stored_medicines with_MEDICINES MEDICINES parse_or].
    fold (stored_medicines st). destruct IH as [Hdistinct Hall]. split.
    + unfold distinct_keys. rewrite keys_JSON_medicines.
      now apply distinct_keys_assign.
    + intros k m Hin. apply In_JSON_medicines in Hin.
      destruct Hin as (m0 & -> & Hin). apply In_assign in Hin.
      destruct Hin as [[_ ->]|Hin].
      * now apply medicineWithId_kept.
      * apply medicine_kept_image. now apply (Hall k).
  - rewrite updateMedicine_unfold in Hupdate.
    destruct (0 <? List.length (validateMedicine medicine))%nat eqn:E;
      [discriminate|].
    apply validateMedicine_length in E.
    destruct (own (Number_toString id) (stored_medicines st)) as [old|]
      eqn:Hold; [|discriminate].
    inversion Hupdate; subst; clear Hupdate.
    cbn [stored_medicines with_MEDICINES MEDICINES parse_or].
    fold (stored_medicines st). destruct IH as [Hdistinct Hall]. split.
    + unfold distinct_keys. rewrite keys_JSON_medicines.
      now apply distinct_keys_assign.
    + intros k m Hin. apply In_JSON_medicines in Hin.
      destruct Hin as (m0 & -> & Hin). apply In_assign in Hin.
      destruct Hin as [[_ ->]|Hin].
      * apply merged_kept; try assumption.
        apply (Hall (Number_toString id)). now apply own_In.
      * apply medicine_kept_image. now apply (Hall k).
  - rewrite deleteMedicine_unfold in Hdelete.
    inversion Hdelete; subst; clear Hdelete.
    cbn [stored_medicines with_MEDICINES MEDICINES parse_or].
    fold (stored_medicines st). destruct IH as [Hdistinct Hall]. split.
    + unfold distinct_keys. rewrite keys_JSON_medicines.
      now apply distinct_keys_delete.
    + intros k m Hin. apply In_JSON_medicines in Hin.
      destruct Hin as (m0 & -> & Hin). apply filter_In in Hin.
      apply medicine_kept_image. now apply (Hall k).
  - rewrite recordDoseTaken_unfold in Hrecord. cbv zeta in Hrecord.
    destruct IH as [Hdistinct Hall].
    destruct (own (Number_toString id) (stored_medicines st)) as [medicine|]
      eqn:Hown.
    + pose proof (Hall _ _ (own_In _ _ _ Hown)) as Hkept.
      destruct (plus_one_counted _ (proj2 (proj2 Hkept))) as (Hplus & Hq).
      rewrite Hplus in Hrecord. inversion Hrecord; subst; clear Hrecord.
      cbn [stored_medicines with_MEDICINES with_MEDICINE_DOSE_HISTORY
             MEDICINES parse_or].
      fold (stored_medicines st). split.
      * unfold distinct_keys.
        now rewrite keys_JSON_medicines, keys_update_own.
      * intros k m Hin. apply In_JSON_medicines in Hin.
        destruct Hin as (m0 & -> & Hin). apply In_update_own in Hin.
        destruct Hin as [[_ ->]|Hin].
        -- now apply recorded_kept.
        -- apply medicine_kept_image. now apply (Hall k).
    + inversion Hrecord; subst; clear Hrecord. now split.
Qed.

(** ** What a reachable store holds of the dose history *)

Lemma doseHistoryEntry_kept Date_now id doseTime toISOString :
  dose_kept (JSON_image (doseHistoryEntry Date_now id doseTime toISOString))
  /\ taken_at_of
       (JSON_image (doseHistoryEntry Date_now id doseTime toISOString))
     = Some toISOString.
Proof.
  assert (Htaken :
            taken_at_of
              (JSON_image (doseHistoryEntry Date_now id doseTime toISOString))
            = Some toISOString)
    by (destruct doseTime; reflexivity).
  split; [|exact Htaken]. split; [|now exists toISOString].
  split; [discriminate|apply JSON_image_idempotent].
Qed.

Lemma dose_kept_JSON (history : list value) :
  Forall dose_kept history -> Forall is_JSON history.
Proof.
  apply Forall_impl. now intros e [H _].
Qed.

Lemma JSON_items_push (history : list value) (entry : props value) :
  Forall dose_kept history ->
  JSON_items (history ++ [VObj entry])
  = (history ++ [JSON_image (VObj entry)])%list.
Proof.
  intros H. unfold JSON_items. rewrite map_app.
  fold (JSON_items history).
  now rewrite (JSON_items_fixed history (dose_kept_JSON history H)).
Qed.

Lemma recordDoseTaken_history
  isWeb st Date_now toISOString id doseTime st' :
  Forall dose_kept (stored_history st) ->
  recordDoseTaken isWeb st Date_now toISOString id doseTime = Some (Ok st') ->
  stored_history st'
  = (stored_history st
     ++ [JSON_image (doseHistoryEntry Date_now id doseTime toISOString)])%list.
Proof.
  intros Hkept Hrecord. rewrite recordDoseTaken_unfold in Hrecord.
  cbv zeta in Hrecord.
  destruct (own (Number_toString id) (stored_medicines st));
    [destruct (plus_one _); [|discriminate]|];
    inversion Hrecord; subst; clear Hrecord;
    cbn [stored_history with_MEDICINES with_MEDICINE_DOSE_HISTORY
           MEDICINE_DOSE_HISTORY parse_or];
    fold (stored_history st); unfold doseHistoryEntry;
    now rewrite JSON_items_push.
Qed.

Lemma reaches_history (isWeb : bool) (st : Storage) :
  reaches isWeb st -> Forall dose_kept (stored_history st).
Proof.
  induction 1 as
    [ | st st' _ IH Hinit
      | st Date_now toISOString d w c s st' r _ IH Hsave
      | st toISOString profile st' r _ IH Hsave
      | st _ IH
      | st Date_now toISOString medicine st' id _ IH Hkeys Hsave
      | st toISOString id medicine st' _ IH Hkeys Hupdate
      | st id st' _ IH Hdelete
      | st Date_now toISOString id doseTime st' _ IH Hrecord ].
  - constructor.
  - unfold stored_history in *.
    now rewrite (proj2 (initDatabase_medicines _ _ _ Hinit)).
  - destruct (saveDailyEntry_Ok _ _ _ _ _ _ _ _ _ _ Hsave)
      as (_ & _ & _ & _ & _ & Hhistory).
    unfold stored_history in *. now rewrite Hhistory.
  - unfold stored_history in *.
    now rewrite (proj2 (saveUserProfile_medicines _ _ _ _ _ _ Hsave)).
  - now rewrite (proj2 (initMedicines_medicines isWeb st)).
  - unfold stored_history in *.
    now rewrite (proj2 (proj2 (saveMedicine_entries _ _ _ _ _ _ _ Hsave))).
  - unfold stored_history in *.
    now rewrite (proj2 (proj2 (updateMedicine_entries _ _ _ _ _ _ Hupdate))).
  - rewrite deleteMedicine_unfold in Hdelete.
    inversion Hdelete; subst. exact IH.
  - rewrite (recordDoseTaken_history _ _ _ _ _ _ _ IH Hrecord).
    apply Forall_app. split; [exact IH|].
    constructor; [|constructor]. apply doseHistoryEntry_kept.
Qed.

Lemma store_5_reaches : reaches true store_5.
Proof.
  apply (reaches_saveMedicine true (initMedicines true store_2)
           1735800000000 "2025-01-02T06:40:00.000Z" aspirin store_5
           1735800000000);
    [|exact aspirin_distinct|reflexivity].
  apply reaches_initMedicines. exact store_2_reaches.
Defined.

Lemma store_6_reaches : reaches true store_6.
Proof.
  apply (reaches_recordDoseTaken true store_5 1735804800000
           "2025-01-02T08:00:00.000Z" 1735800000000 (VNum (Fin 8)) store_6);
    [exact store_5_reaches|reflexivity].
Defined.

(** X12. In a reachable store that holds a medicine under the id,
    [recordDoseTaken] resolves and counts the dose: the medicine's
    [doses_taken] becomes what JSON keeps of the stored count plus one, the
    sum being the one of double arithmetic (a count that is absent or
    [null] stands for zero), whatever [total_doses] says; for a stored
    count that is an integer below [2 ^ 53 - 1] that is the next integer.
    The medicine's other properties and the other medicines are kept as
    they were stored, and the history gains the one entry of the dose at
    its end. *)
Theorem recordDoseTaken_increments
  (isWeb : bool) (st : Storage) (Date_now : Z) (toISOString : string)
  (id : Z) (doseTime : value) (medicine : props value) :
  reaches isWeb st ->
  own (Number_toString id) (stored_medicines st) = Some medicine ->
  exists st' kept,
    recordDoseTaken isWeb st Date_now toISOString id doseTime
    = Some (Ok st')
    /\ own (Number_toString id) (stored_medicines st') = Some kept
    /\ field "doses_taken" kept
       = JSON_image
           (VNum (Num.add (Fin (doses (field "doses_taken" medicine)))
                    (Fin 1)))
    /\ (forall z,
          (0 <= z < 2 ^ 53 - 1)%Z ->
          doses (field "doses_taken" medicine) == inject_Z z ->
          field "doses_taken" kept = VNum (Fin (inject_Z (z + 1))))
    /\ (forall k,
          k <> "doses_taken" ->
          own k kept = JSON_property (own k medicine))
    /\ (forall k,
          k <> Number_toString id ->
          own k (stored_medicines st')
          = option_map JSON_props (own k (stored_medicines st)))
    /\ stored_history st'
       = (stored_history st
          ++ [JSON_image
                (doseHistoryEntry Date_now id doseTime toISOString)])%list.
Proof.
  intros Hreaches Hown.
  destruct (reaches_medicines isWeb st Hreaches) as [_ Hall].
  pose proof (Hall _ _ (own_In _ _ _ Hown)) as (Hkeys & _ & Hcounted).
  destruct (plus_one_counted _ Hcounted) as (Hplus & _).
  pose proof (recordDoseTaken_history isWeb st Date_now toISOString id
                doseTime) as Hhistory.
  rewrite recordDoseTaken_unfold in *. cbv zeta in *.
  rewrite Hown, Hplus in *.
  set (n := Num.add (Fin (doses (field "doses_taken" medicine))) (Fin 1))
    in *.
  assert (Hdistinct :
            distinct_keys (define "doses_taken" (VNum n) medicine))
    by now apply distinct_keys_define.
  assert (Hfield :
            field "doses_taken"
              (JSON_props (define "doses_taken" (VNum n) medicine))
            = JSON_image (VNum n)).
  { rewrite (field_JSON_props _ _ Hdistinct).
    now rewrite field_define_same. }
  eexists.
  exists (JSON_props (define "doses_taken" (VNum n) medicine)).
  split; [reflexivity|].
  split; [|split; [|split; [|split; [|split]]]].
  - cbn [stored_medicines with_MEDICINES with_MEDICINE_DOSE_HISTORY
           MEDICINES parse_or].
    fold (stored_medicines st).
    rewrite own_JSON_medicines, own_update_same; [reflexivity|].
    now apply has_own_Some with (a := medicine).
  - exact Hfield.
  - intros z Hz Hdoses. rewrite Hfield. subst n. cbn [Num.add].
    rewrite (double_comp _ (inject_Z (z + 1)))
      by (rewrite Hdoses, inject_Z_plus; reflexivity).
    rewrite double_integer by lia. reflexivity.
  - intros k Hk. rewrite (own_JSON_props _ _ Hdistinct).
    now rewrite own_define_other by assumption.
  - intros k Hk.
    cbn [stored_medicines with_MEDICINES with_MEDICINE_DOSE_HISTORY
           MEDICINES parse_or].
    fold (stored_medicines st).
    rewrite own_JSON_medicines.
    now rewrite own_update_other by assumption.
  - apply Hhistory; [|reflexivity].
    now apply (reaches_history isWeb).
Qed.

Lemma recordDoseTaken_increments_witness :
  reaches true store_5
  /\ exists st' kept,
       recordDoseTaken true store_5 1735804800000
         "2025-01-02T08:00:00.000Z" 1735800000000 (VNum (Fin 8))
       = Some (Ok st')
       /\ own "1735800000000" (stored_medicines st') = Some kept
       /\ field "doses_taken" kept = VNum (Fin 1).
Proof.
  split; [exact store_5_reaches|].
  destruct (recordDoseTaken_increments true store_5 1735804800000
              "2025-01-02T08:00:00.000Z" 1735800000000 (VNum (Fin 8))
              (match own "1735800000000" (stored_medicines store_5) with
               | Some medicine => medicine
               | None => []
               end)
              store_5_reaches eq_refl)
    as (st' & kept & Hrecord & Hown & _ & Hdoses & _).
  exists st', kept. split; [exact Hrecord|]. split; [exact Hown|].
  apply (Hdoses 0%Z); [split; [lia|reflexivity]|reflexivity].
Defined.

(** Past [2 ^ 53] the count no longer moves: [2 ^ 53 + 1] is no double,
    and the sum is rounded back to [2 ^ 53]. *)
Example plus_one_saturates :
  plus_one (VNum (Fin 9007199254740992))
  = Some (VNum (Fin 9007199254740992)).
Proof.
  vm_compute. reflexivity.
Qed.

(** X13. On a reachable store [recordDoseTaken] resolves for every id and
    every dose time: the history gains the one entry of the dose at its
    end also when no medicine is stored under the id, in which case the
    medicines are left as they are. *)
Theorem recordDoseTaken_resolves
  (isWeb : bool) (st : Storage) (Date_now : Z) (toISOString : string)
  (id : Z) (doseTime : value) :
  reaches isWeb st ->
  exists st',
    recordDoseTaken isWeb st Date_now toISOString id doseTime
    = Some (Ok st')
    /\ stored_history st'
       = (stored_history st
          ++ [JSON_image
                (doseHistoryEntry Date_now id doseTime toISOString)])%list
    /\ (own (Number_toString id) (stored_medicines st) = None ->
        MEDICINES st' = MEDICINES st).
Proof.
  intros Hreaches.
  destruct (reaches_medicines isWeb st Hreaches) as [_ Hall].
  pose proof (reaches_history isWeb st Hreaches) as Hkept.
  pose proof (recordDoseTaken_history isWeb st Date_now toISOString id
                doseTime) as Hhistory.
  rewrite recordDoseTaken_unfold in *. cbv zeta in *.
  destruct (own (Number_toString id) (stored_medicines st)) as [medicine|]
    eqn:Hown.
  - pose proof (Hall _ _ (own_In _ _ _ Hown)) as (_ & _ & Hcounted).
    destruct (plus_one_counted _ Hcounted) as (Hplus & _).
    rewrite Hplus in *. eexists. split; [reflexivity|].
    split; [now apply Hhistory|discriminate].
  - eexists. split; [reflexivity|]. split; [now apply Hhistory|reflexivity].
Qed.

Lemma recordDoseTaken_resolves_witness :
  reaches true store_5
  /\ exists st',
       recordDoseTaken true store_5 1735804800000
         "2025-01-02T08:00:00.000Z" 7 (VNum (Fin 8)) = Some (Ok st')
       /\ MEDICINES st' = MEDICINES store_5.
Proof.
  split; [exact store_5_reaches|].
  destruct (recordDoseTaken_resolves true store_5 1735804800000
              "2025-01-02T08:00:00.000Z" 7 (VNum (Fin 8)) store_5_reaches)
    as (st' & Hrecord & _ & Hmedicines).
  exists st'. split; [exact Hrecord|]. now apply Hmedicines.
Defined.

(** ** Reading the medicines and the history *)

Lemma getAllMedicines_unfold isWeb localeCompare st :
  getAllMedicines isWeb localeCompare st
  = let values := Object_values (stored_medicines st) in
    if (List.length values <=? 1)%nat then Some values
    else if forallb (fun m => is_some (name_of m)) values
         then Some (Array_sort (by_name localeCompare) values)
         else None.
Proof.
  unfold getAllMedicines. now destruct isWeb.
Qed.

Lemma getDoseHistory_unfold isWeb localeCompare st limit :
  getDoseHistory isWeb localeCompare st limit
  = let limit := match limit with Some l => l | None => 50%Z end in
    let history := stored_history st in
    if (List.length history <=? 1)%nat then Some (slice_to limit history)
    else if forallb (fun e => is_some (taken_at_of e)) history
         then Some (slice_to limit
                      (Array_sort (by_taken_at_desc localeCompare) history))
         else None.
Proof.
  unfold getDoseHistory. now destruct isWeb.
Qed.

Lemma Array_sort_short {A : Type} (comparefn : A -> A -> Z) (l : list A) :
  (List.length l <=? 1)%nat = true -> Array_sort comparefn l = l.
Proof.
  destruct l as [|x [|y rest]]; try reflexivity. discriminate.
Qed.

Lemma by_name_sorted localeCompare (l : list (props value)) :
  consistent localeCompare ->
  StronglySorted (before (by_name localeCompare))
    (Array_sort (by_name localeCompare) l).
Proof.
  intros C. apply Sorted_StronglySorted.
  - intros x y z. apply (consistent_trans localeCompare C).
  - apply Array_sort_Sorted. intros x y H. unfold by_name in *.
    pose proof (consistent_total localeCompare C _ _ H). lia.
Qed.

Lemma by_taken_at_desc_sorted localeCompare (l : list value) :
  consistent localeCompare ->
  StronglySorted (before (by_taken_at_desc localeCompare))
    (Array_sort (by_taken_at_desc localeCompare) l).
Proof.
  intros C. apply Sorted_StronglySorted.
  - intros x y z Hxy Hyz. unfold before, by_taken_at_desc in *.
    now apply (consistent_trans localeCompare C)
      with (b := text (taken_at_of y)).
  - apply Array_sort_Sorted. intros x y H. unfold by_taken_at_desc in *.
    pose proof (consistent_total localeCompare C _ _ H). lia.
Qed.

Lemma reaches_names isWeb st :
  reaches isWeb st ->
  forallb (fun m => is_some (name_of m)) (Object_values (stored_medicines st))
  = true.
Proof.
  intros H. destruct (reaches_medicines isWeb st H) as [_ Hall].
  apply forallb_forall. intros m Hin. unfold Object_values in Hin.
  apply in_map_iff in Hin. destruct Hin as ([k m'] & <- & Hin).
  destruct (Hall k m' Hin) as (_ & [s Hs] & _).
  unfold name_of. simpl. now rewrite Hs.
Qed.

Lemma reaches_taken_at isWeb st :
  reaches isWeb st ->
  forallb (fun e => is_some (taken_at_of e)) (stored_history st) = true.
Proof.
  intros H. pose proof (reaches_history isWeb st H) as Hkept.
  apply forallb_forall. intros e Hin.
  rewrite Forall_forall in Hkept. destruct (Hkept e Hin) as [_ [s Hs]].
  now rewrite Hs.
Qed.

(** X14. On a reachable store [getAllMedicines] returns every stored
    medicine once, in the order of their names as [localeCompare] gives
    it. *)
Theorem getAllMedicines_sorted
  (isWeb : bool) (localeCompare : string -> string -> Z) (st : Storage) :
  consistent localeCompare ->
  reaches isWeb st ->
  exists found,
    getAllMedicines isWeb localeCompare st = Some found
    /\ Permutation found (Object_values (stored_medicines st))
    /\ StronglySorted
         (fun a b =>
            (localeCompare (text (name_of a)) (text (name_of b)) <= 0)%Z)
         found.
Proof.
  intros C H.
  exists (Array_sort (by_name localeCompare)
            (Object_values (stored_medicines st))).
  split; [|split].
  - rewrite getAllMedicines_unfold. cbv zeta.
    rewrite (reaches_names isWeb st H).
    destruct (List.length (Object_values (stored_medicines st)) <=? 1)%nat
      eqn:E; [|reflexivity].
    now rewrite (Array_sort_short _ _ E).
  - apply Array_sort_Permutation.
  - now apply by_name_sorted.
Qed.

Lemma getAllMedicines_sorted_witness :
  consistent codeunit_compare
  /\ reaches true store_6
  /\ exists found,
       getAllMedicines true codeunit_compare store_6 = Some found
       /\ Permutation found (Object_values (stored_medicines store_6)).
Proof.
  split; [exact codeunit_compare_consistent|].
  split; [exact store_6_reaches|].
  destruct (getAllMedicines_sorted true codeunit_compare store_6
              codeunit_compare_consistent store_6_reaches)
    as (found & Hget & Hperm & _).
  exists found. split; [exact Hget|exact Hperm].
Defined.

Lemma slice_to_begins {A : Type} (limit : Z) (l : list A) :
  begins (slice_to limit l) l.
Proof.
  unfold slice_to, begins. cbv zeta.
  match goal with |- context [firstn ?n l] => exists (skipn n l) end.
  symmetry. apply firstn_skipn.
Qed.

Lemma slice_to_length {A : Type} (limit : Z) (l : list A) :
  Z.of_nat (List.length (slice_to limit l))
  = if (limit <? 0)%Z
    then Z.max (Z.of_nat (List.length l) + limit) 0
    else Z.min limit (Z.of_nat (List.length l)).
Proof.
  unfold slice_to. cbv zeta. rewrite length_firstn.
  destruct (Z.ltb_spec limit 0); lia.
Qed.

(** X15. On a reachable store [getDoseHistory] returns the beginning of
    the history put in the order of [taken_at], the latest first: the
    result followed by what is left out holds every dose once and is
    sorted.  With a limit that is not negative it returns that many doses,
    or all when there are fewer; a negative limit leaves out that many of
    the earliest doses instead; and no limit stands for 50. *)
Theorem getDoseHistory_latest_first
  (isWeb : bool) (localeCompare : string -> string -> Z) (st : Storage)
  (limit : option Z) :
  consistent localeCompare ->
  reaches isWeb st ->
  exists found rest,
    getDoseHistory isWeb localeCompare st limit = Some found
    /\ Permutation (found ++ rest) (stored_history st)
    /\ StronglySorted
         (fun a b =>
            (localeCompare (text (taken_at_of b)) (text (taken_at_of a))
             <= 0)%Z)
         (found ++ rest)
    /\ let n := Z.of_nat (List.length (stored_history st)) in
       let l := match limit with Some l => l | None => 50%Z end in
       Z.of_nat (List.length found)
       = if (l <? 0)%Z then Z.max (n + l) 0 else Z.min l n.
Proof.
  intros C H.
  set (l := match limit with Some l => l | None => 50%Z end).
  set (sorted := Array_sort (by_taken_at_desc localeCompare)
                   (stored_history st)).
  destruct (slice_to_begins l sorted) as [rest Hrest].
  exists (slice_to l sorted), rest. rewrite <- Hrest.
  split; [|split; [|split]].
  - rewrite getDoseHistory_unfold. cbv zeta. fold l.
    rewrite (reaches_taken_at isWeb st H).
    destruct (List.length (stored_history st) <=? 1)%nat eqn:E;
      [|reflexivity].
    unfold sorted. now rewrite (Array_sort_short _ _ E).
  - apply Array_sort_Permutation.
  - now apply by_taken_at_desc_sorted.
  - cbv zeta. rewrite slice_to_length. unfold sorted.
    now rewrite Array_sort_length.
Qed.

Lemma getDoseHistory_latest_first_witness :
  consistent codeunit_compare
  /\ reaches true store_6
  /\ exists found,
       getDoseHistory true codeunit_compare store_6 (Some 1%Z) = Some found
       /\ Z.of_nat (List.length found) = 1%Z.
Proof.
  split; [exact codeunit_compare_consistent|].
  split; [exact store_6_reaches|].
  destruct (getDoseHistory_latest_first true codeunit_compare store_6
              (Some 1%Z) codeunit_compare_consistent store_6_reaches)
    as (found & rest & Hget & _ & _ & Hlength).
  exists found. split; [exact Hget|exact Hlength].
Defined.

Lemma recordDoseTaken_reaches
  isWeb st Date_now toISOString id doseTime :
  reaches isWeb st ->
  exists st',
    recordDoseTaken isWeb st Date_now toISOString id doseTime
    = Some (Ok st')
    /\ reaches isWeb st'
    /\ stored_history st'
       = (stored_history st
          ++ [JSON_image
                (doseHistoryEntry Date_now id doseTime toISOString)])%list.
Proof.
  intros Hreaches.
  destruct (reaches_medicines isWeb st Hreaches) as [_ Hall].
  assert (Hsome :
            exists st',
              recordDoseTaken isWeb st Date_now toISOString id doseTime
              = Some (Ok st')).
  { rewrite recordDoseTaken_unfold. cbv zeta.
    destruct (own (Number_toString id) (stored_medicines st))
      as [medicine|] eqn:Hown; [|eauto].
    pose proof (Hall _ _ (own_In _ _ _ Hown)) as (_ & _ & Hcounted).
    destruct (plus_one_counted _ Hcounted) as (Hplus & _).
    rewrite Hplus. eauto. }
  destruct Hsome as [st' Hrecord]. exists st'.
  split; [exact Hrecord|]. split.
  - exact (reaches_recordDoseTaken isWeb st Date_now toISOString id doseTime
             st' Hreaches Hrecord).
  - apply (recordDoseTaken_history isWeb st Date_now toISOString id doseTime);
      [now apply (reaches_history isWeb)|exact Hrecord].
Qed.

Lemma consistent_later cmp (a b : string) :
  consistent cmp -> (cmp a b < 0)%Z -> (0 < cmp b a)%Z.
Proof.
  intros C Hab.
  destruct (Z.compare_spec (cmp b a) 0) as [Heq|Hlt|Hgt]; [| |exact Hgt].
  - apply (cmp_sym cmp C) in Heq. lia.
  - pose proof (cmp_trans_lt cmp C a b a Hab Hlt) as H.
    pose proof (cmp_refl cmp C a). lia.
Qed.

Lemma latest_first
  localeCompare (history sorted : list value) (entry : value) :
  consistent localeCompare ->
  (forall e,
     In e history ->
     (localeCompare (text (taken_at_of e)) (text (taken_at_of entry))
      < 0)%Z) ->
  Permutation sorted (history ++ [entry]) ->
  StronglySorted (before (by_taken_at_desc localeCompare)) sorted ->
  exists rest, sorted = entry :: rest.
Proof.
  intros C Hlater Hperm Hsorted.
  destruct sorted as [|h rest].
  - apply Permutation_nil in Hperm. now destruct history.
  - exists rest.
    assert (Hh : In h (history ++ [entry]))
      by (apply (Permutation_in _ Hperm); now left).
    apply in_app_or in Hh. destruct Hh as [Hh|[Hh|[]]]; [|now subst].
    exfalso.
    assert (He : In entry (h :: rest)).
    { apply (Permutation_in _ (Permutation_sym Hperm)).
      apply in_or_app. right. now left. }
    pose proof (consistent_later localeCompare _ _ C (Hlater h Hh)) as Hgt.
    destruct He as [He|He].
    + subst h. pose proof (cmp_refl localeCompare C (text (taken_at_of entry))).
      lia.
    + inversion Hsorted as [|? ? _ Hall]; subst.
      rewrite Forall_forall in Hall. specialize (Hall entry He).
      unfold before, by_taken_at_desc in Hall. lia.
Qed.

Lemma slice_to_one {A : Type} (x : A) (l : list A) :
  slice_to 1 (x :: l) = [x].
Proof.
  unfold slice_to. cbv zeta. cbn [List.length].
  replace (if (1 <? 0)%Z
           then Z.max (Z.of_nat (S (List.length l)) + 1) 0
           else Z.min 1 (Z.of_nat (S (List.length l)))) with 1%Z;
    [reflexivity|].
  change (1 <? 0)%Z with false. cbv iota. lia.
Qed.

(** X16. A dose recorded on a reachable store at a time later than every
    dose of the history is the one that [getDoseHistory] returns first:
    with the limit 1 the history read afterwards is that dose alone. *)
Theorem getDoseHistory_after_recordDoseTaken
  (isWeb : bool) (localeCompare : string -> string -> Z) (st : Storage)
  (Date_now : Z) (toISOString : string) (id : Z) (doseTime : value) :
  consistent localeCompare ->
  reaches isWeb st ->
  (forall e,
     In e (stored_history st) ->
     (localeCompare (text (taken_at_of e)) toISOString < 0)%Z) ->
  exists st',
    recordDoseTaken isWeb st Date_now toISOString id doseTime
    = Some (Ok st')
    /\ getDoseHistory isWeb localeCompare st' (Some 1%Z)
       = Some [JSON_image
                 (doseHistoryEntry Date_now id doseTime toISOString)].
Proof.
  intros C Hreaches Hlater.
  destruct (recordDoseTaken_reaches isWeb st Date_now toISOString id
              doseTime Hreaches) as (st' & Hrecord & Hreaches' & Hhistory).
  exists st'. split; [exact Hrecord|].
  rewrite getDoseHistory_unfold. cbv zeta.
  rewrite (reaches_taken_at isWeb st' Hreaches'), Hhistory.
  set (entry := JSON_image
                  (doseHistoryEntry Date_now id doseTime toISOString)).
  set (sorted := Array_sort (by_taken_at_desc localeCompare)
                   (stored_history st ++ [entry])).
  assert (Hfirst : exists rest, sorted = entry :: rest).
  { apply (latest_first localeCompare (stored_history st)); try assumption.
    - intros e He. unfold entry.
      rewrite (proj2 (doseHistoryEntry_kept Date_now id doseTime
                        toISOString)).
      now apply Hlater.
    - apply Array_sort_Permutation.
    - now apply by_taken_at_desc_sorted. }
  destruct Hfirst as [rest Hrest].
  destruct (List.length (stored_history st ++ [entry]) <=? 1)%nat eqn:E.
  - rewrite <- (Array_sort_short (by_taken_at_desc localeCompare) _ E).
    fold sorted. now rewrite Hrest, slice_to_one.
  - now rewrite Hrest, slice_to_one.
Qed.

Lemma getDoseHistory_after_recordDoseTaken_witness :
  consistent codeunit_compare
  /\ reaches true store_6
  /\ exists st',
       recordDoseTaken true store_6 1735848000000
         "2025-01-02T20:00:00.000Z" 1735800000000 (VNum (Fin 20))
       = Some (Ok st')
       /\ getDoseHistory true codeunit_compare st' (Some 1%Z)
          = Some [JSON_image
                    (doseHistoryEntry 1735848000000 1735800000000
                       (VNum (Fin 20)) "2025-01-02T20:00:00.000Z")].
Proof.
  split; [exact codeunit_compare_consistent|].
  split; [exact store_6_reaches|].
  apply (getDoseHistory_after_recordDoseTaken true codeunit_compare store_6
           1735848000000 "2025-01-02T20:00:00.000Z" 1735800000000
           (VNum (Fin 20)) codeunit_compare_consistent store_6_reaches).
  intros e [<-|[]]. reflexivity.
Defined.

(** * Achievements and insights *)

Lemma In_when {A : Type} (x y : A) (test : bool) :
  In x (if test then [y] else []) <-> test = true /\ y = x.
Proof.
  destruct test; simpl; intuition discriminate.
Qed.

Lemma In_band {A : Type} (x y z : A) (low high : bool) :
  In x (if low then [y] else if high then [z] else [])
  <-> (low = true /\ y = x) \/ (low = false /\ high = true /\ z = x).
Proof.
  destruct low, high; simpl; intuition discriminate.
Qed.

Lemma achieved_getAchievements (currentData : Averages)
  (goals : Insights.Goals.t) :
  achieved (Insights.getAchievements currentData goals)
  = ((if Insights.ge (water currentData) (Insights.Goals.water goals)
      then ["water_goal"] else [])
     ++ (if Insights.ge (calories currentData)
              (Insights.Goals.calories goals)
         then ["calorie_goal"] else [])
     ++ (if Insights.ge (steps currentData) (Insights.Goals.steps goals)
         then ["step_goal"] else [])
     ++ (if Insights.ge (daysTracked currentData) (Fin 7)
         then ["week_streak"] else [])
     ++ (if Insights.ge (daysTracked currentData) (Fin 30)
         then ["month_streak"] else []))%list.
Proof.
  unfold achieved, Insights.getAchievements, Insights.push_when.
  destruct (Insights.ge (water currentData) _),
    (Insights.ge (calories currentData) _),
    (Insights.ge (steps currentData) _),
    (Insights.ge (daysTracked currentData) (Fin 7)),
    (Insights.ge (daysTracked currentData) (Fin 30)); reflexivity.
Qed.

Lemma advised_push_band progress low high insights :
  advised (Insights.push_band progress low high insights)
  = (advised insights
     ++ (if Num.lt progress (Fin 50) then [Insights.Insight.type low]
         else if Insights.ge progress (Fin 100)
              then [Insights.Insight.type high]
              else []))%list.
Proof.
  unfold advised, Insights.push_band.
  destruct (Num.lt progress (Fin 50));
    [|destruct (Insights.ge progress (Fin 100))];
    rewrite ?map_app, ?app_nil_r; reflexivity.
Qed.

Lemma advised_getInsights (currentData : Averages)
  (goals : Insights.Goals.t) (trend : string) :
  let band progress low high :=
    if Num.lt progress (Fin 50) then [low]
    else if Insights.ge progress (Fin 100) then [high] else [] in
  advised (Insights.getInsights currentData goals trend)
  = (band (calculateProgress (water currentData)
             (Insights.Goals.water goals))
       "water_low" "water_excellent"
     ++ band (calculateProgress (calories currentData)
                (Insights.Goals.calories goals))
          "calories_low" "calories_good"
     ++ band (calculateProgress (steps currentData)
                (Insights.Goals.steps goals))
          "steps_low" "steps_excellent"
     ++ (if trend =? "improving" then ["trend_positive"]
         else if trend =? "declining" then ["trend_negative"] else []))%list.
Proof.
  cbv zeta. unfold Insights.getInsights. cbv zeta.
  assert (Htrend :
            forall insights : list Insights.Insight.t,
              advised
                (if trend =? "improving"
                 then (insights
                       ++ [{| Insights.Insight.type := "trend_positive";
                              Insights.Insight.message :=
                                "📈 You're on an upward trend! Keep up the great progress.";
                              Insights.Insight.category := "motivation" |}])
                 else if trend =? "declining"
                 then (insights
                       ++ [{| Insights.Insight.type := "trend_negative";
                              Insights.Insight.message :=
                                "📉 Progress has slowed down. Consider adjusting your goals or routine.";
                              Insights.Insight.category := "motivation" |}])
                 else insights)%list
              = (advised insights
                 ++ (if trend =? "improving" then ["trend_positive"]
                     else if trend =? "declining" then ["trend_negative"]
                          else []))%list).
  { intros insights. unfold advised.
    destruct (trend =? "improving"); [|destruct (trend =? "declining")];
      rewrite ?map_app, ?app_nil_r; reflexivity. }
  rewrite Htrend, !advised_push_band.
  cbn [advised map Insights.Insight.type app].
  now rewrite <- !app_assoc.
Qed.

Lemma ge_7_of_30 (days : number) :
  Insights.ge days (Fin 30) = true -> Insights.ge days (Fin 7) = true.
Proof.
  destruct days as [| |q|]; try discriminate; try reflexivity.
  unfold Insights.ge. simpl. rewrite !negb_involutive.
  rewrite !Qle_bool_iff. intros H. lra.
Qed.

(** X17. Whoever earns the badge of a month of tracking earns the badge
    of a week as well, and [getAchievements] grants no badge twice. *)
Theorem getAchievements_streaks (currentData : Averages)
  (goals : Insights.Goals.t) :
  let types := achieved (Insights.getAchievements currentData goals) in
  (In "month_streak" types -> In "week_streak" types) /\ NoDup types.
Proof.
  cbv zeta. rewrite achieved_getAchievements.
  pose proof (ge_7_of_30 (daysTracked currentData)) as Hweek.
  destruct (Insights.ge (water currentData) _),
    (Insights.ge (calories currentData) _),
    (Insights.ge (steps currentData) _),
    (Insights.ge (daysTracked currentData) (Fin 30)),
    (Insights.ge (daysTracked currentData) (Fin 7));
    try (specialize (Hweek eq_refl); discriminate);
    (split; [simpl; intuition discriminate
            |repeat constructor; simpl; intuition discriminate]).
Qed.

Lemma getAchievements_streaks_witness :
  let types :=
    achieved
      (Insights.getAchievements
         {| water := Fin 1000; calories := Fin 2100; steps := Fin 4000;
            daysTracked := Fin 31 |}
         {| Insights.Goals.water := Fin 2000;
            Insights.Goals.calories := Fin 2000;
            Insights.Goals.steps := Fin 10000 |}) in
  In "week_streak" types /\ NoDup types.
Proof.
  cbv zeta.
  destruct (getAchievements_streaks
              {| water := Fin 1000; calories := Fin 2100; steps := Fin 4000;
                 daysTracked := Fin 31 |}
              {| Insights.Goals.water := Fin 2000;
                 Insights.Goals.calories := Fin 2000;
                 Insights.Goals.steps := Fin 10000 |})
    as [Hweek Hnodup].
  split; [|exact Hnodup].
  apply Hweek. right. right. left. reflexivity.
Defined.

Lemma lt_Z (z k : Z) :
  Num.lt (Fin (inject_Z z)) (Fin (inject_Z k)) = (z <? k)%Z.
Proof.
  simpl. destruct (Z.ltb_spec z k) as [H|H].
  - apply negb_true_iff.
    destruct (Qle_bool (inject_Z k) (inject_Z z)) eqn:E; [|reflexivity].
    apply Qle_bool_iff in E. rewrite <- Zle_Qle in E. lia.
  - apply negb_false_iff, Qle_bool_iff. now rewrite <- Zle_Qle.
Qed.

Lemma ge_Z (z k : Z) :
  Insights.ge (Fin (inject_Z z)) (Fin (inject_Z k)) = (k <=? z)%Z.
Proof.
  unfold Insights.ge. rewrite lt_Z.
  destruct (Z.ltb_spec z k), (Z.leb_spec k z); simpl; try reflexivity; lia.
Qed.

Lemma ge_Fin (a b : Q) : Insights.ge (Fin a) (Fin b) = true <-> b <= a.
Proof.
  unfold Insights.ge. simpl. rewrite negb_involutive. apply Qle_bool_iff.
Qed.

Lemma lt_Fin (a b : Q) : Num.lt (Fin a) (Fin b) = true <-> a < b.
Proof.
  simpl. rewrite negb_true_iff. split.
  - intros E. apply Qnot_le_lt. intros H. apply Qle_bool_iff in H.
    congruence.
  - intros H. destruct (Qle_bool b a) eqn:E; [|reflexivity].
    apply Qle_bool_iff in E. lra.
Qed.

Lemma Qfloor_lt (x : Q) (k : Z) : (Qfloor x < k)%Z <-> x < inject_Z k.
Proof.
  split; intros H.
  - apply Qlt_le_trans with (inject_Z (Qfloor x + 1)); [apply Qlt_floor|].
    rewrite <- Zle_Qle. lia.
  - destruct (Z.lt_ge_cases (Qfloor x) k) as [Hlt|Hge]; [exact Hlt|].
    exfalso. apply (Qlt_irrefl x).
    apply Qlt_le_trans with (inject_Z k); [exact H|].
    apply Qle_trans with (inject_Z (Qfloor x)); [|apply Qfloor_le].
    now rewrite <- Zle_Qle.
Qed.

(** The progress is below 50 exactly when the percentage is below 49.5. *)
Lemma progress_low (c g : Q) :
  0 < g ->
  Num.lt (calculateProgress (Fin c) (Fin g)) (Fin 50) = true
  <-> Num.lt (percentage c g) (Fin (99 # 2)) = true.
Proof.
  intros Hg. rewrite calculateProgress_percentage by lra.
  destruct (percentage c g) as [| |p|]; try reflexivity.
  change (Fin 50) with (Fin (inject_Z 50)). rewrite lt_Z, Z.ltb_lt, lt_Fin.
  rewrite Z.min_lt_iff, Qfloor_lt. change (inject_Z 50) with 50. split.
  - intros [H|H]; [lra|lia].
  - intros H. left. lra.
Qed.

(** The progress is 100 exactly when the percentage is 99.5 at least. *)
Lemma progress_high (c g : Q) :
  0 < g ->
  Insights.ge (calculateProgress (Fin c) (Fin g)) (Fin 100) = true
  <-> Insights.ge (percentage c g) (Fin (199 # 2)) = true.
Proof.
  intros Hg. rewrite calculateProgress_percentage by lra.
  destruct (percentage c g) as [| |p|]; try reflexivity.
  change (Fin 100) with (Fin (inject_Z 100)) at 1.
  rewrite ge_Z, Z.leb_le, ge_Fin, Z.min_glb_iff.
  pose proof (Qfloor_lt (p + (1 # 2)) 100) as Hfloor.
  change (inject_Z 100) with 100 in Hfloor. split.
  - intros [H _]. apply Qnot_lt_le. intros Hlt.
    assert (Hx : p + (1 # 2) < 100) by lra. apply Hfloor in Hx. lia.
  - intros H. split; [|lia].
    destruct (Z.lt_ge_cases (Qfloor (p + (1 # 2))) 100) as [Hlt|Hge];
      [|lia].
    exfalso. apply Hfloor in Hlt. lra.
Qed.

Lemma percentage_apart (p : number) :
  Num.lt p (Fin (99 # 2)) = true ->
  Insights.ge p (Fin (199 # 2)) = true -> False.
Proof.
  destruct p as [| |p|]; try discriminate.
  rewrite lt_Fin, ge_Fin. lra.
Qed.

(** X18. With a water goal of zero the two functions disagree: whatever
    amount is logged, [getAchievements] grants the badge of the water goal
    and [getInsights] still gives the advice for a low intake, because
    [calculateProgress] returns 0 for a goal of zero. *)
Theorem zero_goal_badge_and_advice
  (currentData : Averages) (goals : Insights.Goals.t) (trend : string)
  (c g : Q) :
  water currentData = Fin c ->
  Insights.Goals.water goals = Fin g ->
  0 <= c ->
  g == 0 ->
  In "water_goal" (achieved (Insights.getAchievements currentData goals))
  /\ In "water_low" (advised (Insights.getInsights currentData goals trend)).
Proof.
  intros Hc Hg Hpos Hzero. split.
  - rewrite achieved_getAchievements, Hc, Hg. apply in_or_app. left.
    apply In_when. split; [|reflexivity]. apply ge_Fin. now rewrite Hzero.
  - pose proof (advised_getInsights currentData goals trend) as H.
    cbv zeta in H. rewrite H, Hc, Hg. apply in_or_app. left.
    apply In_band. left. split; [|reflexivity].
    unfold calculateProgress. simpl.
    now rewrite (proj2 (Qeq_bool_iff g 0) Hzero).
Qed.

Lemma zero_goal_badge_and_advice_witness :
  let currentData :=
    {| water := Fin 3000; calories := Fin 0; steps := Fin 0;
       daysTracked := Fin 1 |} in
  let goals :=
    {| Insights.Goals.water := Fin 0; Insights.Goals.calories := Fin 2000;
       Insights.Goals.steps := Fin 10000 |} in
  In "water_goal" (achieved (Insights.getAchievements currentData goals))
  /\ In "water_low"
       (advised (Insights.getInsights currentData goals "stable")).
Proof.
  cbv zeta.
  apply (zero_goal_badge_and_advice _ _ "stable" 3000 0);
    [reflexivity|reflexivity|discriminate|reflexivity].
Defined.

(** X19. For a water goal above zero, the rounding of the percentage
    moves the limits of the insights by half a point.  With the percentage
    of double arithmetic (the double nearest to [current / goal], times
    100, rounded to a double), the advice for a low intake is given exactly
    when the percentage is below 49.5, and the praise for meeting the goal
    exactly when it is 99.5 at least, while the badge of
    the goal is granted only from the goal itself.  The praise is given
    whenever the badge is, and it is given without the badge for
    percentages from 99.5 up to the goal. *)
Theorem insight_limits
  (currentData : Averages) (goals : Insights.Goals.t) (trend : string)
  (c g : Q) :
  water currentData = Fin c ->
  Insights.Goals.water goals = Fin g ->
  0 < g ->
  let insights := advised (Insights.getInsights currentData goals trend) in
  let badges := achieved (Insights.getAchievements currentData goals) in
  (In "water_low" insights
   <-> Num.lt (percentage c g) (Fin (99 # 2)) = true)
  /\ (In "water_excellent" insights
      <-> Insights.ge (percentage c g) (Fin (199 # 2)) = true)
  /\ (In "water_goal" badges <-> g <= c)
  /\ (g <= c -> In "water_excellent" insights).
Proof.
  intros Hc Hg Hpos. cbv zeta.
  pose proof (advised_getInsights currentData goals trend) as H.
  cbv zeta in H. rewrite H, achieved_getAchievements, Hc, Hg. clear H.
  rewrite !in_app_iff, !In_band, !In_when.
  assert (Hfull : g <= c ->
                  Insights.ge (percentage c g) (Fin (199 # 2)) = true).
  { intros Hle.
    destruct (percentage_full c g Hpos Hle) as [-> | (p & -> & Hp)];
      [reflexivity|]. apply ge_Fin. lra. }
  pose proof (percentage_apart (percentage c g)) as Hapart.
  rewrite <- (progress_low c g Hpos) in *.
  rewrite <- (progress_high c g Hpos) in *.
  rewrite <- (ge_Fin c g) in *.
  destruct (Num.lt (calculateProgress (Fin c) (Fin g)) (Fin 50));
    destruct (Insights.ge (calculateProgress (Fin c) (Fin g)) (Fin 100));
    try (exfalso; now apply Hapart);
    destruct (Insights.ge (Fin c) (Fin g));
    intuition congruence.
Qed.

Lemma insight_limits_witness :
  let currentData :=
    {| water := Fin 1995; calories := Fin 0; steps := Fin 0;
       daysTracked := Fin 1 |} in
  let goals :=
    {| Insights.Goals.water := Fin 2000; Insights.Goals.calories := Fin 2000;
       Insights.Goals.steps := Fin 10000 |} in
  In "water_excellent"
    (advised (Insights.getInsights currentData goals "stable"))
  /\ ~ In "water_goal"
         (achieved (Insights.getAchievements currentData goals)).
Proof.
  cbv zeta.
  destruct (insight_limits
              {| water := Fin 1995; calories := Fin 0; steps := Fin 0;
                 daysTracked := Fin 1 |}
              {| Insights.Goals.water := Fin 2000;
                 Insights.Goals.calories := Fin 2000;
                 Insights.Goals.steps := Fin 10000 |}
              "stable" 1995 2000 eq_refl eq_refl eq_refl)
    as (_ & Hhigh & Hbadge & _).
  split.
  - apply Hhigh. vm_compute. reflexivity.
  - intros H. apply Hbadge in H. now apply H.
Defined.

(** The limits are those of the percentage in doubles, not of the exact
    quotient: for the two doubles below the intake is less than 49.5 % of
    the goal, the percentage comes out as 49.5 and no advice for a low
    intake is given. *)
Example insight_limit_in_doubles :
  let c := 6572409875862727 # 4398046511104 in
  let g := 6638797854406795 # 2199023255552 in
  c < (99 # 200) * g
  /\ percentage c g = Fin (99 # 2)
  /\ ~ In "water_low"
         (advised
            (Insights.getInsights
               {| water := Fin c; calories := Fin 0; steps := Fin 0;
                  daysTracked := Fin 1 |}
               {| Insights.Goals.water := Fin g;
                  Insights.Goals.calories := Fin 2000;
                  Insights.Goals.steps := Fin 10000 |} "stable")).
Proof.
  cbv zeta. split; [reflexivity|]. split; [vm_compute; reflexivity|].
  vm_compute. intuition discriminate.
Qed.

(** * The chart and the summary *)

Lemma find_stored isWeb localeCompare st startDate endDate d :
  reaches isWeb st ->
  find (fun e => date e =? d)
    (getEntriesForDateRange isWeb localeCompare st startDate endDate)
  = entry_within st startDate endDate d.
Proof.
  intros H. destruct (reaches_entries isWeb st H) as [Hkeys Hall].
  pose proof (getEntriesForDateRange_Permutation isWeb localeCompare st
                startDate endDate) as Hperm.
  unfold entry_within.
  destruct (find _ _) as [e|] eqn:Efind.
  - apply find_some in Efind. destruct Efind as [Hin Hdate].
    apply String.eqb_eq in Hdate.
    apply (Permutation_in _ Hperm), filter_In in Hin.
    destruct Hin as [Hin Hrange]. unfold Object_values in Hin.
    apply in_map_iff in Hin. destruct Hin as ([k e'] & Heq & Hin).
    simpl in Heq. subst e'.
    destruct (Hall k e Hin) as [Hk _]. rewrite Hdate in Hk. subst k.
    now rewrite (In_own _ _ _ Hkeys Hin), Hrange.
  - destruct (own d (stored_entries st)) as [e|] eqn:Eown; [|reflexivity].
    destruct (in_range startDate endDate e) eqn:Hrange; [|reflexivity].
    exfalso. apply own_In in Eown. destruct (Hall d e Eown) as [Hdate _].
    assert (Hin : In e (getEntriesForDateRange isWeb localeCompare st
                          startDate endDate)).
    { apply (Permutation_in _ (Permutation_sym Hperm)), filter_In.
      split; [|exact Hrange]. unfold Object_values.
      apply in_map_iff. now exists (d, e). }
    pose proof (find_none _ _ Efind e Hin) as Hnone. cbv beta in Hnone.
    rewrite Hdate, String.eqb_refl in Hnone. discriminate.
Qed.

Lemma chart_loop_map entries dateStr label count :
  forall i chartData,
    Insights.chart_loop entries dateStr label i count chartData
    = (chartData
       ++ map (fun j =>
                 chart_point (find (fun e => date e =? dateStr j) entries)
                   (dateStr j) (label j))
            (seq i count))%list.
Proof.
  induction count as [|count IH]; intros i chartData; simpl.
  - now rewrite app_nil_r.
  - rewrite IH, <- app_assoc. reflexivity.
Qed.

(** X20. On a reachable store the chart of [getChartData] has exactly one
    point for each day of the loop, in order; the point of a day carries
    the date and the label of the day and the measures of the entry that
    the store keeps under that date (a [null] measure counting for zero),
    and zeros when the store keeps no entry under the date or when the date
    lies outside the range that was queried. *)
Theorem getChartData_days
  (isWeb : bool) (localeCompare : string -> string -> Z) (st : Storage)
  (startDate endDate : string) (dateStr label : nat -> string)
  (days : nat) :
  reaches isWeb st ->
  let chart :=
    Insights.getChartData isWeb localeCompare st startDate endDate
      dateStr label days in
  List.length chart = days
  /\ forall i,
       (i < days)%nat ->
       nth_error chart i
       = Some (chart_point
                 (entry_within st startDate endDate (dateStr i))
                 (dateStr i) (label i)).
Proof.
  intros H. cbv zeta. unfold Insights.getChartData.
  rewrite chart_loop_map. cbn [app]. split.
  - now rewrite length_map, length_seq.
  - intros i Hi. rewrite nth_error_map, nth_error_seq.
    destruct (Nat.ltb_spec i days) as [_|Hge]; [|lia].
    cbn [option_map Nat.add]. now rewrite (find_stored _ _ _ _ _ _ H).
Qed.

Lemma getChartData_days_witness :
  reaches true store_2
  /\ nth_error
       (Insights.getChartData true codeunit_compare store_2
          "2025-01-02" "2025-01-03"
          (fun i => nth i ["2025-01-02"; "2025-01-03"] "")
          (fun i => nth i ["Thu"; "Fri"] "") 2) 1
     = Some {| Insights.ChartPoint.date := "2025-01-03";
               Insights.ChartPoint.water := Fin 0;
               Insights.ChartPoint.calories := Fin 0;
               Insights.ChartPoint.steps := Fin 0;
               Insights.ChartPoint.label := "Fri" |}.
Proof.
  split; [exact store_2_reaches|].
  apply (getChartData_days true codeunit_compare store_2
           "2025-01-02" "2025-01-03"
           (fun i => nth i ["2025-01-02"; "2025-01-03"] "")
           (fun i => nth i ["Thu"; "Fri"] "") 2 store_2_reaches).
  apply Nat.lt_succ_diag_r.
Defined.

Lemma getEntriesForDateRange_none isWeb localeCompare st a b :
  (forall e,
     In e (Object_values (stored_entries st)) -> in_range a b e = false) ->
  getEntriesForDateRange isWeb localeCompare st a b = [].
Proof.
  intros H. rewrite getEntriesForDateRange_unfold.
  replace (filter (in_range a b) (Object_values (stored_entries st)))
    with (@nil DailyEntry); [reflexivity|].
  symmetry. induction (Object_values (stored_entries st)) as [|e rest IH];
    simpl; [reflexivity|].
  rewrite (H e) by now left. apply IH. intros e' He'. apply H. now right.
Qed.

Lemma leb_refl (s : string) : String.leb s s = true.
Proof.
  now destruct (String.leb_total s s).
Qed.

Lemma daysTracked_found isWeb localeCompare st a b e :
  In e (Object_values (stored_entries st)) ->
  in_range a b e = true ->
  exists n,
    daysTracked (getWeeklyAverages isWeb localeCompare st a b)
    = Num.of_Z (Z.of_nat (S n)).
Proof.
  intros Hin Hrange.
  destruct (getWeeklyAverages_over_found isWeb localeCompare st a b)
    as (Hlength & _ & Hfound & _).
  cbv zeta in Hfound.
  assert (Hne : getEntriesForDateRange isWeb localeCompare st a b <> []).
  { intros Hnil. rewrite Hnil in Hlength.
    assert (Hfiltered : In e (filter (in_range a b)
                                (Object_values (stored_entries st))))
      by (apply filter_In; now split).
    destruct (filter (in_range a b) (Object_values (stored_entries st)));
      [contradiction|discriminate]. }
  destruct (Hfound Hne) as (_ & _ & _ & k & -> & Hk).
  exists (Z.to_nat (k - 1)). f_equal. lia.
Qed.

(** X21. When the store keeps no entry dated from [lastWeek] to
    [thisWeek], the summary reports the trend "new" whatever the present
    week holds, and all-zero averages for the last week. *)
Theorem getSummaryStats_new
  (isWeb : bool) (localeCompare : string -> string -> Z) (st : Storage)
  (today thisWeek lastWeek : string) :
  (forall e,
     In e (Object_values (stored_entries st)) ->
     in_range lastWeek thisWeek e = false) ->
  let summary :=
    Insights.getSummaryStats isWeb localeCompare st today thisWeek lastWeek in
  Insights.Summary.trend summary = "new"
  /\ Insights.Summary.lastWeek summary = no_averages.
Proof.
  intros H. cbv zeta. unfold Insights.getSummaryStats. cbv zeta.
  cbn [Insights.Summary.trend Insights.Summary.lastWeek].
  assert (Hlast : getWeeklyAverages isWeb localeCompare st lastWeek thisWeek
                  = no_averages).
  { unfold getWeeklyAverages.
    now rewrite (getEntriesForDateRange_none _ _ _ _ _ H). }
  rewrite Hlast. split; reflexivity.
Qed.

Lemma getSummaryStats_new_witness :
  Insights.Summary.trend
    (Insights.getSummaryStats true codeunit_compare store_2
       "2025-01-02" "2024-12-26" "2024-12-19") = "new".
Proof.
  apply (getSummaryStats_new true codeunit_compare store_2
           "2025-01-02" "2024-12-26" "2024-12-19").
  intros e [<-|[<-|[]]]; reflexivity.
Defined.

(** X22. The two windows of the summary share the day [thisWeek]: an
    entry of that day is counted in the averages of the present week and
    in those of the last week, so each of the two has tracked at least one
    day. *)
Theorem getSummaryStats_shared_day
  (isWeb : bool) (localeCompare : string -> string -> Z) (st : Storage)
  (today thisWeek lastWeek : string) (e : DailyEntry) :
  In e (Object_values (stored_entries st)) ->
  date e = thisWeek ->
  String.leb lastWeek thisWeek = true ->
  String.leb thisWeek today = true ->
  let summary :=
    Insights.getSummaryStats isWeb localeCompare st today thisWeek lastWeek in
  In e (getEntriesForDateRange isWeb localeCompare st thisWeek today)
  /\ In e (getEntriesForDateRange isWeb localeCompare st lastWeek thisWeek)
  /\ (exists n,
        daysTracked (Insights.Summary.thisWeek summary)
        = Num.of_Z (Z.of_nat (S n)))
  /\ (exists n,
        daysTracked (Insights.Summary.lastWeek summary)
        = Num.of_Z (Z.of_nat (S n))).
Proof.
  intros Hin Hdate Hlast Htoday. cbv zeta.
  assert (Hthis : in_range thisWeek today e = true).
  { unfold in_range. now rewrite Hdate, leb_refl, Htoday. }
  assert (Hprev : in_range lastWeek thisWeek e = true).
  { unfold in_range. now rewrite Hdate, leb_refl, Hlast. }
  unfold Insights.getSummaryStats. cbv zeta.
  cbn [Insights.Summary.thisWeek Insights.Summary.lastWeek].
  split; [|split; [|split]].
  - apply (Permutation_in _
             (Permutation_sym
                (getEntriesForDateRange_Permutation _ _ _ _ _))).
    apply filter_In. now split.
  - apply (Permutation_in _
             (Permutation_sym
                (getEntriesForDateRange_Permutation _ _ _ _ _))).
    apply filter_In. now split.
  - now apply daysTracked_found with (e := e).
  - now apply daysTracked_found with (e := e).
Qed.

Lemma getSummaryStats_shared_day_witness :
  let summary :=
    Insights.getSummaryStats true codeunit_compare store_2
      "2025-01-08" "2025-01-01" "2024-12-25" in
  (exists n,
     daysTracked (Insights.Summary.thisWeek summary)
     = Num.of_Z (Z.of_nat (S n)))
  /\ (exists n,
        daysTracked (Insights.Summary.lastWeek summary)
        = Num.of_Z (Z.of_nat (S n))).
Proof.
  cbv zeta.
  apply (getSummaryStats_shared_day true codeunit_compare store_2
           "2025-01-08" "2025-01-01" "2024-12-25"
           (match own "2025-01-01" (stored_entries store_2) with
            | Some e => e
            | None => entry_2
            end)); try reflexivity.
  left. reflexivity.
Defined.

(** * The callers of the store *)

(** ** The counters of the home screen *)

Lemma saveDailyEntry_valid isWeb st Date_now toISOString day w c s :
  day <> "" ->
  passes 10000 w -> passes 10000 c -> passes 100000 s ->
  saveDailyEntry isWeb st Date_now toISOString (VStr day) w c s
  = Ok (with_DAILY_ENTRIES
          (Some (assign day
                   {| id := Date_now; date := day;
                      water_ml := JSON_number (number_of w);
                      Database.calories := JSON_number (number_of c);
                      Database.steps := JSON_number (number_of s);
                      created_at := toISOString |}
                   (stored_entries st))) st,
        {| changes := 1; lastInsertRowid := Date_now |}).
Proof.
  intros Hday Hw Hc Hs.
  assert (Hvalid : validateDailyEntry w c s = [])
    by now apply validateDailyEntry_nil.
  unfold saveDailyEntry. rewrite Hvalid. simpl.
  destruct (String.eqb_spec day ""); [contradiction|].
  now destruct isWeb.
Qed.

Lemma not_inherited_proto (k : string) : inherited k = false -> k <> "__proto__".
Proof.
  intros H ->. discriminate.
Qed.

(** X23. The home screen saves its counters without looking at the
    answer: once the water counter stands above 10000 the entry of the day
    is refused and the store stays as it is, while the screen goes on
    counting.  Forty-one glasses of 250 ml from zero are enough. *)
Theorem saveDataToDatabase_over_limit
  (isWeb : bool) (st : Storage) (today : string) (Date_now : Z)
  (toISOString : string) (state : HomeScreen.State) (q : Q) :
  HomeScreen.waterCount state = Fin q ->
  10000 < q ->
  HomeScreen.saveDataToDatabase isWeb st today Date_now toISOString state
  = st.
Proof.
  intros Hwater Hq. unfold HomeScreen.saveDataToDatabase.
  rewrite saveDailyEntry_invalid; [reflexivity|].
  rewrite Hwater. intros [Hw _]. inversion Hw; subst. lra.
Qed.

Lemma saveDataToDatabase_over_limit_witness :
  HomeScreen.waterCount (Nat.iter 41 HomeScreen.addWater HomeScreen.initial)
  = Fin 10250
  /\ HomeScreen.saveDataToDatabase true store_2 "2025-01-03" 1735862400000
       "2025-01-03T00:00:00.000Z"
       (Nat.iter 41 HomeScreen.addWater HomeScreen.initial)
     = store_2.
Proof.
  split; [reflexivity|].
  apply (saveDataToDatabase_over_limit true store_2 "2025-01-03"
           1735862400000 "2025-01-03T00:00:00.000Z"
           (Nat.iter 41 HomeScreen.addWater HomeScreen.initial) 10250);
    reflexivity.
Defined.

(** X24. Counters within the bounds that the home screen has saved are
    the counters that it loads again: after [saveDataToDatabase],
    [loadTodayData] of the same day sets the three counters to the numbers
    saved, and writes no entry. *)
Theorem saveDataToDatabase_loadTodayData
  (isWeb : bool) (st : Storage) (today : string) (Date_now Date_now' : Z)
  (toISOString toISOString' : string) (w c s : Q)
  (state' : HomeScreen.State) :
  today <> "" ->
  today <> "__proto__" ->
  0 <= w <= 10000 ->
  0 <= c <= 10000 ->
  0 <= s <= 100000 ->
  let state :=
    {| HomeScreen.waterCount := Fin w; HomeScreen.calories := Fin c;
       HomeScreen.steps := Fin s |} in
  let st1 :=
    HomeScreen.saveDataToDatabase isWeb st today Date_now toISOString state in
  exists st2 w' c' s',
    HomeScreen.loadTodayData isWeb st1 today Date_now' toISOString' state'
    = (st2,
       {| HomeScreen.waterCount := Fin w'; HomeScreen.calories := Fin c';
          HomeScreen.steps := Fin s' |})
    /\ w' == w /\ c' == c /\ s' == s
    /\ stored_entries st2 = stored_entries st1.
Proof.
  intros Hday Hproto [Hw0 Hw1] [Hc0 Hc1] [Hs0 Hs1]. cbv zeta.
  unfold HomeScreen.saveDataToDatabase.
  cbn [HomeScreen.waterCount HomeScreen.calories HomeScreen.steps].
  rewrite saveDailyEntry_valid; try assumption; try now constructor.
  unfold HomeScreen.loadTodayData.
  rewrite initDatabase_unfold, getTodayEntry_unfold.
  cbn [stored_entries with_DAILY_ENTRIES DAILY_ENTRIES parse_or number_of
         JSON_number].
  fold (stored_entries st).
  rewrite get_assign_same by assumption.
  cbn [or_null water_ml Database.calories Database.steps].
  destruct (or_zero_measure (Some w)) as (w' & -> & Hw').
  destruct (or_zero_measure (Some c)) as (c' & -> & Hc').
  destruct (or_zero_measure (Some s)) as (s' & -> & Hs').
  eexists. exists w', c', s'. split; [reflexivity|].
  repeat split; assumption.
Qed.

Lemma saveDataToDatabase_loadTodayData_witness :
  exists st2 w' c' s',
    HomeScreen.loadTodayData true
      (HomeScreen.saveDataToDatabase true store_2 "2025-01-03" 1735862400000
         "2025-01-03T00:00:00.000Z"
         {| HomeScreen.waterCount := Fin 750; HomeScreen.calories := Fin 0;
            HomeScreen.steps := Fin 5000 |})
      "2025-01-03" 1735866000000 "2025-01-03T01:00:00.000Z"
      HomeScreen.initial
    = (st2,
       {| HomeScreen.waterCount := Fin w'; HomeScreen.calories := Fin c';
          HomeScreen.steps := Fin s' |})
    /\ w' == 750 /\ c' == 0 /\ s' == 5000.
Proof.
  destruct (saveDataToDatabase_loadTodayData true store_2 "2025-01-03"
              1735862400000 1735866000000 "2025-01-03T00:00:00.000Z"
              "2025-01-03T01:00:00.000Z" 750 0 5000 HomeScreen.initial)
    as (st2 & w' & c' & s' & Hload & Hw & Hc & Hs & _);
    try discriminate; try (split; discriminate).
  exists st2, w', c', s'. repeat split; assumption.
Defined.

(** X25. The first [loadTodayData] of a day, on a store that has no entry
    of the day, writes the entry of the day with the three measures at
    zero and leaves the counters of the screen as they are. *)
Theorem loadTodayData_first
  (isWeb : bool) (st : Storage) (today : string) (Date_now : Z)
  (toISOString : string) (state : HomeScreen.State) :
  today <> "" ->
  get today (stored_entries st) = Missing ->
  exists st' e,
    HomeScreen.loadTodayData isWeb st today Date_now toISOString state
    = (st', state)
    /\ getTodayEntry isWeb st' today = Entry e
    /\ date e = today
    /\ water_ml e = Some 0
    /\ Database.calories e = Some 0
    /\ Database.steps e = Some 0.
Proof.
  intros Hday Hmissing.
  assert (Hproto : today <> "__proto__").
  { apply not_inherited_proto. unfold get in Hmissing.
    destruct (own today (stored_entries st)); [discriminate|].
    now destruct (inherited today). }
  unfold HomeScreen.loadTodayData.
  rewrite initDatabase_unfold, getTodayEntry_unfold.
  cbn [stored_entries DAILY_ENTRIES parse_or]. fold (stored_entries st).
  rewrite Hmissing. cbn [or_null].
  rewrite saveDailyEntry_valid; try assumption;
    try (apply passes_range; discriminate).
  do 2 eexists. split; [reflexivity|].
  rewrite getTodayEntry_unfold.
  cbn [stored_entries with_DAILY_ENTRIES DAILY_ENTRIES parse_or].
  rewrite get_assign_same by assumption.
  repeat split.
Qed.

Lemma loadTodayData_first_witness :
  exists st' e,
    HomeScreen.loadTodayData true store_2 "2025-01-03" 1735862400000
      "2025-01-03T00:00:00.000Z" HomeScreen.initial
    = (st', HomeScreen.initial)
    /\ getTodayEntry true st' "2025-01-03" = Entry e
    /\ water_ml e = Some 0.
Proof.
  destruct (loadTodayData_first true store_2 "2025-01-03" 1735862400000
              "2025-01-03T00:00:00.000Z" HomeScreen.initial)
    as (st' & e & Hload & Hget & _ & Hwater & _);
    [discriminate|reflexivity|].
  exists st', e. split; [exact Hload|]. split; [exact Hget|exact Hwater].
Defined.

(** ** The profile in memory and the stored one *)

Lemma validateUserProfile_admitted (profile : props value) :
  admitted_name (field "name" profile) ->
  (forall name lo hi,
     In (name, (lo, hi)) ranges -> admitted lo hi (field name profile)) ->
  validateUserProfile profile = [].
Proof.
  intros Hname Hfields. apply validateUserProfile_nil. split.
  - cbv zeta. destruct Hname; simpl; try reflexivity. apply andb_false_r.
  - intros name lo hi Hin. apply admitted_range_test. now apply Hfields.
Qed.

Lemma validateUserProfile_refused (profile : props value) name lo hi :
  In (name, (lo, hi)) ranges ->
  refused lo hi (field name profile) ->
  validateUserProfile profile <> [].
Proof.
  intros Hin Hrefused. rewrite validateUserProfile_nil. intros [_ H].
  specialize (H name lo hi Hin).
  rewrite (refused_range_test lo hi _ Hrefused) in H. discriminate.
Qed.

Lemma ranges_not_updated_at name lo hi :
  In (name, (lo, hi)) ranges -> name <> "updated_at" /\ name <> "name".
Proof.
  intros H. simpl in H.
  repeat (destruct H as [H|H]; [inversion H; subst; split; discriminate|]).
  contradiction.
Qed.

Lemma getUserProfile_stored isWeb st (profile : props value) :
  getUserProfile isWeb (with_USER_PROFILE (Some profile) st) = Some profile.
Proof.
  unfold getUserProfile. now destruct isWeb.
Qed.

(** X26. [updateProfile] sets the profile in memory before it saves: when
    an update puts a value that the validation refuses into one of the five
    numeric fields, the promise rejects with the error of the validation
    and nothing is stored, and yet the profile in memory holds the refused
    value. *)
Theorem updateProfile_no_rollback
  (isWeb : bool) (st : Storage) (profile : props value)
  (now saveNow : string) (updates : props value)
  (k : string) (lo hi : Q) (v : value) :
  distinct_keys updates ->
  In (k, (lo, hi)) ranges ->
  own k updates = Some v ->
  refused lo hi v ->
  let outcome :=
    UserProfileContext.updateProfile isWeb st profile now saveNow updates in
  field k (fst outcome) = v
  /\ snd outcome
     = Throw ("Failed to save user profile: Invalid profile data: "
              ++ String.concat ", " (validateUserProfile (fst outcome))).
Proof.
  intros Hkeys Hin Hown Hrefused. cbv zeta.
  unfold UserProfileContext.updateProfile. cbv zeta. cbn [fst snd].
  destruct (ranges_not_updated_at k lo hi Hin) as [Hk _].
  assert (Hfield :
            field k
              (define "updated_at" (VStr now)
                 (spread updates (spread profile [])))
            = v).
  { rewrite field_define_other by assumption.
    now rewrite (field_spread _ _ _ Hkeys), Hown. }
  split; [exact Hfield|].
  rewrite saveUserProfile_invalid; [reflexivity|].
  apply (validateUserProfile_refused _ k lo hi Hin). now rewrite Hfield.
Qed.

Lemma updateProfile_no_rollback_witness :
  let outcome :=
    UserProfileContext.updateProfile true store_2 profile_0
      "2025-01-03T00:00:00.000Z" "2025-01-03T00:00:00.001Z"
      [("weight_kg", VNum (Fin 1000))] in
  field "weight_kg" (fst outcome) = VNum (Fin 1000)
  /\ snd outcome
     = Throw ("Failed to save user profile: Invalid profile data: "
              ++ "Weight must be between 20 and 500 kg").
Proof.
  cbv zeta.
  apply (updateProfile_no_rollback true store_2 profile_0
           "2025-01-03T00:00:00.000Z" "2025-01-03T00:00:00.001Z"
           [("weight_kg", VNum (Fin 1000))] "weight_kg" 20 500
           (VNum (Fin 1000))).
  - repeat constructor. simpl. tauto.
  - left. reflexivity.
  - reflexivity.
  - apply refused_high; [discriminate|reflexivity].
Defined.

Lemma saveUserProfile_Ok isWeb st toISOString profile st' r :
  saveUserProfile isWeb st toISOString profile = Ok (st', r) ->
  st' = with_USER_PROFILE
          (Some (JSON_props
                   (define "updated_at" (VStr toISOString)
                      (spread profile [("id", VNum (Fin 1))])))) st.
Proof.
  intros H.
  destruct (validateUserProfile profile) as [|message rest] eqn:E.
  - rewrite (saveUserProfile_valid _ _ _ _ E) in H. now inversion H.
  - rewrite saveUserProfile_invalid in H by (rewrite E; discriminate).
    discriminate.
Qed.

Lemma distinct_keys_goals (goals : Insights.Goals.t) :
  distinct_keys
    [ ("daily_water_goal_ml", VNum (Insights.Goals.water goals));
      ("daily_calorie_goal", VNum (Insights.Goals.calories goals));
      ("daily_step_goal", VNum (Insights.Goals.steps goals)) ].
Proof.
  unfold distinct_keys. simpl.
  repeat constructor; simpl; intuition discriminate.
Qed.

Lemma own_stored_profile (k : string) (toISOString : string)
  (profile : props value) :
  distinct_keys profile ->
  k <> "updated_at" ->
  k <> "id" ->
  own k (JSON_props
           (define "updated_at" (VStr toISOString)
              (spread profile [("id", VNum (Fin 1))])))
  = JSON_property (own k profile).
Proof.
  intros Hkeys Hupdated Hid.
  rewrite own_JSON_props
    by (apply distinct_keys_define, distinct_keys_spread;
        repeat constructor; simpl; tauto).
  rewrite own_define_other by assumption.
  rewrite (own_spread _ _ _ Hkeys).
  destruct (own k profile); [reflexivity|]. cbn [own].
  destruct (String.eqb_spec "id" k); [congruence|reflexivity].
Qed.

(** X27. When [updateGoals] resolves, the profile in memory is the old
    one with the three goals replaced and [updated_at] set to the time of
    the call; the stored profile holds the JSON images of the three goals,
    every other property of the old profile but [id] and [updated_at] as
    JSON keeps it, and as [updated_at] the time at which [saveUserProfile]
    read the clock, which is not the one in memory. *)
Theorem updateGoals_stored
  (isWeb : bool) (st st' : Storage) (profile profile' : props value)
  (now saveNow : string) (goals : Insights.Goals.t) :
  distinct_keys profile ->
  snd (UserProfileContext.updateGoals isWeb st profile now saveNow goals)
  = Ok (st', profile') ->
  fst (UserProfileContext.updateGoals isWeb st profile now saveNow goals)
  = profile'
  /\ field "updated_at" profile' = VStr now
  /\ field "daily_water_goal_ml" profile' = VNum (Insights.Goals.water goals)
  /\ exists stored,
       getUserProfile isWeb st' = Some stored
       /\ field "updated_at" stored = VStr saveNow
       /\ field "daily_water_goal_ml" stored
          = JSON_image (VNum (Insights.Goals.water goals))
       /\ field "daily_calorie_goal" stored
          = JSON_image (VNum (Insights.Goals.calories goals))
       /\ field "daily_step_goal" stored
          = JSON_image (VNum (Insights.Goals.steps goals))
       /\ forall k,
            k <> "daily_water_goal_ml" -> k <> "daily_calorie_goal" ->
            k <> "daily_step_goal" -> k <> "updated_at" -> k <> "id" ->
            own k stored = JSON_property (own k profile).
Proof.
  intros Hkeys. unfold UserProfileContext.updateGoals.
  unfold UserProfileContext.updateProfile. cbv zeta. cbn [fst snd].
  set (updates :=
         [ ("daily_water_goal_ml", VNum (Insights.Goals.water goals));
           ("daily_calorie_goal", VNum (Insights.Goals.calories goals));
           ("daily_step_goal", VNum (Insights.Goals.steps goals)) ]).
  set (updatedProfile :=
         define "updated_at" (VStr now) (spread updates (spread profile []))).
  pose proof (distinct_keys_goals goals) as Hupdates. fold updates in Hupdates.
  assert (Hdistinct : distinct_keys updatedProfile).
  { apply distinct_keys_define. repeat apply distinct_keys_spread.
    constructor. }
  assert (Hgoal :
            forall k v,
              own k updates = Some v -> k <> "updated_at" ->
              field k updatedProfile = v).
  { intros k v Hown Hk. unfold updatedProfile.
    rewrite field_define_other by assumption.
    now rewrite (field_spread _ _ _ Hupdates), Hown. }
  destruct (saveUserProfile isWeb st saveNow updatedProfile)
    as [[st1 r]|message] eqn:Hsave; [|discriminate].
  intros H. inversion H; subst st1 profile'. clear H.
  apply saveUserProfile_Ok in Hsave. subst st'.
  split; [reflexivity|]. split.
  { unfold updatedProfile. apply field_define_same. }
  split; [now apply Hgoal|].
  eexists. split; [apply getUserProfile_stored|].
  assert (Hstored :
            forall k,
              k <> "updated_at" -> k <> "id" ->
              field k
                (JSON_props
                   (define "updated_at" (VStr saveNow)
                      (spread updatedProfile [("id", VNum (Fin 1))])))
              = JSON_image (field k updatedProfile)).
  { intros k Hupdated Hid. unfold field at 1.
    rewrite (own_stored_profile _ _ _ Hdistinct Hupdated Hid).
    unfold field. destruct (own k updatedProfile) as [v|]; [|reflexivity].
    destruct (value_eq_undefined v) as [->|Hv]; [reflexivity|].
    now rewrite (JSON_property_defined v Hv). }
  split.
  { rewrite field_JSON_props
      by (apply distinct_keys_define, distinct_keys_spread;
          repeat constructor; simpl; tauto).
    now rewrite field_define_same. }
  split; [rewrite Hstored by discriminate; f_equal; now apply Hgoal|].
  split; [rewrite Hstored by discriminate; f_equal; now apply Hgoal|].
  split; [rewrite Hstored by discriminate; f_equal; now apply Hgoal|].
  intros k Hwater Hcalories Hsteps Hupdated Hid.
  rewrite (own_stored_profile _ _ _ Hdistinct Hupdated Hid).
  unfold updatedProfile. rewrite own_define_other by assumption.
  rewrite (own_spread _ _ _ Hupdates).
  replace (own k updates) with (@None value).
  - now rewrite (own_spread_nil _ _ Hkeys).
  - unfold updates. cbn [own].
    destruct (String.eqb_spec "daily_water_goal_ml" k); [congruence|].
    destruct (String.eqb_spec "daily_calorie_goal" k); [congruence|].
    destruct (String.eqb_spec "daily_step_goal" k); [congruence|].
    reflexivity.
Qed.

Lemma profile_0_distinct : distinct_keys profile_0.
Proof.
  unfold distinct_keys, profile_0. simpl.
  repeat constructor; simpl; intuition discriminate.
Qed.

Lemma updateGoals_stored_witness :
  exists st' profile' stored,
    snd (UserProfileContext.updateGoals true store_2 profile_0
           "2025-01-03T00:00:00.000Z" "2025-01-03T00:00:00.001Z"
           {| Insights.Goals.water := Fin 2500;
              Insights.Goals.calories := Fin 1800;
              Insights.Goals.steps := Fin 8000 |})
    = Ok (st', profile')
    /\ getUserProfile true st' = Some stored
    /\ field "updated_at" profile' = VStr "2025-01-03T00:00:00.000Z"
    /\ field "updated_at" stored = VStr "2025-01-03T00:00:00.001Z"
    /\ field "daily_water_goal_ml" stored = VNum (Fin 2500).
Proof.
  destruct (UserProfileContext.updateGoals true store_2 profile_0
              "2025-01-03T00:00:00.000Z" "2025-01-03T00:00:00.001Z"
              {| Insights.Goals.water := Fin 2500;
                 Insights.Goals.calories := Fin 1800;
                 Insights.Goals.steps := Fin 8000 |})
    as [memory [[st' profile']|message]] eqn:E;
    [|vm_compute in E; discriminate].
  destruct (updateGoals_stored true store_2 st' profile_0 profile'
              "2025-01-03T00:00:00.000Z" "2025-01-03T00:00:00.001Z"
              {| Insights.Goals.water := Fin 2500;
                 Insights.Goals.calories := Fin 1800;
                 Insights.Goals.steps := Fin 8000 |} profile_0_distinct)
    as (_ & Hmemory & _ & stored & Hget & Hupdated & Hwater & _).
  - now rewrite E.
  - exists st', profile', stored. repeat split; assumption.
Defined.

(** ** The goals typed in the settings *)

Lemma le_Fin (a b : Q) : Insights.le (Fin a) (Fin b) = true <-> a <= b.
Proof.
  unfold Insights.le. apply ge_Fin.
Qed.

Lemma between_admitted (lo hi : Q) (n : number) :
  Insights.ge n (Fin lo) && Insights.le n (Fin hi) = true ->
  admitted lo hi (VNum n).
Proof.
  intros H. apply andb_true_iff in H. destruct H as [Hlo Hhi].
  destruct n as [| |q|]; try discriminate.
  apply ge_Fin in Hlo. apply le_Fin in Hhi. now constructor.
Qed.

Lemma validateGoal_admitted parseInt (name : string) (lo hi : Q)
  (value : string) :
  In (name, (lo, hi))
    [("water", (500, 5000)); ("calories", (1200, 4000));
     ("steps", (1000, 50000))] ->
  SettingsScreen.validateGoal parseInt name value = true ->
  admitted lo hi (VNum (parseInt value)).
Proof.
  intros Hin. unfold SettingsScreen.validateGoal. cbv zeta.
  destruct (SettingsScreen.isNaN (parseInt value)
            || Insights.le (parseInt value) (Fin 0)); [discriminate|].
  simpl in Hin.
  destruct Hin as [H|[H|[H|[]]]]; inversion H; subst; clear H;
    cbn [String.eqb Ascii.eqb Bool.eqb andb];
    apply between_admitted.
Qed.

(** X28. The ranges of the settings screen are those of the store: when
    [validateGoal] accepts the three texts, whatever [parseInt] makes of
    them, and the profile in memory has a name and a weight and a height
    that the validation admits, [saveGoals] reaches [updateGoals], the
    promise resolves, and the stored profile holds the three numbers as its
    goals. *)
Theorem saveGoals_accepted
  (isWeb : bool) (parseInt : string -> number) (st : Storage)
  (profile : props value) (now saveNow : string)
  (goalInputs : SettingsScreen.GoalInputs) :
  distinct_keys profile ->
  admitted_name (field "name" profile) ->
  admitted 20 500 (field "weight_kg" profile) ->
  admitted 50 300 (field "height_cm" profile) ->
  SettingsScreen.validateGoal parseInt "water"
    (SettingsScreen.water goalInputs) = true ->
  SettingsScreen.validateGoal parseInt "calories"
    (SettingsScreen.calories goalInputs) = true ->
  SettingsScreen.validateGoal parseInt "steps"
    (SettingsScreen.steps goalInputs) = true ->
  exists st' profile' stored,
    SettingsScreen.saveGoals isWeb parseInt st profile now saveNow goalInputs
    = SettingsScreen.Updated profile' (Ok (st', profile'))
    /\ getUserProfile isWeb st' = Some stored
    /\ field "daily_water_goal_ml" stored
       = VNum (parseInt (SettingsScreen.water goalInputs))
    /\ field "daily_calorie_goal" stored
       = VNum (parseInt (SettingsScreen.calories goalInputs))
    /\ field "daily_step_goal" stored
       = VNum (parseInt (SettingsScreen.steps goalInputs)).
Proof.
  intros Hkeys Hname Hweight Hheight Hwater Hcalories Hsteps.
  pose proof (validateGoal_admitted parseInt "water" 500 5000 _
                (or_introl eq_refl) Hwater) as Hw.
  pose proof (validateGoal_admitted parseInt "calories" 1200 4000 _
                (or_intror (or_introl eq_refl)) Hcalories) as Hc.
  pose proof (validateGoal_admitted parseInt "steps" 1000 50000 _
                (or_intror (or_intror (or_introl eq_refl))) Hsteps) as Hs.
  unfold SettingsScreen.saveGoals. cbv zeta.
  rewrite Hwater, Hcalories, Hsteps. cbn [negb Insights.push_when].
  cbn [List.length Nat.ltb Nat.leb].
  set (goals :=
         {| Insights.Goals.water :=
              parseInt (SettingsScreen.water goalInputs);
            Insights.Goals.calories :=
              parseInt (SettingsScreen.calories goalInputs);
            Insights.Goals.steps :=
              parseInt (SettingsScreen.steps goalInputs) |}).
  unfold UserProfileContext.updateGoals, UserProfileContext.updateProfile.
  cbv zeta.
  set (updates :=
         [ ("daily_water_goal_ml", VNum (Insights.Goals.water goals));
           ("daily_calorie_goal", VNum (Insights.Goals.calories goals));
           ("daily_step_goal", VNum (Insights.Goals.steps goals)) ]).
  set (updatedProfile :=
         define "updated_at" (VStr now) (spread updates (spread profile []))).
  pose proof (distinct_keys_goals goals) as Hupdates. fold updates in Hupdates.
  assert (Hdistinct : distinct_keys updatedProfile).
  { apply distinct_keys_define. repeat apply distinct_keys_spread.
    constructor. }
  assert (Hfield :
            forall k,
              k <> "updated_at" ->
              field k updatedProfile
              = match own k updates with
                | Some v => v
                | None => field k profile
                end).
  { intros k Hk. unfold updatedProfile.
    rewrite field_define_other by assumption.
    rewrite (field_spread _ _ _ Hupdates).
    destruct (own k updates); [reflexivity|].
    now apply field_spread_nil. }
  assert (Hvalid : validateUserProfile updatedProfile = []).
  { apply validateUserProfile_admitted.
    - now rewrite Hfield by discriminate.
    - intros name lo hi Hin. simpl in Hin.
      destruct Hin as [H|[H|[H|[H|[H|[]]]]]]; inversion H; subst; clear H;
        rewrite Hfield by discriminate; assumption. }
  rewrite (saveUserProfile_valid _ _ _ _ Hvalid).
  assert (Hstored :
            forall k v,
              own k updates = Some v -> admitted 0 50000 v ->
              k <> "updated_at" -> k <> "id" ->
              field k
                (JSON_props
                   (define "updated_at" (VStr saveNow)
                      (spread updatedProfile [("id", VNum (Fin 1))])))
              = v).
  { intros k v Hown Hv Hupdated Hid. unfold field at 1.
    rewrite (own_stored_profile _ _ _ Hdistinct Hupdated Hid).
    unfold updatedProfile. rewrite own_define_other by assumption.
    rewrite (own_spread _ _ _ Hupdates), Hown.
    destruct Hv; try discriminate Hown; reflexivity. }
  do 3 eexists. split; [reflexivity|].
  split; [apply getUserProfile_stored|].
  split; [|split].
  - apply Hstored; try discriminate; [reflexivity|].
    inversion Hw; subst. constructor; lra.
  - apply Hstored; try discriminate; [reflexivity|].
    inversion Hc; subst. constructor; lra.
  - apply Hstored; try discriminate; [reflexivity|].
    inversion Hs; subst. constructor; lra.
Qed.

Lemma saveGoals_accepted_witness :
  let parseInt (text : string) :=
    if text =? "2500" then Fin 2500
    else if text =? "1800" then Fin 1800
    else if text =? "8000" then Fin 8000
    else NaN in
  exists st' profile' stored,
    SettingsScreen.saveGoals true parseInt store_2 profile_0
      "2025-01-03T00:00:00.000Z" "2025-01-03T00:00:00.001Z"
      {| SettingsScreen.water := "2500"; SettingsScreen.calories := "1800";
         SettingsScreen.steps := "8000" |}
    = SettingsScreen.Updated profile' (Ok (st', profile'))
    /\ getUserProfile true st' = Some stored
    /\ field "daily_water_goal_ml" stored = VNum (Fin 2500).
Proof.
  cbv zeta.
  destruct (saveGoals_accepted true
              (fun text =>
                 if text =? "2500" then Fin 2500
                 else if text =? "1800" then Fin 1800
                 else if text =? "8000" then Fin 8000
                 else NaN)
              store_2 profile_0
              "2025-01-03T00:00:00.000Z" "2025-01-03T00:00:00.001Z"
              {| SettingsScreen.water := "2500";
                 SettingsScreen.calories := "1800";
                 SettingsScreen.steps := "8000" |} profile_0_distinct)
    as (st' & profile' & stored & Hsave & Hget & Hwater & _);
    try reflexivity.
  - apply name_string.
  - apply admitted_number; discriminate.
  - apply admitted_number; discriminate.
  - exists st', profile', stored. repeat split; assumption.
Defined.

(** X29. [loadUserProfile] on a store without a profile stores the
    default profile and sets it in memory: the stored profile has the
    default goals 2000, 2000 and 10000.  On a store with a profile it sets
    that profile and writes nothing. *)
Theorem loadUserProfile_default
  (isWeb : bool) (st : Storage) (created_at updated_at saveNow : string) :
  let defaults := UserProfileContext.defaultProfile created_at updated_at in
  (getUserProfile isWeb st = None ->
   exists st' stored,
     UserProfileContext.loadUserProfile isWeb st defaults saveNow
     = (st', defaults)
     /\ getUserProfile isWeb st' = Some stored
     /\ field "daily_water_goal_ml" stored = VNum (Fin 2000)
     /\ field "daily_calorie_goal" stored = VNum (Fin 2000)
     /\ field "daily_step_goal" stored = VNum (Fin 10000)
     /\ field "created_at" stored = VStr created_at
     /\ field "updated_at" stored = VStr saveNow)
  /\ (forall profile,
        getUserProfile isWeb st = Some profile ->
        UserProfileContext.loadUserProfile isWeb st defaults saveNow
        = (st, profile)).
Proof.
  cbv zeta. split.
  - intros Hnone. unfold UserProfileContext.loadUserProfile.
    rewrite Hnone.
    rewrite saveUserProfile_valid by reflexivity.
    do 2 eexists. split; [reflexivity|].
    split; [apply getUserProfile_stored|].
    repeat split.
  - intros profile Hsome. unfold UserProfileContext.loadUserProfile.
    now rewrite Hsome.
Qed.

Lemma loadUserProfile_default_witness :
  exists st' stored,
    UserProfileContext.loadUserProfile true empty_storage
      (UserProfileContext.defaultProfile "2025-01-01T00:00:00.000Z"
         "2025-01-01T00:00:00.000Z")
      "2025-01-01T00:00:00.250Z"
    = (st',
       UserProfileContext.defaultProfile "2025-01-01T00:00:00.000Z"
         "2025-01-01T00:00:00.000Z")
    /\ getUserProfile true st' = Some stored
    /\ field "daily_step_goal" stored = VNum (Fin 10000)
    /\ field "updated_at" stored = VStr "2025-01-01T00:00:00.250Z".
Proof.
  destruct (proj1 (loadUserProfile_default true empty_storage
                     "2025-01-01T00:00:00.000Z" "2025-01-01T00:00:00.000Z"
                     "2025-01-01T00:00:00.250Z") eq_refl)
    as (st' & stored & Hload & Hget & _ & _ & Hsteps & _ & Hupdated).
  exists st', stored. repeat split; assumption.
Defined.

(** * The documents of the medicines *)

(** X30. [initMedicines] creates the empty map of medicines and the
    empty history where the store has none and keeps what the store has:
    the medicines and the history read as before, both documents exist
    afterwards, and a second call changes nothing. *)
Theorem initMedicines_idempotent (isWeb : bool) (st : Storage) :
  let st1 := initMedicines isWeb st in
  initMedicines isWeb st1 = st1
  /\ MEDICINES st1 = Some (stored_medicines st)
  /\ MEDICINE_DOSE_HISTORY st1 = Some (stored_history st)
  /\ DAILY_ENTRIES st1 = DAILY_ENTRIES st
  /\ USER_PROFILE st1 = USER_PROFILE st.
Proof.
  cbv zeta. unfold initMedicines.
  destruct isWeb, st as [entries profile [medicines|] [history|]];
    repeat split.
Qed.
